(** * BitcoinSignalBot: the backtest engine and the signal deriver

    A shallow embedding of [signalbot/backtest.py] ([backtest_signals]) and
    [signalbot/strategy.py] ([rsi_signal]), and the properties the
    specification states about them.
    The indicator library ([signalbot/indicators.py]) and the trend check
    of the command-line run ([signalbot/main.py]) are embedded as well, with
    further properties of the four files.

    Modelling conventions.
    - A Python [float] is an exact rational ([Q]): the arithmetic of the
      program is followed operation by operation, without rounding, overflow
      or signed zeros.  The two places where the program produces an infinity
      on purpose ([np.inf], [float("inf")]) and the NumPy division that could
      produce a NaN are modelled by [pyfloat], which adds the IEEE special
      values to the rationals.
    - A Python exception is a [Raise] in the error monad [result]; the
      division of two Python floats (or ints) raises [ZeroDivisionError] on a
      zero divisor, the division of two NumPy scalars does not.
    - A pandas timestamp is its number of nanoseconds since the epoch ([Z]).
    - A NaN of a pandas float column (an undefined indicator value) is [None]
      in a [list (option Q)]; every comparison with it is [false]. *)

From Stdlib Require Import QArith Qabs ZArith List String Ascii Bool Lia Lqa.
From Stdlib Require Import Sorted Permutation.
Import ListNotations.
Open Scope Q_scope.

(** ** Python values, exceptions and arithmetic *)

Module Py.

Inductive exn : Type :=
| ValueError (msg : string)
| ZeroDivisionError
| TypeError
| IndexError
| KeyError (name : string).

Inductive result (A : Type) : Type :=
| Ok (a : A)
| Raise (e : exn).
Arguments Ok {A} a.
Arguments Raise {A} e.

Definition ret {A} (a : A) : result A := Ok a.

Definition bind {A B} (c : result A) (k : A -> result B) : result B :=
  match c with
  | Ok a => k a
  | Raise e => Raise e
  end.

Definition raises {A} (c : result A) : Prop := exists e, c = Raise e.

(** [x < y] on floats, as a boolean. *)
Definition Qlt_bool (x y : Q) : bool := negb (Qle_bool y x).

(** [x / y] on Python floats and ints. *)
Definition py_div (x y : Q) : result Q :=
  if Qeq_bool y 0 then Raise ZeroDivisionError else Ok (x / y).

(** The builtin [max(a, b)]: the first argument unless the second is
    strictly larger; [min(a, b)] likewise. *)
Definition py_max (a b : Q) : Q := if Qlt_bool a b then b else a.
Definition py_min (a b : Q) : Q := if Qlt_bool b a then b else a.

(** [max(l)] and [min(l)] of a non-empty list. *)
Definition py_max_list (l : list Q) : Q :=
  match l with
  | [] => 0
  | x :: l' => fold_left py_max l' x
  end.
Definition py_min_list (l : list Q) : Q :=
  match l with
  | [] => 0
  | x :: l' => fold_left py_min l' x
  end.

(** The builtin [sum] (from the left, starting at 0) and [np.sum]. *)
Definition py_sum (l : list Q) : Q := fold_left Qplus l 0.
Definition np_sum (l : list Q) : Q := fold_right Qplus 0 l.

(** [len(l)] as a number. *)
Definition len {A} (l : list A) : Q := inject_Z (Z.of_nat (List.length l)).

(** [np.mean] of a non-empty list. *)
Definition np_mean (l : list Q) : Q := np_sum l / len l.

(** Floats with the IEEE special values. *)
Inductive pyfloat : Type :=
| Fin (q : Q)
| PosInf
| NegInf
| NaN.

Definition is_nan (x : pyfloat) : bool :=
  match x with NaN => true | _ => false end.

(** The division of two NumPy float scalars: a zero divisor gives an
    infinity or a NaN (and a warning), never an exception. *)
Definition np_div (x y : Q) : pyfloat :=
  if Qeq_bool y 0 then
    if Qeq_bool x 0 then NaN
    else if Qlt_bool 0 x then PosInf else NegInf
  else Fin (x / y).

Definition py_abs (x : pyfloat) : pyfloat :=
  match x with
  | Fin q => Fin (Qabs q)
  | PosInf | NegInf => PosInf
  | NaN => NaN
  end.

(** [str.upper] on ASCII letters. *)
Definition upper_ascii (c : ascii) : ascii :=
  let n := nat_of_ascii c in
  if (97 <=? n)%nat && (n <=? 122)%nat then ascii_of_nat (n - 32) else c.

Fixpoint upper (s : string) : string :=
  match s with
  | EmptyString => EmptyString
  | String c s' => String (upper_ascii c) (upper s')
  end.

(** [s in set_of_strings]. *)
Definition mem (s : string) (l : list string) : bool :=
  existsb (String.eqb s) l.

(** A pandas timestamp, in nanoseconds; [Timedelta.total_seconds]. *)
Definition Timestamp : Type := Z.
Definition total_seconds (d : Z) : Q := d # 1000000000.

(** [l[-1]]. *)
Definition last_item {A} (l : list A) : result A :=
  match rev l with
  | [] => Raise IndexError
  | x :: _ => Ok x
  end.

End Py.

Import Py.

Declare Scope py_scope.
Notation "x <- c ;; k" := (bind c (fun x => k))
  (at level 61, c at next level, right associativity) : py_scope.
Open Scope py_scope.
Open Scope string_scope.
Open Scope list_scope.

(** ** The backtest engine ([signalbot/backtest.py]) *)

Module Backtest.

(** The keyword arguments of [backtest_signals]. *)
Record Config : Type := {
  initial_balance : Q;
  buy_signals : list string;
  sell_signals : list string;
  slippage : Q;
  commission : Q
}.

Definition default_config (balance : Q) : Config :=
  {| initial_balance := balance;
     buy_signals := ["BUY"; "STRONG BUY"];
     sell_signals := ["SELL"; "STRONG SELL"];
     slippage := 5 # 10000;
     commission := 7 # 10000 |}.

(** The input table: its index, the two columns the engine reads (when the
    table has them) and the names of its other columns. *)
Record DataFrame : Type := {
  df_index : list Timestamp;
  df_close : option (list Q);
  df_signal : option (list string);
  df_others : list string
}.

Definition df_columns (df : DataFrame) : list string :=
  (match df_close df with Some _ => ["close"] | None => [] end)
    ++ (match df_signal df with Some _ => ["signal"] | None => [] end)
    ++ df_others df.

(** [df.empty]: one of the two axes has length 0. *)
Definition df_empty (df : DataFrame) : bool :=
  (List.length (df_index df) =? 0)%nat
  || (List.length (df_columns df) =? 0)%nat.

(** A bar of the replay: [(timestamp, close, signal)]. *)
Definition Bar : Type := (Timestamp * Q * string)%type.

Definition bar_time (b : Bar) : Timestamp := fst (fst b).
Definition bar_close (b : Bar) : Q := snd (fst b).
Definition bar_signal (b : Bar) : string := snd b.

Fixpoint zip3 (ts : list Timestamp) (cs : list Q) (ss : list string)
  : list Bar :=
  match ts, cs, ss with
  | t :: ts', c :: cs', s :: ss' => (t, c, s) :: zip3 ts' cs' ss'
  | _, _, _ => []
  end.

(** [df.sort_index()]: the rows in increasing order of their timestamp.
    The timestamps of a table are distinct; rows of equal timestamp would
    stay in their input order here. *)
Fixpoint insert_row (r : Bar) (l : list Bar) : list Bar :=
  match l with
  | [] => [r]
  | r' :: l' =>
      if (bar_time r <=? bar_time r')%Z then r :: l
      else r' :: insert_row r l'
  end.

Definition sort_index (rows : list Bar) : list Bar :=
  fold_right insert_row [] rows.

(** A row of the trade log. *)
Record Trade : Type := {
  entry_time : option Timestamp;
  exit_time : Timestamp;
  entry_price : Q;
  exit_price : Q;
  pnl_pct : Q;
  duration_hrs : Q
}.

(** The local variables of the replay loop; [entry_price] and [entry_time]
    are [st_entry_price] and [st_entry_time], the plain names being the keys
    of a trade. *)
Record LoopState : Type := {
  cash : Q;
  position : Q;
  st_entry_price : option Q;
  st_entry_time : option Timestamp;
  trade_log : list Trade;
  pnl_decimals : list Q;
  equity_curve : list Q;
  equity_timestamps : list Timestamp;
  peak_equity : Q;
  max_drawdown : Q
}.

Definition initial_state (cfg : Config) : LoopState :=
  {| cash := initial_balance cfg;
     position := 0;
     st_entry_price := None;
     st_entry_time := None;
     trade_log := [];
     pnl_decimals := [];
     equity_curve := [];
     equity_timestamps := [];
     peak_equity := initial_balance cfg;
     max_drawdown := 0 |}.

Definition buy_set (cfg : Config) : list string := map upper (buy_signals cfg).
Definition sell_set (cfg : Config) : list string := map upper (sell_signals cfg).

(** [(t - entry_time).total_seconds() / 3600.0 if entry_time is not None
    else 0.0]; the divisor is the literal 3600.0. *)
Definition hours_since (entry : option Timestamp) (t : Timestamp) : Q :=
  match entry with
  | Some t0 => total_seconds (t - t0) / 3600
  | None => 0
  end.

(** The [if position == 0 and signal in buy_set] branch. *)
Definition open_long (cfg : Config) (st : LoopState) (timestamp : Timestamp)
    (price : Q) : result LoopState :=
  let commission_fee := cash st * commission cfg in
  let cash_after_fee := cash st - commission_fee in
  let effective_price := price * (1 + slippage cfg) in
  new_position <- py_div cash_after_fee effective_price ;;
  ret {| cash := cash_after_fee - new_position * effective_price;
         position := new_position;
         st_entry_price := Some effective_price;
         st_entry_time := Some timestamp;
         trade_log := trade_log st;
         pnl_decimals := pnl_decimals st;
         equity_curve := equity_curve st;
         equity_timestamps := equity_timestamps st;
         peak_equity := peak_equity st;
         max_drawdown := max_drawdown st |}.

(** The [elif position > 0 and signal in sell_set] branch. *)
Definition close_long (cfg : Config) (st : LoopState) (timestamp : Timestamp)
    (price : Q) : result LoopState :=
  let effective_price := price * (1 - slippage cfg) in
  let gross_proceeds := position st * effective_price in
  let commission_fee := gross_proceeds * commission cfg in
  let proceeds_net := gross_proceeds - commission_fee in
  entry <- match st_entry_price st with
           | Some p => Ok p
           | None => Raise TypeError
           end ;;
  pnl_decimal <- py_div (effective_price - entry) entry ;;
  let duration := hours_since (st_entry_time st) timestamp in
  ret {| cash := cash st + proceeds_net;
         position := 0;
         st_entry_price := None;
         st_entry_time := None;
         trade_log :=
           trade_log st ++
             [ {| entry_time := st_entry_time st;
                  exit_time := timestamp;
                  entry_price := entry;
                  exit_price := effective_price;
                  pnl_pct := pnl_decimal * 100;
                  duration_hrs := duration |} ];
         pnl_decimals := pnl_decimals st ++ [pnl_decimal];
         equity_curve := equity_curve st;
         equity_timestamps := equity_timestamps st;
         peak_equity := peak_equity st;
         max_drawdown := max_drawdown st |}.

(** The three-way branch of the loop body. *)
Definition transition (cfg : Config) (st : LoopState) (b : Bar)
  : result LoopState :=
  if Qeq_bool (position st) 0 && mem (bar_signal b) (buy_set cfg) then
    open_long cfg st (bar_time b) (bar_close b)
  else if Qlt_bool 0 (position st) && mem (bar_signal b) (sell_set cfg) then
    close_long cfg st (bar_time b) (bar_close b)
  else ret st.

(** The end of the loop body: the equity point, the peak and the
    drawdown. *)
Definition mark_to_market (st : LoopState) (b : Bar) : result LoopState :=
  let equity := cash st + position st * bar_close b in
  let peak := py_max (peak_equity st) equity in
  drawdown <- (if Qeq_bool peak 0 then Ok 0
               else py_div (equity - peak) peak) ;;
  ret {| cash := cash st;
         position := position st;
         st_entry_price := st_entry_price st;
         st_entry_time := st_entry_time st;
         trade_log := trade_log st;
         pnl_decimals := pnl_decimals st;
         equity_curve := equity_curve st ++ [equity];
         equity_timestamps := equity_timestamps st ++ [bar_time b];
         peak_equity := peak;
         max_drawdown := py_min (max_drawdown st) drawdown |}.

(** One iteration of [for timestamp, price, signal in zip(...)]. *)
Definition bar_step (cfg : Config) (st : LoopState) (b : Bar)
  : result LoopState :=
  if Qle_bool (bar_close b) 0 then
    Raise (ValueError "Close prices must be positive for backtesting")
  else
    st1 <- transition cfg st b ;;
    mark_to_market st1 b.

(** The loop. *)
Fixpoint replay (cfg : Config) (st : LoopState) (bars : list Bar)
  : result LoopState :=
  match bars with
  | [] => ret st
  | b :: bars' => st' <- bar_step cfg st b ;; replay cfg st' bars'
  end.

(** [equity_curve[-1] = float(cash)], guarded by [if equity_curve]. *)
Definition set_last (l : list Q) (v : Q) : list Q :=
  match l with
  | [] => []
  | _ => removelast l ++ [v]
  end.

(** The block after the loop: [if position > 0 and entry_price is not
    None]. *)
Definition forced_exit (cfg : Config) (st : LoopState) (bars : list Bar)
  : result LoopState :=
  if Qlt_bool 0 (position st) then
    match st_entry_price st with
    | Some entry =>
        final_bar <- last_item bars ;;
        let final_timestamp := bar_time final_bar in
        let price := bar_close final_bar in
        let effective_price := price * (1 - slippage cfg) in
        let gross_proceeds := position st * effective_price in
        let commission_fee := gross_proceeds * commission cfg in
        let proceeds_net := gross_proceeds - commission_fee in
        pnl_decimal <- py_div (effective_price - entry) entry ;;
        let duration := hours_since (st_entry_time st) final_timestamp in
        ret {| cash := cash st + proceeds_net;
               position := 0;
               st_entry_price := None;
               st_entry_time := None;
               trade_log :=
                 trade_log st ++
                   [ {| entry_time := st_entry_time st;
                        exit_time := final_timestamp;
                        entry_price := entry;
                        exit_price := effective_price;
                        pnl_pct := pnl_decimal * 100;
                        duration_hrs := duration |} ];
               pnl_decimals := pnl_decimals st ++ [pnl_decimal];
               equity_curve :=
                 set_last (equity_curve st) (cash st + proceeds_net);
               equity_timestamps := equity_timestamps st;
               peak_equity := peak_equity st;
               max_drawdown := max_drawdown st |}
    | None => ret st
    end
  else ret st.

(** The metrics dictionary: the same keys on every path.  The keys
    [max_drawdown] and [initial_balance] are the fields [m_max_drawdown] and
    [m_initial_balance], the plain names being those of the loop variable
    and of the keyword argument. *)
Record Metrics : Type := {
  total_trades : nat;
  win_rate : Q;
  avg_gain : Q;
  avg_loss : Q;
  profit_factor : pyfloat;
  net_return : Q;
  m_max_drawdown : Q;
  final_balance : Q;
  gross_gain : Q;
  gross_loss : Q;
  best_trade : Q;
  worst_trade : Q;
  win_loss_ratio : pyfloat;
  m_initial_balance : Q;
  avg_hold_hours : Q;
  median_hold_hours : Q;
  exposure_pct : Q
}.

Definition empty_metrics (cfg : Config) : Metrics :=
  {| total_trades := 0;
     win_rate := 0;
     avg_gain := 0;
     avg_loss := 0;
     profit_factor := Fin 0;
     net_return := 0;
     m_max_drawdown := 0;
     final_balance := initial_balance cfg;
     gross_gain := 0;
     gross_loss := 0;
     best_trade := 0;
     worst_trade := 0;
     win_loss_ratio := Fin 0;
     m_initial_balance := initial_balance cfg;
     avg_hold_hours := 0;
     median_hold_hours := 0;
     exposure_pct := 0 |}.

(** The result of [backtest_signals]: the metrics, the trade table and the
    equity series (its index and its values). *)
Definition Outcome : Type :=
  (Metrics * list Trade * list (Timestamp * Q))%type.

Definition out_metrics (o : Outcome) : Metrics := fst (fst o).
Definition out_trades (o : Outcome) : list Trade := snd (fst o).
Definition out_equity (o : Outcome) : list (Timestamp * Q) := snd o.

(** [wins = [p for p in pnl_decimals if p > 0]] and
    [losses = [p for p in pnl_decimals if p <= 0]]. *)
Definition wins_of (pnl : list Q) : list Q := filter (fun p => Qlt_bool 0 p) pnl.
Definition losses_of (pnl : list Q) : list Q := filter (fun p => Qle_bool p 0) pnl.

Definition nonempty {A} (l : list A) : bool :=
  match l with [] => false | _ => true end.

(** [abs(np.sum(wins) / np.sum(losses)) if losses and np.sum(losses) != 0
    else np.inf if wins else 0.0]. *)
Definition profit_factor_of (wins losses : list Q) : pyfloat :=
  if nonempty losses && negb (Qeq_bool (np_sum losses) 0) then
    py_abs (np_div (np_sum wins) (np_sum losses))
  else if nonempty wins then PosInf else Fin 0.

(** [len(wins) / len(losses) if losses else float("inf") if wins else 0.0]. *)
Definition win_loss_ratio_of (wins losses : list Q) : result pyfloat :=
  if nonempty losses then
    r <- py_div (len wins) (len losses) ;; ret (Fin r)
  else if nonempty wins then ret PosInf else ret (Fin 0).

(** [Series.median]. *)
Fixpoint insert_value (x : Q) (l : list Q) : list Q :=
  match l with
  | [] => [x]
  | y :: l' => if Qle_bool x y then x :: l else y :: insert_value x l'
  end.

Definition sort_values (l : list Q) : list Q := fold_right insert_value [] l.

Definition series_median (l : list Q) : Q :=
  let s := sort_values l in
  let n := List.length s in
  if Nat.even n then (nth (n / 2 - 1) s 0 + nth (n / 2) s 0) / 2
  else nth (n / 2) s 0.

(** The span of the equity index, in hours. *)
Definition total_hours_of (ts : list Timestamp) : Q :=
  match ts with
  | [] => 0
  | t0 :: _ =>
      let time_span := (List.last ts t0 - t0)%Z in
      if Qlt_bool 0 (total_seconds time_span)
      then total_seconds time_span / 3600 else 0
  end.

(** Everything after the forced exit: from [final_equity = cash] to the
    [return]. *)
Definition summarise (cfg : Config) (st : LoopState) : result Outcome :=
  let final_equity := cash st in
  let pnl := pnl_decimals st in
  let total := List.length pnl in
  let wins := wins_of pnl in
  let losses := losses_of pnl in
  win_rate_v <- (if (0 <? total)%nat
                 then r <- py_div (len wins) (len pnl) ;; ret (r * 100)
                 else ret 0) ;;
  let avg_gain_v := if nonempty wins then np_mean wins * 100 else 0 in
  let avg_loss_v := if nonempty losses then np_mean losses * 100 else 0 in
  let profit_factor_v := profit_factor_of wins losses in
  growth <- py_div final_equity (initial_balance cfg) ;;
  let net_return_v := (growth - 1) * 100 in
  let gross_gain_pct :=
    py_sum (filter (fun p => Qlt_bool 0 p) pnl) * 100 in
  let gross_loss_pct :=
    Qabs (py_sum (filter (fun p => Qlt_bool p 0) pnl)) * 100 in
  let best_trade_v := if nonempty pnl then py_max_list pnl * 100 else 0 in
  let worst_trade_v := if nonempty pnl then py_min_list pnl * 100 else 0 in
  win_loss_ratio_v <- win_loss_ratio_of wins losses ;;
  let trades_df := trade_log st in
  let durations := map duration_hrs trades_df in
  let avg_hold := if nonempty trades_df then np_mean durations else 0 in
  let median_hold := if nonempty trades_df then series_median durations else 0 in
  let total_hours := total_hours_of (equity_timestamps st) in
  let exposure :=
    if nonempty trades_df && Qlt_bool 0 total_hours
    then np_sum durations / total_hours * 100 else 0 in
  ret ({| total_trades := total;
          win_rate := win_rate_v;
          avg_gain := avg_gain_v;
          avg_loss := avg_loss_v;
          profit_factor := profit_factor_v;
          net_return := net_return_v;
          m_max_drawdown := max_drawdown st * 100;
          final_balance := final_equity;
          gross_gain := gross_gain_pct;
          gross_loss := gross_loss_pct;
          best_trade := best_trade_v;
          worst_trade := worst_trade_v;
          win_loss_ratio := win_loss_ratio_v;
          m_initial_balance := initial_balance cfg;
          avg_hold_hours := avg_hold;
          median_hold_hours := median_hold;
          exposure_pct := exposure |},
       trades_df,
       combine (equity_timestamps st) (equity_curve st)).

(** The bars the loop iterates over: the sorted rows, the signal in upper
    case. *)
Definition bars_of (index : list Timestamp) (closes : list Q)
    (signals : list string) : list Bar :=
  map (fun r => (bar_time r, bar_close r, upper (bar_signal r)))
      (sort_index (zip3 index closes signals)).

Definition backtest_signals (df : DataFrame) (cfg : Config) : result Outcome :=
  if Qle_bool (initial_balance cfg) 0 then
    Raise (ValueError "initial_balance must be > 0")
  else if df_empty df then
    ret (empty_metrics cfg, [], [])
  else
    match df_close df, df_signal df with
    | Some closes, Some signals =>
        let bars := bars_of (df_index df) closes signals in
        st <- replay cfg (initial_state cfg) bars ;;
        st' <- forced_exit cfg st bars ;;
        summarise cfg st'
    | _, _ =>
        Raise (ValueError "DataFrame must include 'close' and 'signal' columns")
    end.

(** The amounts by which a bar changes [cash]: at an entry the commission
    and the cost of the units bought, at an exit the net proceeds. *)
Definition bar_deltas (cfg : Config) (st : LoopState) (b : Bar) : list Q :=
  if Qeq_bool (position st) 0 && mem (bar_signal b) (buy_set cfg) then
    let commission_fee := cash st * commission cfg in
    let effective_price := bar_close b * (1 + slippage cfg) in
    [ - commission_fee;
      - ((cash st - commission_fee) / effective_price * effective_price) ]
  else if Qlt_bool 0 (position st) && mem (bar_signal b) (sell_set cfg) then
    let gross_proceeds := position st * (bar_close b * (1 - slippage cfg)) in
    [ gross_proceeds - gross_proceeds * commission cfg ]
  else [].

Fixpoint replay_deltas (cfg : Config) (st : LoopState) (bars : list Bar)
  : list Q :=
  match bars with
  | [] => []
  | b :: bars' =>
      match bar_step cfg st b with
      | Ok st' => bar_deltas cfg st b ++ replay_deltas cfg st' bars'
      | Raise _ => []
      end
  end.

(** The net proceeds of the forced exit, when it fires. *)
Definition forced_exit_deltas (cfg : Config) (st : LoopState)
    (bars : list Bar) : list Q :=
  match st_entry_price st, last_item bars with
  | Some _, Ok final_bar =>
      if Qlt_bool 0 (position st) then
        let gross_proceeds :=
          position st * (bar_close final_bar * (1 - slippage cfg)) in
        [ gross_proceeds - gross_proceeds * commission cfg ]
      else []
  | _, _ => []
  end.

End Backtest.

(** ** The signal deriver ([signalbot/strategy.py]) *)

Module Strategy.

(** A pandas table: an index and named columns, of floats (a NaN is [None])
    or of strings (a missing value is [None]). *)
Inductive column : Type :=
| FloatCol (v : list (option Q))
| TextCol (v : list (option string)).

Record Frame : Type := {
  index : list Timestamp;
  columns : list (string * column)
}.

Definition frame_empty (df : Frame) : bool :=
  (List.length (index df) =? 0)%nat || (List.length (columns df) =? 0)%nat.

Fixpoint lookup (name : string) (cols : list (string * column))
  : option column :=
  match cols with
  | [] => None
  | (n, c) :: cols' => if String.eqb n name then Some c else lookup name cols'
  end.

(** [df[name] = c]: replaces the column of that name, or adds it last. *)
Fixpoint assign (name : string) (c : column) (cols : list (string * column))
  : list (string * column) :=
  match cols with
  | [] => [(name, c)]
  | (n, c') :: cols' =>
      if String.eqb n name then (n, c) :: cols'
      else (n, c') :: assign name c cols'
  end.

Definition set_col (name : string) (c : column) (df : Frame) : Frame :=
  {| index := index df; columns := assign name c (columns df) |}.

Definition has_col (name : string) (df : Frame) : bool :=
  match lookup name (columns df) with Some _ => true | None => false end.

(** [df[name]] read as a float column. *)
Definition get_float (name : string) (df : Frame) : result (list (option Q)) :=
  match lookup name (columns df) with
  | Some (FloatCol v) => Ok v
  | Some (TextCol _) => Raise TypeError
  | None => Raise (KeyError name)
  end.

Definition get_text (name : string) (df : Frame) : option (list (option string)) :=
  match lookup name (columns df) with
  | Some (TextCol v) => Some v
  | _ => None
  end.

(** [df.sort_index()]: the positions of the rows in increasing order of
    their timestamp (rows of equal timestamp in their input order), and the
    columns read in that order. *)
Fixpoint insert_pos (r : Timestamp * nat) (l : list (Timestamp * nat))
  : list (Timestamp * nat) :=
  match l with
  | [] => [r]
  | r' :: l' =>
      if (fst r <=? fst r')%Z then r :: l else r' :: insert_pos r l'
  end.

Definition sorted_positions (idx : list Timestamp) : list nat :=
  map snd (fold_right insert_pos [] (combine idx (seq 0 (List.length idx)))).

Definition take {A} (d : A) (order : list nat) (l : list A) : list A :=
  map (fun i => nth i l d) order.

Definition take_col (order : list nat) (c : column) : column :=
  match c with
  | FloatCol v => FloatCol (take None order v)
  | TextCol v => TextCol (take None order v)
  end.

Definition sort_index (df : Frame) : Frame :=
  let order := sorted_positions (index df) in
  {| index := take 0%Z order (index df);
     columns := map (fun nc => (fst nc, take_col order (snd nc))) (columns df) |}.

(** The table [macd] returns. *)
Record MacdFrame : Type := {
  macd_line : list (option Q);
  signal_line : list (option Q);
  histogram : list (option Q)
}.

(** The indicator library ([signalbot/indicators.py]), which the deriver
    calls on the sorted [close] column: the oscillator, the exponential
    moving average and the convergence/divergence table.  The specification
    keeps it outside the core and the test suite replaces it by fixed series,
    so the deriver is modelled over any implementation of it.  A call
    returns a series or raises (the library raises on a period below 1);
    a series it returns is on the index of the column it was given (whose
    labels are distinct) and is read by position. *)
Class Indicators : Type := {
  rsi : list (option Q) -> Z -> result (list (option Q));
  ema : list (option Q) -> Z -> result (list (option Q));
  macd : list (option Q) -> Z -> Z -> Z -> result MacdFrame
}.

(** [s.reindex(out.index)] and the alignment of [out[name] = s]: the series
    on the [n] rows of [out], NaN where it has no value. *)
Definition reindex (n : nat) (s : list (option Q)) : list (option Q) :=
  map (fun i => nth i s None) (seq 0 n).

(** [s.shift(1)]. *)
Definition shift {A} (s : list (option A)) : list (option A) :=
  match s with
  | [] => []
  | _ => None :: removelast s
  end.

(** Comparisons of float values; a NaN on either side gives [False]. *)
Definition flt (x y : option Q) : bool :=
  match x, y with Some a, Some b => Qlt_bool a b | _, _ => false end.
Definition fle (x y : option Q) : bool :=
  match x, y with Some a, Some b => Qle_bool a b | _, _ => false end.
Definition notna (x : option Q) : bool :=
  match x with Some _ => true | None => false end.

(** Element-wise operations on columns. *)
Fixpoint map2 {A B C} (f : A -> B -> C) (l : list A) (l' : list B) : list C :=
  match l, l' with
  | a :: t, b :: t' => f a b :: map2 f t t'
  | _, _ => []
  end.

Definition mask_and (m m' : list bool) : list bool := map2 andb m m'.

(** [out.loc[mask, name] = v] on a column. *)
Definition loc_set {A} (mask : list bool) (v : A) (col : list A) : list A :=
  map2 (fun (m : bool) c => if m then v else c) mask col.

Definition rsi_signal {lib : Indicators} (df : Frame) (period : Z)
    (oversold overbought : Q) (ema_fast_period ema_slow_period : Z)
  : result Frame :=
  if frame_empty df then ret df
  else
    let out := sort_index df in
    let n := List.length (index out) in
    close <- get_float "close" out ;;
    rsi_series <- rsi close period ;;
    let rsi_col := reindex n rsi_series in
    let out := set_col "rsi" (FloatCol rsi_col) out in
    fast_series <- ema close ema_fast_period ;;
    let ema_fast := reindex n fast_series in
    slow_series <- ema close ema_slow_period ;;
    let ema_slow := reindex n slow_series in
    let out := set_col "ema_fast" (FloatCol ema_fast) out in
    let out := set_col "ema_slow" (FloatCol ema_slow) out in
    macd_df <- macd close ema_fast_period ema_slow_period 9 ;;
    let macd_df :=
      if (List.length (macd_line macd_df) =? 0)%nat then
        {| macd_line := repeat None n;
           signal_line := repeat None n;
           histogram := repeat None n |}
      else
        {| macd_line := reindex n (macd_line macd_df);
           signal_line := reindex n (signal_line macd_df);
           histogram := reindex n (histogram macd_df) |} in
    let macd_col := macd_line macd_df in
    let macd_signal := signal_line macd_df in
    let out := set_col "macd" (FloatCol macd_col) out in
    let out := set_col "macd_signal" (FloatCol macd_signal) out in
    let out := set_col "macd_histogram" (FloatCol (histogram macd_df)) out in

    let prev_rsi := shift rsi_col in
    let rsi_cross_up :=
      mask_and (map (fun p => flt p (Some oversold)) prev_rsi)
               (map (fun r => fle (Some oversold) r) rsi_col) in
    let rsi_cross_down :=
      mask_and (map (fun p => flt (Some overbought) p) prev_rsi)
               (map (fun r => fle r (Some overbought)) rsi_col) in

    let prev_macd := shift macd_col in
    let prev_signal := shift macd_signal in
    let macd_cross_up :=
      mask_and (map2 flt prev_macd prev_signal) (map2 flt macd_signal macd_col) in
    let macd_cross_down :=
      mask_and (map2 flt prev_signal prev_macd) (map2 flt macd_col macd_signal) in

    let ema_uptrend := map2 flt ema_slow ema_fast in
    let ema_downtrend := map2 flt ema_fast ema_slow in

    let signal := repeat (Some "HOLD") n in
    let strength := repeat (Some "NEUTRAL") n in

    let buy_mask :=
      mask_and (mask_and (mask_and rsi_cross_up ema_uptrend)
                         (map notna rsi_col)) (map notna prev_rsi) in
    let sell_mask :=
      mask_and (mask_and (mask_and rsi_cross_down ema_downtrend)
                         (map notna rsi_col)) (map notna prev_rsi) in

    let signal := loc_set buy_mask (Some "BUY") signal in
    let signal := loc_set sell_mask (Some "SELL") signal in
    let strength := loc_set buy_mask (Some "BUY") strength in
    let strength := loc_set sell_mask (Some "SELL") strength in

    let strong_buy := mask_and buy_mask macd_cross_up in
    let strong_sell := mask_and sell_mask macd_cross_down in

    let signal := loc_set strong_buy (Some "STRONG BUY") signal in
    let signal := loc_set strong_sell (Some "STRONG SELL") signal in
    let strength := loc_set strong_buy (Some "BULLISH") strength in
    let strength := loc_set strong_sell (Some "BEARISH") strength in
    let out := set_col "signal" (TextCol signal) out in
    let out := set_col "signal_strength" (TextCol strength) out in

    let divergence := repeat (@None string) n in
    let price := close in
    let price1 := shift price in
    let price2 := shift price1 in
    let rsi1 := shift rsi_col in
    let rsi2 := shift rsi1 in
    let higher_high := mask_and (map2 flt price1 price) (map2 flt price2 price1) in
    let lower_high := mask_and (map2 flt rsi_col rsi1) (map2 flt rsi1 rsi2) in
    let bearish_div := mask_and higher_high lower_high in
    let lower_low := mask_and (map2 flt price price1) (map2 flt price1 price2) in
    let higher_low := mask_and (map2 flt rsi1 rsi_col) (map2 flt rsi2 rsi1) in
    let bullish_div := mask_and lower_low higher_low in
    let divergence := loc_set bearish_div (Some "BEARISH") divergence in
    let divergence := loc_set bullish_div (Some "BULLISH") divergence in
    let out := set_col "divergence" (TextCol divergence) out in
    ret out.

End Strategy.

(** ** Reading the deriver's output row by row *)

Module Rows.

(** The value of a column at row [t], and at the row before it; a row
    without a value (the row before the first one, a NaN) has [None]. *)
Definition at_row (col : list (option Q)) (t : nat) : option Q := nth t col None.

Definition before_row (col : list (option Q)) (t : nat) : option Q :=
  match t with
  | O => None
  | S k => nth k col None
  end.

(** Both values are defined and the first is strictly below the second. *)
Definition below (x y : option Q) : Prop :=
  exists a b, x = Some a /\ y = Some b /\ a < b.

(** An upward cross of a threshold: below it before, at or above it now;
    and the downward cross. *)
Definition cross_up (prev cur : option Q) (threshold : Q) : Prop :=
  exists p c, prev = Some p /\ cur = Some c /\ p < threshold /\ threshold <= c.

Definition cross_down (prev cur : option Q) (threshold : Q) : Prop :=
  exists p c, prev = Some p /\ cur = Some c /\ threshold < p /\ c <= threshold.

(** The triggers at row [t], from the oscillator and the two trend lines. *)
Definition buy_trigger (osc fast slow : list (option Q)) (oversold : Q)
    (t : nat) : Prop :=
  cross_up (before_row osc t) (at_row osc t) oversold /\
  below (at_row slow t) (at_row fast t).

Definition sell_trigger (osc fast slow : list (option Q)) (overbought : Q)
    (t : nat) : Prop :=
  cross_down (before_row osc t) (at_row osc t) overbought /\
  below (at_row fast t) (at_row slow t).

(** The convergence/divergence line crosses its signal line at row [t]. *)
Definition line_cross_up (line sig : list (option Q)) (t : nat) : Prop :=
  below (before_row line t) (before_row sig t) /\
  below (at_row sig t) (at_row line t).

Definition line_cross_down (line sig : list (option Q)) (t : nat) : Prop :=
  below (before_row sig t) (before_row line t) /\
  below (at_row line t) (at_row sig t).

(** The masks of the deriver at row [t], and the signal they select. *)
Definition buy_mask_at (osc fast slow : list (option Q)) (oversold : Q)
    (t : nat) : bool :=
  Strategy.flt (before_row osc t) (Some oversold)
  && Strategy.fle (Some oversold) (at_row osc t)
  && Strategy.flt (at_row slow t) (at_row fast t)
  && Strategy.notna (at_row osc t) && Strategy.notna (before_row osc t).

Definition sell_mask_at (osc fast slow : list (option Q)) (overbought : Q)
    (t : nat) : bool :=
  Strategy.flt (Some overbought) (before_row osc t)
  && Strategy.fle (at_row osc t) (Some overbought)
  && Strategy.flt (at_row fast t) (at_row slow t)
  && Strategy.notna (at_row osc t) && Strategy.notna (before_row osc t).

Definition cross_up_at (line sig : list (option Q)) (t : nat) : bool :=
  Strategy.flt (before_row line t) (before_row sig t)
  && Strategy.flt (at_row sig t) (at_row line t).

Definition cross_down_at (line sig : list (option Q)) (t : nat) : bool :=
  Strategy.flt (before_row sig t) (before_row line t)
  && Strategy.flt (at_row line t) (at_row sig t).

Definition signal_at (osc fast slow line sig : list (option Q))
    (oversold overbought : Q) (t : nat) : option string :=
  if sell_mask_at osc fast slow overbought t && cross_down_at line sig t
  then Some "STRONG SELL"
  else if buy_mask_at osc fast slow oversold t && cross_up_at line sig t
  then Some "STRONG BUY"
  else if sell_mask_at osc fast slow overbought t then Some "SELL"
  else if buy_mask_at osc fast slow oversold t then Some "BUY"
  else Some "HOLD".

(** The convergence/divergence table the deriver works with: all NaN when
    [macd] returns an empty table. *)
Definition aligned_macd (n : nat) (m : Strategy.MacdFrame) : Strategy.MacdFrame :=
  if (List.length (Strategy.macd_line m) =? 0)%nat then
    {| Strategy.macd_line := repeat None n;
       Strategy.signal_line := repeat None n;
       Strategy.histogram := repeat None n |}
  else
    {| Strategy.macd_line := Strategy.reindex n (Strategy.macd_line m);
       Strategy.signal_line := Strategy.reindex n (Strategy.signal_line m);
       Strategy.histogram := Strategy.reindex n (Strategy.histogram m) |}.

End Rows.

(** ** The state machine of the specification

    The specification describes the replay as a machine with a single
    position slot, either [Flat] or [Long] with a quantity, an entry price
    and an entry time.  The definitions of this module follow its words; the
    engine is compared with them below. *)

Module Machine.

Import Backtest.

Inductive Position : Type :=
| Flat
| Long (quantity fill : Q) (since : Timestamp).

Record Account : Type := {
  acct_cash : Q;
  acct_position : Position;
  ledger : list Trade
}.

Definition start (cfg : Config) : Account :=
  {| acct_cash := initial_balance cfg; acct_position := Flat; ledger := [] |}.

(** FLAT and a buy signal: open LONG.  LONG and a sell signal: close LONG.
    Anything else: nothing changes. *)
Definition step (cfg : Config) (a : Account) (b : Bar) : Account :=
  match acct_position a with
  | Flat =>
      if mem (bar_signal b) (buy_set cfg) then
        let post_commission := acct_cash a - acct_cash a * commission cfg in
        let fill := bar_close b * (1 + slippage cfg) in
        let quantity := post_commission / fill in
        {| acct_cash := post_commission - quantity * fill;
           acct_position := Long quantity fill (bar_time b);
           ledger := ledger a |}
      else a
  | Long quantity entry since =>
      if mem (bar_signal b) (sell_set cfg) then
        let fill := bar_close b * (1 - slippage cfg) in
        let gross := quantity * fill in
        let net := gross - gross * commission cfg in
        {| acct_cash := acct_cash a + net;
           acct_position := Flat;
           ledger :=
             ledger a ++
               [ {| entry_time := Some since;
                    exit_time := bar_time b;
                    entry_price := entry;
                    exit_price := fill;
                    pnl_pct := (fill - entry) / entry * 100;
                    duration_hrs := total_seconds (bar_time b - since) / 3600 |} ] |}
      else a
  end.

Definition run (cfg : Config) (a : Account) (bars : list Bar) : Account :=
  fold_left (step cfg) bars a.

(** The quantity held. *)
Definition quantity_of (p : Position) : Q :=
  match p with Flat => 0 | Long q _ _ => q end.

(** The equity point of a bar: cash plus the quantity at the raw close. *)
Definition equity_point (a : Account) (b : Bar) : Q :=
  acct_cash a + quantity_of (acct_position a) * bar_close b.

(** The equity points of a run, one per bar, after the bar's transition. *)
Fixpoint equity_trace (cfg : Config) (a : Account) (bars : list Bar) : list Q :=
  match bars with
  | [] => []
  | b :: bars' =>
      equity_point (step cfg a b) b :: equity_trace cfg (step cfg a b) bars'
  end.

(** How the local variables of the engine's loop encode an account. *)
Definition represents (st : LoopState) (a : Account) : Prop :=
  cash st = acct_cash a /\
  trade_log st = ledger a /\
  match acct_position a with
  | Flat =>
      position st = 0 /\ st_entry_price st = None /\ st_entry_time st = None
  | Long q fill since =>
      position st = q /\ 0 < q /\
      st_entry_price st = Some fill /\ st_entry_time st = Some since
  end.

(** What the replay maintains on top of [represents]: cash to invest while
    flat; while long, no debt and a positive entry price. *)
Definition tracks (st : LoopState) (a : Account) : Prop :=
  represents st a /\
  match acct_position a with
  | Flat => 0 < acct_cash a
  | Long _ fill _ => 0 <= acct_cash a /\ 0 < fill
  end.

End Machine.

(** ** Configurations and inputs the properties range over *)

Module Domain.

Import Backtest.

(** A fractional rate. *)
Definition fractional (r : Q) : Prop := 0 <= r /\ r < 1.

Definition valid_rates (cfg : Config) : Prop :=
  fractional (slippage cfg) /\ fractional (commission cfg).

(** The two columns have one value per row of the index. *)
Definition well_formed (df : DataFrame) : Prop :=
  match df_close df, df_signal df with
  | Some closes, Some signals =>
      List.length closes = List.length (df_index df) /\
      List.length signals = List.length (df_index df)
  | _, _ => True
  end.

Definition positive_closes (bars : list Bar) : Prop :=
  Forall (fun b => 0 < bar_close b) bars.

(** An open position always has its entry price on record, and that price
    is one the profit can be divided by. *)
Definition entry_recorded (st : LoopState) : Prop :=
  0 < position st -> exists p, st_entry_price st = Some p /\ ~ p == 0.

(** The trade log and the list of decimal P&Ls go together: the [pnl_pct]
    of the i-th trade is 100 times the i-th decimal P&L. *)
Definition ledger_matches_pnl (st : LoopState) : Prop :=
  map pnl_pct (trade_log st) = map (fun p => p * 100) (pnl_decimals st).

(** [x] is within one percent of [p]. *)
Definition approx (p x : Q) : Prop := Qabs (x - p) <= p / 100.

End Domain.

(** ** Fixtures of the test suite *)

Module Fixtures.

Import Backtest Strategy.

(** [pd.date_range("2023-01-01", periods=n, freq="h")]. *)
Definition hour (n : Z) : Timestamp :=
  (1672531200000000000 + n * 3600000000000)%Z.

(** Scenario A, the table of [test_metrics_for_profitable_trade]. *)
Definition scenario_A : DataFrame :=
  {| df_index := map hour [0; 1; 2; 3; 4]%Z;
     df_close := Some [100; 110; 115; 90; 88];
     df_signal := Some ["HOLD"; "BUY"; "SELL"; "BUY"; "SELL"];
     df_others := [] |}.

(** A table whose position is still open at the last bar. *)
Definition open_at_end : DataFrame :=
  {| df_index := map hour [0; 1; 2]%Z;
     df_close := Some [100; 110; 120];
     df_signal := Some ["BUY"; "HOLD"; "HOLD"];
     df_others := [] |}.

(** Empty tables: without rows, and without any column. *)
Definition no_rows : DataFrame :=
  {| df_index := []; df_close := Some []; df_signal := Some [];
     df_others := [] |}.

Definition no_rows_no_required_columns : DataFrame :=
  {| df_index := []; df_close := None; df_signal := None;
     df_others := ["open"; "volume"] |}.

Definition floats (l : list Q) : list (option Q) := map Some l.

(** The price table and the patched indicators of [RSISignalTests]. *)
Definition base_df : Frame :=
  {| index := map hour [0; 1; 2; 3]%Z;
     columns :=
       [ ("open", FloatCol (floats [100; 101; 102; 103]));
         ("high", FloatCol (floats [101; 102; 103; 104]));
         ("low", FloatCol (floats [99; 100; 101; 102]));
         ("close", FloatCol (floats [100; 101; 102; 103]));
         ("volume", FloatCol (floats [1; 1; 1; 1])) ] |}.

Definition fake_indicators : Indicators :=
  {| rsi := fun _ _ => Ok (floats [25; 80; 65; 60]);
     ema := fun _ length =>
              if (length =? 12)%Z
              then Ok (floats [12 # 10; 14 # 10; 8 # 10; 6 # 10])
              else Ok (floats [11 # 10; 13 # 10; 9 # 10; 7 # 10]);
     macd := fun _ _ _ _ =>
               Ok {| macd_line := floats [-1 # 10; 2 # 10; 5 # 100; -1 # 10];
                     signal_line := floats [0; 1 # 10; 1 # 10; -5 # 100];
                     histogram := floats [-1 # 10; 1 # 10; -5 # 100; -5 # 100] |} |}.

(** Scenario E: the oscillator crosses the oversold threshold upwards at
    the second bar while the fast trend line is below the slow one. *)
Definition vetoed_indicators : Indicators :=
  {| rsi := fun _ _ => Ok (floats [25; 35]);
     ema := fun _ length =>
              if (length =? 12)%Z then Ok (floats [1; 1]) else Ok (floats [2; 2]);
     macd := fun _ _ _ _ =>
               Ok {| macd_line := floats [-1; 1];
                     signal_line := floats [0; 0];
                     histogram := floats [-1; 1] |} |}.

Definition two_bars : Frame :=
  {| index := map hour [0; 1]%Z;
     columns := [ ("close", FloatCol (floats [100; 101])) ] |}.

Definition one_bar : Frame :=
  {| index := [hour 0];
     columns := [ ("close", FloatCol (floats [100])) ] |}.

Definition empty_frame : Frame :=
  {| index := [];
     columns := [ ("close", FloatCol []) ] |}.

Definition open_at_end_state : LoopState :=
  match replay (default_config 1000) (initial_state (default_config 1000))
          (bars_of (df_index open_at_end) [100; 110; 120] ["BUY"; "HOLD"; "HOLD"])
  with
  | Ok st => st
  | Raise _ => initial_state (default_config 1000)
  end.

Definition scenario_A_state : LoopState :=
  match replay (default_config 1000) (initial_state (default_config 1000))
          (bars_of (df_index scenario_A) [100; 110; 115; 90; 88]
             ["HOLD"; "BUY"; "SELL"; "BUY"; "SELL"])
  with
  | Ok st => st
  | Raise _ => initial_state (default_config 1000)
  end.

(** A table with a malformed second bar. *)
Definition bad_close : DataFrame :=
  {| df_index := map hour [0; 1; 2]%Z;
     df_close := Some [100; -5; 120];
     df_signal := Some ["BUY"; "HOLD"; "SELL"];
     df_others := [] |}.

End Fixtures.

(** ** The indicator library ([signalbot/indicators.py]) *)

Module Indicator.

Import Strategy.

(** Arithmetic on float values; a NaN operand gives a NaN. *)
Definition lift2 (f : Q -> Q -> Q) (x y : option Q) : option Q :=
  match x, y with
  | Some a, Some b => Some (f a b)
  | _, _ => None
  end.

Definition fsub : option Q -> option Q -> option Q := lift2 Qminus.
Definition fdiv : option Q -> option Q -> option Q := lift2 Qdiv.

(** [series.diff()]. *)
Definition diff (s : list (option Q)) : list (option Q) :=
  map2 fsub s (shift s).

(** [s.clip(lower=lower)], [s.clip(upper=upper)] and [s.replace(old, new)],
    on one value that is not a NaN; a NaN stays a NaN. *)
Definition clip_lower (lower v : Q) : Q := if Qlt_bool v lower then lower else v.
Definition clip_upper (upper v : Q) : Q := if Qlt_bool upper v then upper else v.
Definition replace (old new v : Q) : Q := if Qeq_bool v old then new else v.

Definition fadd : option Q -> option Q -> option Q := lift2 Qplus.

(** [s.ewm(alpha=alpha, min_periods=minp, adjust=False).mean()].  The mean
    starts at the first value that is not a NaN and then moves by
    [y := ((1 - alpha) * y + alpha * x)]; a NaN in between leaves it where it
    is and ages it by one more factor [1 - alpha]; the result is a NaN until
    [minp] values have been seen.  [weighted] is the running mean, [old_wt]
    its weight and [nobs] the number of values seen. *)
Fixpoint ewm_from (alpha : Q) (minp : nat) (weighted : option Q) (old_wt : Q)
    (nobs : nat) (vals : list (option Q)) : list (option Q) :=
  match vals with
  | [] => []
  | cur :: rest =>
      let nobs' := match cur with Some _ => S nobs | None => nobs end in
      let weighted' :=
        match weighted, cur with
        | Some w, Some c =>
            Some ((old_wt * (1 - alpha) * w + alpha * c)
                  / (old_wt * (1 - alpha) + alpha))
        | Some w, None => Some w
        | None, _ => cur
        end in
      let old_wt' :=
        match weighted, cur with
        | Some _, Some _ => 1
        | Some _, None => old_wt * (1 - alpha)
        | None, _ => old_wt
        end in
      (if (minp <=? nobs')%nat then weighted' else None)
        :: ewm_from alpha minp weighted' old_wt' nobs' rest
  end.

Definition ewm_mean (alpha : Q) (min_periods : nat) (vals : list (option Q))
  : list (option Q) :=
  ewm_from alpha (Nat.max min_periods 1) None 1 0 vals.

(** [ema(series, length)]: [series.ewm(span=length, adjust=False).mean()];
    a span below 1 is refused. *)
Definition ema (series : list (option Q)) (length : Z) : result (list (option Q)) :=
  if (length <? 1)%Z then Raise (ValueError "span must satisfy: span >= 1")
  else Ok (ewm_mean (2 / (inject_Z length + 1)) 0 series).

(** [macd(series, fast, slow, signal)]. *)
Definition macd (series : list (option Q)) (fast slow signal : Z)
  : result MacdFrame :=
  ema_fast <- ema series fast ;;
  ema_slow <- ema series slow ;;
  let macd_line := map2 fsub ema_fast ema_slow in
  signal_line <- ema macd_line signal ;;
  let histogram := map2 fsub macd_line signal_line in
  ret {| Strategy.macd_line := macd_line;
         Strategy.signal_line := signal_line;
         Strategy.histogram := histogram |}.

(** [rsi(series, period)].  [1 / period] is a division of Python ints; the
    smoothing factor has to be in (0, 1]. *)
Definition rsi (series : list (option Q)) (period : Z) : result (list (option Q)) :=
  let delta := diff series in
  let gain := map (option_map (clip_lower 0)) delta in
  let loss := map (option_map (fun d => - clip_upper 0 d)) delta in
  alpha <- py_div 1 (inject_Z period) ;;
  if Qle_bool alpha 0 || Qlt_bool 1 alpha then
    Raise (ValueError "alpha must satisfy: 0 < alpha <= 1")
  else
    let avg_gain := ewm_mean alpha (Z.to_nat period) gain in
    let avg_loss := ewm_mean alpha (Z.to_nat period) loss in
    let rs :=
      map2 fdiv avg_gain (map (option_map (replace 0 (1 # 10000000000))) avg_loss) in
    ret (map (fun r => fsub (Some 100) (fdiv (Some 100) (fadd (Some 1) r))) rs).

(** The moving mean over values without a NaN, from the mean [w] so far. *)
Fixpoint ewm_run (alpha w : Q) (xs : list Q) : list Q :=
  match xs with
  | [] => []
  | x :: rest =>
      let w' := (1 * (1 - alpha) * w + alpha * x) / (1 * (1 - alpha) + alpha) in
      w' :: ewm_run alpha w' rest
  end.

(** The values a minimum number of observations lets through, when [nobs]
    values were seen before. *)
Fixpoint gate (minp nobs : nat) (ys : list Q) : list (option Q) :=
  match ys with
  | [] => []
  | y :: rest =>
      (if (minp <=? S nobs)%nat then Some y else None) :: gate minp (S nobs) rest
  end.

(** The mean of a series without a NaN: it starts at the first value. *)
Definition ewm_start (alpha : Q) (xs : list Q) : list Q :=
  match xs with
  | [] => []
  | x :: rest => x :: ewm_run alpha x rest
  end.

(** The differences of a series without a NaN, from the value [x] before. *)
Fixpoint deltas (x : Q) (xs : list Q) : list Q :=
  match xs with
  | [] => []
  | y :: rest => (y - x) :: deltas y rest
  end.

End Indicator.

(** ** The deriver on the indicators of the library *)

Module Library.

Import Strategy.

(** The indicators the deriver of the program is linked with. *)
Definition library : Indicators :=
  {| Strategy.rsi := Indicator.rsi;
     Strategy.ema := Indicator.ema;
     Strategy.macd := Indicator.macd |}.

End Library.

(** ** The candlestick patterns ([signalbot/indicators.py]) *)

Module Candlestick.

Import Strategy Indicator.

(** [s.abs()], [s.replace(0, np.nan)] and the product with a number, on one
    value. *)
Definition fabs (x : option Q) : option Q := option_map Qabs x.

Definition zero_to_nan (x : option Q) : option Q :=
  match x with
  | Some v => if Qeq_bool v 0 then None else Some v
  | None => None
  end.

(** [pd.concat([a, b], axis=1).max(axis=1)] and [.min(axis=1)] on one row:
    a NaN is skipped. *)
Definition row_max (x y : option Q) : option Q :=
  match x, y with
  | Some a, Some b => Some (if Qle_bool a b then b else a)
  | Some a, None => Some a
  | None, _ => y
  end.

Definition row_min (x y : option Q) : option Q :=
  match x, y with
  | Some a, Some b => Some (if Qle_bool a b then a else b)
  | Some a, None => Some a
  | None, _ => y
  end.

(** [mask.astype(int)]. *)
Definition as_int (b : bool) : Z := if b then 1%Z else 0%Z.

Definition detect_doji (df : Frame) (body_ratio : Q) : result (list Z) :=
  close <- get_float "close" df ;;
  open <- get_float "open" df ;;
  let body := map fabs (map2 fsub close open) in
  high <- get_float "high" df ;;
  low <- get_float "low" df ;;
  let candle_range := map zero_to_nan (map2 fsub high low) in
  let is_doji :=
    mask_and (map notna candle_range)
             (map2 fle body (map (option_map (fun v => v * body_ratio)) candle_range)) in
  ret (map as_int is_doji).

Definition detect_hammer (df : Frame) (shadow_ratio : Q) : result (list Z) :=
  high <- get_float "high" df ;;
  low <- get_float "low" df ;;
  open <- get_float "open" df ;;
  close <- get_float "close" df ;;
  let body := map fabs (map2 fsub close open) in
  let candle_range := map zero_to_nan (map2 fsub high low) in
  let upper_shadow := map2 fsub high (map2 row_max open close) in
  let lower_shadow := map2 fsub (map2 row_min open close) low in
  let near_high := map2 fle upper_shadow body in
  let long_lower_shadow :=
    map2 fle (map (option_map (fun v => shadow_ratio * v)) body) lower_shadow in
  let small_body :=
    map2 fle body (map (option_map (fun v => v * (3 # 10))) candle_range) in
  let mask := map notna candle_range in
  let is_hammer :=
    mask_and (mask_and (mask_and long_lower_shadow near_high) small_body) mask in
  ret (map as_int is_hammer).

Definition detect_shooting_star (df : Frame) (shadow_ratio : Q) : result (list Z) :=
  high <- get_float "high" df ;;
  low <- get_float "low" df ;;
  open <- get_float "open" df ;;
  close <- get_float "close" df ;;
  let body := map fabs (map2 fsub close open) in
  let candle_range := map zero_to_nan (map2 fsub high low) in
  let upper_shadow := map2 fsub high (map2 row_max open close) in
  let lower_shadow := map2 fsub (map2 row_min open close) low in
  let near_low := map2 fle lower_shadow body in
  let long_upper_shadow :=
    map2 fle (map (option_map (fun v => shadow_ratio * v)) body) upper_shadow in
  let small_body :=
    map2 fle body (map (option_map (fun v => v * (3 # 10))) candle_range) in
  let mask := map notna candle_range in
  let is_shooting_star :=
    mask_and (mask_and (mask_and long_upper_shadow near_low) small_body) mask in
  ret (map as_int is_shooting_star).

Definition detect_engulfing (df : Frame) : result (list Z) :=
  open <- get_float "open" df ;;
  close <- get_float "close" df ;;
  let prev_open := shift open in
  let prev_close := shift close in
  let bullish :=
    mask_and (mask_and (mask_and (map2 flt open close) (map2 flt prev_close prev_open))
                       (map2 fle prev_open close))
             (map2 fle open prev_close) in
  let bearish :=
    mask_and (mask_and (mask_and (map2 flt close open) (map2 flt prev_open prev_close))
                       (map2 fle prev_close open))
             (map2 fle close prev_open) in
  let result := repeat 0%Z (List.length (index df)) in
  let result := loc_set bullish 1%Z result in
  let result := loc_set bearish (-1)%Z result in
  ret result.

End Candlestick.

(** ** The trend check of the command-line run ([signalbot/main.py]) *)

Module Main.

Import Strategy.

(** [s.isin(values)] and [s == value] on one value of a column of strings. *)
Definition isin (values : list string) (v : option string) : bool :=
  match v with
  | Some s => mem s values
  | None => false
  end.

Definition text_is (value : string) (v : option string) : bool :=
  match v with
  | Some s => String.eqb s value
  | None => false
  end.

(** The block of [run] that holds the signals against the two averages,
    as a function of the four columns it reads; [signal_strength] is [None]
    when the table has no such column.  It gives the new [signal] and
    [signal_strength] columns. *)
Definition enforce_ema_logic (signal : list (option string))
    (signal_strength : option (list (option string)))
    (ema_fast ema_slow : list (option Q))
  : list (option string) * list (option string) :=
  let strength :=
    match signal_strength with
    | Some s => s
    | None => repeat (Some "NEUTRAL") (List.length signal)
    end in
  let buy_mask := map (isin ["BUY"; "STRONG BUY"]) signal in
  let sell_mask := map (isin ["SELL"; "STRONG SELL"]) signal in
  let ema_bull := map2 flt ema_slow ema_fast in
  let ema_bear := map2 flt ema_fast ema_slow in
  let mismatch_buy := mask_and buy_mask (map negb ema_bull) in
  let mismatch_sell := mask_and sell_mask (map negb ema_bear) in
  let signal := loc_set mismatch_buy (Some "HOLD") signal in
  let strength := loc_set mismatch_buy (Some "EMA MISMATCH") strength in
  let signal := loc_set mismatch_sell (Some "HOLD") signal in
  let strength := loc_set mismatch_sell (Some "EMA MISMATCH") strength in
  let strength :=
    loc_set (mask_and (mask_and (map (text_is "HOLD") signal) ema_bull)
                      (map (text_is "NEUTRAL") strength))
            (Some "BULLISH") strength in
  let strength :=
    loc_set (mask_and (mask_and (map (text_is "HOLD") signal) ema_bear)
                      (map (text_is "NEUTRAL") strength))
            (Some "BEARISH") strength in
  (signal, strength).

End Main.

(** ** Notions of the properties of the backtest engine *)

Module Ledger.

Import Backtest.

Definition chronological_bars (bars : list Bar) : Prop :=
  StronglySorted (fun a b => (bar_time a <= bar_time b)%Z) bars.

(** The loop has never entered: the variables are those of the start, and
    every equity point recorded is the initial balance. *)
Definition never_entered (cfg : Config) (st : LoopState) : Prop :=
  cash st = initial_balance cfg /\ position st = 0 /\
  trade_log st = [] /\ pnl_decimals st = [] /\
  peak_equity st = initial_balance cfg /\ max_drawdown st = 0 /\
  Forall (fun v => v == initial_balance cfg) (equity_curve st).

(** Each trade of the list is entered at or after [prev], the exit of the
    trade before it, and left at or after its entry; its duration is the
    time between the two, in hours. *)
Fixpoint chronological (prev : Timestamp) (l : list Trade) : Prop :=
  match l with
  | [] => True
  | t :: l' =>
      (exists e, entry_time t = Some e /\ (prev <= e)%Z /\ (e <= exit_time t)%Z /\
                 duration_hrs t = hours_since (Some e) (exit_time t)) /\
      chronological (exit_time t) l'
  end.

(** The last exit of the list, [prev] when it is empty. *)
Definition last_exit (prev : Timestamp) (l : list Trade) : Timestamp :=
  List.last (map exit_time l) prev.

(** What the loop keeps, [lo] being a time before the first bar and [now]
    the time of the last bar replayed. *)
Definition on_schedule (lo now : Timestamp) (st : LoopState) : Prop :=
  chronological lo (trade_log st) /\
  (last_exit lo (trade_log st) <= now)%Z /\
  (0 < position st ->
   exists e, st_entry_time st = Some e /\
             (last_exit lo (trade_log st) <= e)%Z /\ (e <= now)%Z).

(** The first timestamp of the bars. *)
Definition first_time (bars : list Bar) : Timestamp :=
  match bars with
  | [] => 0%Z
  | b :: _ => bar_time b
  end.

(** What a round trip multiplies the balance by: the exit price over the
    entry price, less the commission on each of the two fills. *)
Definition trade_factor (cfg : Config) (t : Trade) : Q :=
  (1 - commission cfg) * (1 - commission cfg) * (exit_price t / entry_price t).

Definition compounded (cfg : Config) (l : list Trade) : Q :=
  fold_left (fun acc t => acc * trade_factor cfg t) l 1.

(** The balance of an account is the initial balance compounded over its
    trades; while long, it is all in the position. *)
Definition fully_invested (cfg : Config) (a : Machine.Account) : Prop :=
  match Machine.acct_position a with
  | Machine.Flat =>
      Machine.acct_cash a
      == initial_balance cfg * compounded cfg (Machine.ledger a)
  | Machine.Long q fill _ =>
      Machine.acct_cash a == 0 /\ ~ fill == 0 /\
      q * fill
      == initial_balance cfg * compounded cfg (Machine.ledger a)
         * (1 - commission cfg)
  end.


End Ledger.

(** ** Notions of the properties of the deriver *)

Module Table.

Import Strategy Rows.

Definition positions_of (idx : list Timestamp) : list (Timestamp * nat) :=
  fold_right insert_pos [] (combine idx (seq 0 (List.length idx))).

(** The columns the deriver adds. *)
Definition added_columns : list string :=
  ["rsi"; "ema_fast"; "ema_slow"; "macd"; "macd_signal"; "macd_histogram";
   "signal"; "signal_strength"; "divergence"].

Definition column_length (c : column) : nat :=
  match c with
  | FloatCol v => List.length v
  | TextCol v => List.length v
  end.

(** Every column has one value per row. *)
Definition rectangular (df : Frame) : Prop :=
  Forall (fun nc => column_length (snd nc) = List.length (index df)) (columns df).

Definition strength_at (osc fast slow line sig : list (option Q))
    (oversold overbought : Q) (t : nat) : option string :=
  if sell_mask_at osc fast slow overbought t && cross_down_at line sig t
  then Some "BEARISH"
  else if buy_mask_at osc fast slow oversold t && cross_up_at line sig t
  then Some "BULLISH"
  else if sell_mask_at osc fast slow overbought t then Some "SELL"
  else if buy_mask_at osc fast slow oversold t then Some "BUY"
  else Some "NEUTRAL".

(** The value of a column two rows before row [t]. *)
Definition two_before (col : list (option Q)) (t : nat) : option Q :=
  match t with
  | O => None
  | S k => before_row col k
  end.

(** Two consecutive rises, and two consecutive falls, ending at row [t]. *)
Definition rising (col : list (option Q)) (t : nat) : Prop :=
  below (before_row col t) (at_row col t) /\
  below (two_before col t) (before_row col t).

Definition falling (col : list (option Q)) (t : nat) : Prop :=
  below (at_row col t) (before_row col t) /\
  below (before_row col t) (two_before col t).

Definition rising_at (col : list (option Q)) (t : nat) : bool :=
  flt (before_row col t) (at_row col t)
  && flt (two_before col t) (before_row col t).

Definition falling_at (col : list (option Q)) (t : nat) : bool :=
  flt (at_row col t) (before_row col t)
  && flt (before_row col t) (two_before col t).

Definition divergence_at (price osc : list (option Q)) (t : nat)
  : option string :=
  if falling_at price t && rising_at osc t then Some "BULLISH"
  else if rising_at price t && falling_at osc t then Some "BEARISH"
  else None.

End Table.

(** ** Further sample tables *)

Module Samples.

Import Backtest Strategy.

(** What the engine returns on scenario A. *)
Definition scenario_A_outcome : Outcome :=
  match backtest_signals Fixtures.scenario_A (default_config 1000) with
  | Ok o => o
  | Raise _ => (empty_metrics (default_config 1000), [], [])
  end.

(** Scenario A with its first two rows exchanged, and with its signals in
    lower case. *)
Definition shuffled_A : DataFrame :=
  {| df_index := map Fixtures.hour [1; 0; 2; 3; 4]%Z;
     df_close := Some [110; 100; 115; 90; 88];
     df_signal := Some ["BUY"; "HOLD"; "SELL"; "BUY"; "SELL"];
     df_others := [] |}.

Definition lower_case_A : DataFrame :=
  {| df_index := map Fixtures.hour [0; 1; 2; 3; 4]%Z;
     df_close := Some [100; 110; 115; 90; 88];
     df_signal := Some ["hold"; "Buy"; "sell"; "buy"; "Sell"];
     df_others := [] |}.

Definition shuffled_A_outcome : Outcome :=
  match backtest_signals shuffled_A (default_config 1000) with
  | Ok o => o
  | Raise _ => (empty_metrics (default_config 1000), [], [])
  end.

(** A table without any entry signal. *)
Definition no_entries : DataFrame :=
  {| df_index := map Fixtures.hour [0; 1; 2]%Z;
     df_close := Some [100; 110; 120];
     df_signal := Some ["HOLD"; "SELL"; "HOLD"];
     df_others := [] |}.

(** A price table whose rows are not in the order of their timestamps. *)
Definition unsorted_df : Frame :=
  {| index := map Fixtures.hour [2; 0; 1]%Z;
     columns :=
       [ ("close", FloatCol (Fixtures.floats [102; 100; 101]));
         ("volume", FloatCol (Fixtures.floats [3; 1; 2])) ] |}.

(** A table without prices, and one whose price never moves. *)
Definition no_close : Frame :=
  {| index := map Fixtures.hour [0; 1]%Z;
     columns := [ ("open", FloatCol (Fixtures.floats [100; 101])) ] |}.

Definition flat_df : Frame :=
  {| index := map Fixtures.hour [0; 1; 2; 3]%Z;
     columns := [ ("close", FloatCol (Fixtures.floats [100; 100; 100; 100])) ] |}.

(** Three candles: a falling one, a rising one that covers it, and a
    hammer. *)
Definition candles : Frame :=
  {| index := map Fixtures.hour [0; 1; 2]%Z;
     columns :=
       [ ("open", FloatCol (Fixtures.floats [105; 99; 100]));
         ("high", FloatCol (Fixtures.floats [106; 107; 506 # 5]));
         ("low", FloatCol (Fixtures.floats [99; 98; 95]));
         ("close", FloatCol (Fixtures.floats [100; 106; 101])) ] |}.

(** What the deriver returns on the price table of the test suite, with
    the patched indicators. *)
Definition base_out : Frame :=
  match rsi_signal (lib := Fixtures.fake_indicators) Fixtures.base_df 14 30 70 12 26 with
  | Ok out => out
  | Raise _ => Fixtures.base_df
  end.

(** A candle without a range. *)
Definition flat_candle : Frame :=
  {| index := [Fixtures.hour 0];
     columns :=
       [ ("open", FloatCol (Fixtures.floats [100]));
         ("high", FloatCol (Fixtures.floats [100]));
         ("low", FloatCol (Fixtures.floats [100]));
         ("close", FloatCol (Fixtures.floats [100])) ] |}.

End Samples.

Import Backtest Domain.

(** * Properties *)

(** ** Arithmetic and the error monad *)

Lemma Qlt_bool_iff (x y : Q) : Qlt_bool x y = true <-> x < y.
Proof.
  unfold Qlt_bool. rewrite negb_true_iff. split; intros H.
  - apply Qnot_le_lt. intros Hle. apply Qle_bool_iff in Hle. congruence.
  - destruct (Qle_bool y x) eqn:E; [|reflexivity].
    apply Qle_bool_iff in E. lra.
Qed.

Lemma Qlt_bool_false (x y : Q) : Qlt_bool x y = false <-> y <= x.
Proof.
  unfold Qlt_bool. rewrite negb_false_iff. apply Qle_bool_iff.
Qed.

Lemma Qle_bool_false (x y : Q) : Qle_bool x y = false <-> y < x.
Proof.
  rewrite <- Qlt_bool_iff. unfold Qlt_bool.
  destruct (Qle_bool x y); simpl; intuition congruence.
Qed.

Lemma Qeq_bool_false (x y : Q) : Qeq_bool x y = false <-> ~ x == y.
Proof.
  split.
  - apply Qeq_bool_neq.
  - intros H. destruct (Qeq_bool x y) eqn:E; [|reflexivity].
    apply Qeq_bool_iff in E. contradiction.
Qed.

Lemma py_div_ok (x y : Q) : ~ y == 0 -> py_div x y = Ok (x / y).
Proof.
  intros H. unfold py_div. apply Qeq_bool_false in H. now rewrite H.
Qed.

Lemma py_div_inv (x y q : Q) : py_div x y = Ok q -> ~ y == 0 /\ q = x / y.
Proof.
  unfold py_div. destruct (Qeq_bool y 0) eqn:E; [discriminate|].
  intros [= <-]. split; [now apply Qeq_bool_false|reflexivity].
Qed.

Lemma bind_ok {A B} (c : result A) (k : A -> result B) (b : B) :
  bind c k = Ok b -> exists a, c = Ok a /\ k a = Ok b.
Proof.
  destruct c as [a|e]; simpl; [eauto|discriminate].
Qed.

Lemma last_item_app {A} (l : list A) (x : A) : last_item (l ++ [x]) = Ok x.
Proof.
  unfold last_item. rewrite rev_app_distr. reflexivity.
Qed.

Lemma last_item_ok {A} (l : list A) :
  l <> [] -> exists l' x, l = l' ++ [x] /\ last_item l = Ok x.
Proof.
  intros H. destruct (exists_last H) as (l' & x & ->).
  exists l', x. split; [reflexivity|apply last_item_app].
Qed.

(** ** The replay loop never fails on a positive close *)

Lemma entry_recorded_initial (cfg : Config) : entry_recorded (initial_state cfg).
Proof.
  intros H. simpl in H. lra.
Qed.

Lemma open_long_inv (cfg : Config) (st st1 : LoopState) (t : Timestamp) (p : Q) :
  open_long cfg st t p = Ok st1 ->
  ~ p * (1 + slippage cfg) == 0 /\
  st1 =
    {| cash := cash st - cash st * commission cfg
               - (cash st - cash st * commission cfg) / (p * (1 + slippage cfg))
                 * (p * (1 + slippage cfg));
       position := (cash st - cash st * commission cfg) / (p * (1 + slippage cfg));
       st_entry_price := Some (p * (1 + slippage cfg));
       st_entry_time := Some t;
       trade_log := trade_log st;
       pnl_decimals := pnl_decimals st;
       equity_curve := equity_curve st;
       equity_timestamps := equity_timestamps st;
       peak_equity := peak_equity st;
       max_drawdown := max_drawdown st |}.
Proof.
  unfold open_long. intros H.
  apply bind_ok in H as (q & Hq & H). apply py_div_inv in Hq as [Hz ->].
  injection H as <-. split; [exact Hz|reflexivity].
Qed.

Lemma close_long_inv (cfg : Config) (st st1 : LoopState) (t : Timestamp) (p : Q) :
  close_long cfg st t p = Ok st1 ->
  exists entry,
    st_entry_price st = Some entry /\ ~ entry == 0 /\
    st1 =
      {| cash := cash st + (position st * (p * (1 - slippage cfg))
                            - position st * (p * (1 - slippage cfg))
                              * commission cfg);
         position := 0;
         st_entry_price := None;
         st_entry_time := None;
         trade_log :=
           trade_log st ++
             [ {| entry_time := st_entry_time st;
                  exit_time := t;
                  entry_price := entry;
                  exit_price := p * (1 - slippage cfg);
                  pnl_pct := (p * (1 - slippage cfg) - entry) / entry * 100;
                  duration_hrs := hours_since (st_entry_time st) t |} ];
         pnl_decimals :=
           pnl_decimals st ++ [(p * (1 - slippage cfg) - entry) / entry];
         equity_curve := equity_curve st;
         equity_timestamps := equity_timestamps st;
         peak_equity := peak_equity st;
         max_drawdown := max_drawdown st |}.
Proof.
  unfold close_long. intros H.
  apply bind_ok in H as (entry & He & H).
  destruct (st_entry_price st) as [e|]; [|discriminate].
  injection He as ->.
  apply bind_ok in H as (q & Hq & H). apply py_div_inv in Hq as [Hz ->].
  injection H as <-. exists entry. repeat split; assumption.
Qed.

Lemma close_long_ok (cfg : Config) (st : LoopState) (t : Timestamp) (p entry : Q) :
  st_entry_price st = Some entry -> ~ entry == 0 ->
  exists st1, close_long cfg st t p = Ok st1.
Proof.
  intros He Hz. unfold close_long. rewrite He. simpl.
  rewrite (py_div_ok _ _ Hz). simpl. eauto.
Qed.

Lemma transition_entry_recorded (cfg : Config) (st st1 : LoopState) (b : Bar) :
  entry_recorded st -> transition cfg st b = Ok st1 -> entry_recorded st1.
Proof.
  intros Hinv. unfold transition.
  destruct (Qeq_bool (position st) 0 && mem (bar_signal b) (buy_set cfg)).
  - intros H. apply open_long_inv in H as [Hz ->]. intros _. simpl. eauto.
  - destruct (Qlt_bool 0 (position st) && mem (bar_signal b) (sell_set cfg)).
    + intros H. apply close_long_inv in H as (e & _ & _ & ->).
      intros Hp. simpl in Hp. lra.
    + intros [= <-]. exact Hinv.
Qed.

Lemma mark_to_market_ok (st : LoopState) (b : Bar) :
  exists st', mark_to_market st b = Ok st' /\
    cash st' = cash st /\ position st' = position st /\
    st_entry_price st' = st_entry_price st /\
    st_entry_time st' = st_entry_time st /\
    trade_log st' = trade_log st /\ pnl_decimals st' = pnl_decimals st /\
    equity_curve st' = equity_curve st ++ [cash st + position st * bar_close b] /\
    equity_timestamps st' = equity_timestamps st ++ [bar_time b].
Proof.
  unfold mark_to_market.
  destruct (Qeq_bool (py_max (peak_equity st)
                        (cash st + position st * bar_close b)) 0) eqn:E.
  - simpl. eexists. split; [reflexivity|]. simpl. repeat split.
  - apply Qeq_bool_false in E. rewrite (py_div_ok _ _ E). simpl.
    eexists. split; [reflexivity|]. simpl. repeat split.
Qed.

Lemma bar_step_inv (cfg : Config) (st st' : LoopState) (b : Bar) :
  bar_step cfg st b = Ok st' ->
  0 < bar_close b /\
  exists st1, transition cfg st b = Ok st1 /\ mark_to_market st1 b = Ok st'.
Proof.
  unfold bar_step. destruct (Qle_bool (bar_close b) 0) eqn:E; [discriminate|].
  apply Qle_bool_false in E. intros H. apply bind_ok in H. auto.
Qed.

Lemma bar_step_entry_recorded (cfg : Config) (st st' : LoopState) (b : Bar) :
  entry_recorded st -> bar_step cfg st b = Ok st' -> entry_recorded st'.
Proof.
  intros Hinv H. apply bar_step_inv in H as (_ & st1 & Ht & Hm).
  pose proof (transition_entry_recorded _ _ _ _ Hinv Ht) as H1.
  destruct (mark_to_market_ok st1 b) as (st2 & Hm' & _ & Hp & He & _).
  rewrite Hm in Hm'. injection Hm' as <-.
  unfold entry_recorded. rewrite Hp, He. exact H1.
Qed.

Lemma replay_entry_recorded (cfg : Config) (bars : list Bar) :
  forall st st', entry_recorded st -> replay cfg st bars = Ok st' ->
                 entry_recorded st'.
Proof.
  induction bars as [|b bars IH]; simpl; intros st st' Hinv H.
  - injection H as <-. exact Hinv.
  - apply bind_ok in H as (st1 & Hb & H).
    eapply IH; [|exact H]. eapply bar_step_entry_recorded; eassumption.
Qed.

Lemma transition_ok (cfg : Config) (st : LoopState) (b : Bar) :
  ~ slippage cfg == -1 -> 0 < bar_close b -> entry_recorded st ->
  exists st1, transition cfg st b = Ok st1.
Proof.
  intros Hs Hp Hinv. unfold transition.
  destruct (Qeq_bool (position st) 0 && mem (bar_signal b) (buy_set cfg)).
  - unfold open_long. rewrite py_div_ok; [simpl; eauto|].
    intros Hz. apply Qmult_integral in Hz as [Hz|Hz]; [lra|].
    apply Hs. lra.
  - destruct (Qlt_bool 0 (position st) && mem (bar_signal b) (sell_set cfg)) eqn:E.
    + apply andb_prop in E as [E _]. apply Qlt_bool_iff in E.
      destruct (Hinv E) as (p & He & Hz). eapply close_long_ok; eassumption.
    + simpl. eauto.
Qed.

(** A signal that does not match the state changes nothing. *)
Lemma transition_idle (cfg : Config) (st : LoopState) (b : Bar) :
  (position st == 0 -> mem (bar_signal b) (buy_set cfg) = false) ->
  (0 < position st -> mem (bar_signal b) (sell_set cfg) = false) ->
  transition cfg st b = Ok st.
Proof.
  intros Hflat Hlong. unfold transition.
  destruct (Qeq_bool (position st) 0) eqn:E0.
  - apply Qeq_bool_iff in E0 as E0'. rewrite (Hflat E0'). cbn [andb].
    assert (E1 : Qlt_bool 0 (position st) = false)
      by (apply Qlt_bool_false; rewrite E0'; lra).
    now rewrite E1.
  - cbn [andb]. destruct (Qlt_bool 0 (position st)) eqn:E1; [|reflexivity].
    apply Qlt_bool_iff in E1. now rewrite (Hlong E1).
Qed.

Lemma bar_step_ok (cfg : Config) (st : LoopState) (b : Bar) :
  ~ slippage cfg == -1 -> 0 < bar_close b -> entry_recorded st ->
  exists st', bar_step cfg st b = Ok st'.
Proof.
  intros Hs Hp Hinv. unfold bar_step.
  assert (E : Qle_bool (bar_close b) 0 = false) by now apply Qle_bool_false.
  rewrite E. destruct (transition_ok cfg st b Hs Hp Hinv) as (st1 & ->). simpl.
  destruct (mark_to_market_ok st1 b) as (st' & -> & _). eauto.
Qed.

Lemma replay_ok (cfg : Config) (bars : list Bar) :
  ~ slippage cfg == -1 -> positive_closes bars ->
  forall st, entry_recorded st -> exists st', replay cfg st bars = Ok st'.
Proof.
  intros Hs Hpos. induction Hpos as [|b bars Hb _ IH]; intros st Hinv; simpl.
  - eauto.
  - destruct (bar_step_ok cfg st b Hs Hb Hinv) as (st1 & H1). rewrite H1. simpl.
    apply IH. eapply bar_step_entry_recorded; eassumption.
Qed.

Lemma replay_app (cfg : Config) (pre post : list Bar) (st : LoopState) :
  replay cfg st (pre ++ post) =
  bind (replay cfg st pre) (fun st' => replay cfg st' post).
Proof.
  revert st. induction pre as [|b pre IH]; intros st; simpl; [reflexivity|].
  destruct (bar_step cfg st b); simpl; [apply IH|reflexivity].
Qed.

Lemma bar_step_nonpositive (cfg : Config) (st : LoopState) (b : Bar) :
  bar_close b <= 0 ->
  bar_step cfg st b =
  Raise (ValueError "Close prices must be positive for backtesting").
Proof.
  intros H. unfold bar_step. apply Qle_bool_iff in H. now rewrite H.
Qed.

Lemma replay_positive (cfg : Config) (bars : list Bar) :
  forall st st', replay cfg st bars = Ok st' -> positive_closes bars.
Proof.
  induction bars as [|b bars IH]; simpl; intros st st' H.
  - constructor.
  - apply bind_ok in H as (st1 & Hb & H). constructor.
    + now apply bar_step_inv in Hb.
    + eapply IH; eassumption.
Qed.

Lemma transition_curve (cfg : Config) (st st1 : LoopState) (b : Bar) :
  transition cfg st b = Ok st1 ->
  equity_curve st1 = equity_curve st /\
  equity_timestamps st1 = equity_timestamps st.
Proof.
  unfold transition.
  destruct (Qeq_bool (position st) 0 && mem (bar_signal b) (buy_set cfg)).
  - intros H. apply open_long_inv in H as [_ ->]. split; reflexivity.
  - destruct (Qlt_bool 0 (position st) && mem (bar_signal b) (sell_set cfg)).
    + intros H. apply close_long_inv in H as (e & _ & _ & ->). split; reflexivity.
    + intros [= <-]. split; reflexivity.
Qed.

Lemma bar_step_curve (cfg : Config) (st st' : LoopState) (b : Bar) :
  bar_step cfg st b = Ok st' ->
  exists st1, transition cfg st b = Ok st1 /\
    cash st' = cash st1 /\ position st' = position st1 /\
    st_entry_price st' = st_entry_price st1 /\
    st_entry_time st' = st_entry_time st1 /\
    trade_log st' = trade_log st1 /\
    equity_curve st' = equity_curve st ++ [cash st1 + position st1 * bar_close b] /\
    equity_timestamps st' = equity_timestamps st ++ [bar_time b].
Proof.
  intros H. apply bar_step_inv in H as (_ & st1 & Ht & Hm).
  destruct (mark_to_market_ok st1 b) as (st2 & Hm' & Hc & Hp & He & Het & Hl & _ & Hq & Hts).
  rewrite Hm in Hm'. injection Hm' as <-.
  apply transition_curve in Ht as Hcurve. destruct Hcurve as [Hc1 Hc2].
  exists st1. rewrite <- Hc1, <- Hc2. repeat split; assumption.
Qed.

Lemma replay_curve (cfg : Config) (bars : list Bar) :
  forall st st', replay cfg st bars = Ok st' ->
    equity_timestamps st' = equity_timestamps st ++ map bar_time bars /\
    List.length (equity_curve st') =
      (List.length (equity_curve st) + List.length bars)%nat.
Proof.
  induction bars as [|b bars IH]; simpl; intros st st' H.
  - injection H as <-. rewrite app_nil_r. split; [reflexivity|lia].
  - apply bind_ok in H as (st1 & Hb & H).
    apply bar_step_curve in Hb as (st2 & _ & _ & _ & _ & _ & _ & Hc & Ht).
    apply IH in H as [H1 H2]. rewrite H1, H2, Hc, Ht, <- app_assoc, length_app.
    split; [reflexivity|simpl; lia].
Qed.

(** ** The summary never fails *)

Lemma len_nonzero {A} (l : list A) : l <> [] -> ~ len l == 0.
Proof.
  intros H E. destruct l as [|x l]; [congruence|].
  unfold len, Qeq, inject_Z in E. cbn [Qnum Qden List.length] in E. lia.
Qed.

Lemma win_loss_ratio_ok (wins losses : list Q) :
  exists r, win_loss_ratio_of wins losses = Ok r /\
    (losses <> [] -> r = Fin (len wins / len losses)) /\
    (losses = [] -> wins <> [] -> r = PosInf) /\
    (losses = [] -> wins = [] -> r = Fin 0).
Proof.
  unfold win_loss_ratio_of. destruct losses as [|l losses]; cbn [nonempty].
  - destruct wins as [|w wins]; simpl; eexists; (split; [reflexivity|]);
      repeat split; congruence.
  - rewrite py_div_ok by (apply len_nonzero; discriminate). simpl.
    eexists; split; [reflexivity|]. repeat split; congruence.
Qed.

Lemma summarise_ok (cfg : Config) (st : LoopState) :
  0 < initial_balance cfg ->
  exists o, summarise cfg st = Ok o /\
    out_trades o = trade_log st /\
    out_equity o = combine (equity_timestamps st) (equity_curve st) /\
    total_trades (out_metrics o) = List.length (pnl_decimals st) /\
    final_balance (out_metrics o) = cash st /\
    profit_factor (out_metrics o) =
      profit_factor_of (wins_of (pnl_decimals st)) (losses_of (pnl_decimals st)) /\
    win_loss_ratio_of (wins_of (pnl_decimals st)) (losses_of (pnl_decimals st)) =
      Ok (win_loss_ratio (out_metrics o)) /\
    net_return (out_metrics o) = (cash st / initial_balance cfg - 1) * 100 /\
    m_max_drawdown (out_metrics o) = max_drawdown st * 100.
Proof.
  intros Hb. unfold summarise.
  assert (Hwr : exists r,
    (if (0 <? List.length (pnl_decimals st))%nat
     then r <- py_div (len (wins_of (pnl_decimals st))) (len (pnl_decimals st)) ;;
          ret (r * 100)
     else ret 0) = Ok r).
  { destruct (0 <? List.length (pnl_decimals st))%nat eqn:E; [|simpl; eauto].
    rewrite py_div_ok; [simpl; eauto|]. apply len_nonzero.
    apply Nat.ltb_lt in E. destruct (pnl_decimals st); simpl in E; [lia|discriminate]. }
  destruct Hwr as (r & ->). simpl.
  rewrite py_div_ok by lra. simpl.
  destruct (win_loss_ratio_ok (wins_of (pnl_decimals st))
              (losses_of (pnl_decimals st))) as (w & Hw & _).
  rewrite Hw. simpl. eexists. split; [reflexivity|].
  unfold out_trades, out_equity, out_metrics. simpl. repeat split.
Qed.

(** ** The forced exit *)

Lemma set_last_nonempty (l : list Q) (v : Q) :
  l <> [] -> set_last l v = removelast l ++ [v].
Proof.
  destruct l; [congruence|reflexivity].
Qed.

(** The forced exit is the signal-driven exit at the last bar, followed by
    the correction of the last equity point. *)
Lemma forced_exit_as_close_long (cfg : Config) (st : LoopState)
    (bars : list Bar) (final_bar : Bar) (entry : Q) :
  0 < position st -> st_entry_price st = Some entry ->
  last_item bars = Ok final_bar ->
  forced_exit cfg st bars =
  bind (close_long cfg st (bar_time final_bar) (bar_close final_bar))
       (fun st' =>
          ret {| cash := cash st';
                 position := position st';
                 st_entry_price := st_entry_price st';
                 st_entry_time := st_entry_time st';
                 trade_log := trade_log st';
                 pnl_decimals := pnl_decimals st';
                 equity_curve := set_last (equity_curve st') (cash st');
                 equity_timestamps := equity_timestamps st';
                 peak_equity := peak_equity st';
                 max_drawdown := max_drawdown st' |}).
Proof.
  intros Hp He Hl. unfold forced_exit, close_long.
  apply Qlt_bool_iff in Hp. rewrite Hp, He, Hl. simpl.
  destruct (py_div _ entry); reflexivity.
Qed.

Lemma forced_exit_idle (cfg : Config) (st : LoopState) (bars : list Bar) :
  position st <= 0 -> forced_exit cfg st bars = Ok st.
Proof.
  intros H. unfold forced_exit. apply Qlt_bool_false in H. now rewrite H.
Qed.

Lemma replay_open_nonempty (cfg : Config) (bars : list Bar) (st : LoopState) :
  replay cfg (initial_state cfg) bars = Ok st -> 0 < position st -> bars <> [].
Proof.
  intros H Hp ->. simpl in H. injection H as <-. simpl in Hp. lra.
Qed.

Lemma forced_exit_ok (cfg : Config) (bars : list Bar) (st : LoopState) :
  replay cfg (initial_state cfg) bars = Ok st ->
  exists st', forced_exit cfg st bars = Ok st'.
Proof.
  intros H. destruct (Qlt_le_dec 0 (position st)) as [Hp|Hp].
  - pose proof (replay_entry_recorded _ _ _ _ (entry_recorded_initial cfg) H) as Hinv.
    destruct (Hinv Hp) as (entry & He & Hz).
    destruct (last_item_ok bars (replay_open_nonempty _ _ _ H Hp))
      as (pre & final_bar & _ & Hl).
    rewrite (forced_exit_as_close_long _ _ _ _ _ Hp He Hl).
    destruct (close_long_ok cfg st (bar_time final_bar) (bar_close final_bar)
                _ He Hz) as (st1 & ->). simpl. eauto.
  - rewrite forced_exit_idle by assumption. eauto.
Qed.

Lemma combine_snoc {A B} (l : list A) (l' : list B) (a : A) (b : B) :
  List.length l = List.length l' ->
  combine (l ++ [a]) (l' ++ [b]) = combine l l' ++ [(a, b)].
Proof.
  revert l'. induction l as [|x l IH]; intros [|y l'] H; simpl in *;
    try discriminate; [reflexivity|].
  f_equal. apply IH. lia.
Qed.

Lemma removelast_combine_snoc {A B} (l : list A) (l' : list B) (a : A) (b : B) :
  List.length l = List.length l' ->
  removelast (combine (l ++ [a]) (l' ++ [b])) = combine l l'.
Proof.
  intros H. rewrite combine_snoc by assumption. apply removelast_last.
Qed.

(** ** Degenerate inputs and errors *)

Lemma positive_close_dec (b : Bar) : {0 < bar_close b} + {~ 0 < bar_close b}.
Proof.
  destruct (Qlt_le_dec 0 (bar_close b)); [left|right]; lra.
Qed.

Lemma backtest_signals_bad_balance (df : DataFrame) (cfg : Config) :
  initial_balance cfg <= 0 ->
  backtest_signals df cfg = Raise (ValueError "initial_balance must be > 0").
Proof.
  intros H. unfold backtest_signals. apply Qle_bool_iff in H. now rewrite H.
Qed.

Lemma backtest_signals_empty (df : DataFrame) (cfg : Config) :
  0 < initial_balance cfg -> df_empty df = true ->
  backtest_signals df cfg = Ok (empty_metrics cfg, [], []).
Proof.
  intros Hb He. unfold backtest_signals.
  apply Qle_bool_false in Hb. now rewrite Hb, He.
Qed.

Lemma backtest_signals_missing_columns (df : DataFrame) (cfg : Config) :
  0 < initial_balance cfg -> df_empty df = false ->
  df_close df = None \/ df_signal df = None ->
  backtest_signals df cfg =
  Raise (ValueError "DataFrame must include 'close' and 'signal' columns").
Proof.
  intros Hb He H. unfold backtest_signals.
  apply Qle_bool_false in Hb. rewrite Hb, He.
  destruct H as [H|H]; rewrite H; [reflexivity|].
  destruct (df_close df); reflexivity.
Qed.

(** C6.  On an empty input table (no rows, or no columns) and a valid
    initial balance, [backtest_signals] returns: the trade table and the
    equity series are empty, [total_trades], [win_rate], [net_return] and
    [max_drawdown] are 0, [final_balance] (and the [initial_balance] entry) is
    the initial balance, and every other metric is 0. *)
Theorem empty_input_zero_result (df : DataFrame) (cfg : Config) :
  0 < initial_balance cfg -> df_empty df = true ->
  exists m,
    backtest_signals df cfg = Ok (m, [], []) /\
    total_trades m = 0%nat /\ win_rate m = 0 /\ net_return m = 0 /\
    m_max_drawdown m = 0 /\ final_balance m = initial_balance cfg /\
    avg_gain m = 0 /\ avg_loss m = 0 /\ profit_factor m = Fin 0 /\
    gross_gain m = 0 /\ gross_loss m = 0 /\ best_trade m = 0 /\
    worst_trade m = 0 /\ win_loss_ratio m = Fin 0 /\
    avg_hold_hours m = 0 /\ median_hold_hours m = 0 /\ exposure_pct m = 0 /\
    m_initial_balance m = initial_balance cfg.
Proof.
  intros Hb He. exists (empty_metrics cfg).
  rewrite (backtest_signals_empty df cfg Hb He). repeat split.
Qed.

Lemma empty_input_zero_result_witness :
  exists m,
    backtest_signals Fixtures.no_rows (default_config 500) = Ok (m, [], []) /\
    total_trades m = 0%nat /\ final_balance m = 500.
Proof.
  destruct (empty_input_zero_result Fixtures.no_rows (default_config 500))
    as (m & H & Ht & _ & _ & _ & Hf & _).
  - reflexivity.
  - reflexivity.
  - exists m. repeat split; assumption.
Defined.

(** C10.  With a valid initial balance, every empty input table, whether or
    not it has the [close] and [signal] columns, gets the zero-valued result:
    the empty-input test comes first, so the missing-columns error is only
    ever raised for a table that is not empty. *)
Theorem empty_check_precedes_columns_check (df : DataFrame) (cfg : Config) :
  0 < initial_balance cfg ->
  (df_empty df = true ->
   backtest_signals df cfg = Ok (empty_metrics cfg, [], [])) /\
  (backtest_signals df cfg =
     Raise (ValueError "DataFrame must include 'close' and 'signal' columns") ->
   df_empty df = false) /\
  (df_empty df = false -> df_close df = None \/ df_signal df = None ->
   backtest_signals df cfg =
     Raise (ValueError "DataFrame must include 'close' and 'signal' columns")).
Proof.
  intros Hb. split; [|split].
  - apply backtest_signals_empty, Hb.
  - destruct (df_empty df) eqn:He; [|reflexivity].
    rewrite (backtest_signals_empty df cfg Hb He). discriminate.
  - apply backtest_signals_missing_columns, Hb.
Qed.

Lemma empty_check_precedes_columns_check_witness :
  backtest_signals Fixtures.no_rows_no_required_columns (default_config 500)
  = Ok (empty_metrics (default_config 500), [], []).
Proof.
  apply (empty_check_precedes_columns_check
           Fixtures.no_rows_no_required_columns (default_config 500)).
  - reflexivity.
  - reflexivity.
Defined.

Lemma backtest_signals_unfold (df : DataFrame) (cfg : Config)
    (closes : list Q) (signals : list string) :
  0 < initial_balance cfg -> df_empty df = false ->
  df_close df = Some closes -> df_signal df = Some signals ->
  backtest_signals df cfg =
  bind (replay cfg (initial_state cfg) (bars_of (df_index df) closes signals))
       (fun st =>
          bind (forced_exit cfg st (bars_of (df_index df) closes signals))
               (summarise cfg)).
Proof.
  intros Hb He Hc Hs. unfold backtest_signals.
  apply Qle_bool_false in Hb. rewrite Hb, He, Hc, Hs. reflexivity.
Qed.

Lemma backtest_signals_returns (df : DataFrame) (cfg : Config)
    (closes : list Q) (signals : list string) :
  ~ slippage cfg == -1 ->
  0 < initial_balance cfg -> df_empty df = false ->
  df_close df = Some closes -> df_signal df = Some signals ->
  positive_closes (bars_of (df_index df) closes signals) ->
  exists st st' o,
    replay cfg (initial_state cfg) (bars_of (df_index df) closes signals) = Ok st /\
    forced_exit cfg st (bars_of (df_index df) closes signals) = Ok st' /\
    summarise cfg st' = Ok o /\
    backtest_signals df cfg = Ok o.
Proof.
  intros Hs Hb He Hc Hsig Hpos.
  rewrite (backtest_signals_unfold _ _ _ _ Hb He Hc Hsig).
  destruct (replay_ok cfg _ Hs Hpos _ (entry_recorded_initial cfg)) as (st & Hr).
  destruct (forced_exit_ok _ _ _ Hr) as (st' & Hf).
  destruct (summarise_ok cfg st' Hb) as (o & Ho & _).
  exists st, st', o. rewrite Hr. simpl. rewrite Hf. simpl. auto.
Qed.

(** C3.  When the slipped entry price cannot be zero (the slippage is not
    -1), [backtest_signals] raises exactly in three cases: the initial
    balance is not positive (whatever the table); the table is not empty and
    lacks [close] or [signal]; a bar of the sorted table has a non-positive
    close.  In the last case the bars before the first such bar are replayed,
    the error is raised by the step of that bar, and the call returns no
    result. *)
Theorem backtest_signals_raises_exactly_when (df : DataFrame) (cfg : Config) :
  ~ slippage cfg == -1 ->
  (initial_balance cfg <= 0 ->
   backtest_signals df cfg = Raise (ValueError "initial_balance must be > 0")) /\
  (0 < initial_balance cfg -> df_empty df = false ->
   df_close df = None \/ df_signal df = None ->
   backtest_signals df cfg =
     Raise (ValueError "DataFrame must include 'close' and 'signal' columns")) /\
  (forall closes signals pre b post,
     0 < initial_balance cfg -> df_empty df = false ->
     df_close df = Some closes -> df_signal df = Some signals ->
     bars_of (df_index df) closes signals = pre ++ b :: post ->
     positive_closes pre -> bar_close b <= 0 ->
     exists st,
       replay cfg (initial_state cfg) pre = Ok st /\
       bar_step cfg st b =
         Raise (ValueError "Close prices must be positive for backtesting") /\
       backtest_signals df cfg =
         Raise (ValueError "Close prices must be positive for backtesting")) /\
  (raises (backtest_signals df cfg) <->
   initial_balance cfg <= 0 \/
   (df_empty df = false /\ (df_close df = None \/ df_signal df = None)) \/
   (df_empty df = false /\
    exists closes signals,
      df_close df = Some closes /\ df_signal df = Some signals /\
      Exists (fun b => bar_close b <= 0) (bars_of (df_index df) closes signals))).
Proof.
  intros Hs.
  pose proof (backtest_signals_bad_balance df cfg) as H1.
  pose proof (backtest_signals_missing_columns df cfg) as H2.
  split; [exact H1|]. split; [exact H2|]. split.
  - intros closes signals pre b post Hb He Hc Hsig Hbars Hpre Hbad.
    destruct (replay_ok cfg pre Hs Hpre _ (entry_recorded_initial cfg)) as (st & Hr).
    exists st. split; [exact Hr|].
    pose proof (bar_step_nonpositive cfg st b Hbad) as Hstep.
    split; [exact Hstep|].
    rewrite (backtest_signals_unfold _ _ _ _ Hb He Hc Hsig), Hbars, replay_app, Hr.
    simpl. rewrite Hstep. reflexivity.
  - split.
    + intros (e & Hraise).
      destruct (Qlt_le_dec 0 (initial_balance cfg)) as [Hb|Hb]; [|now left].
      right. destruct (df_empty df) eqn:He.
      { rewrite (backtest_signals_empty df cfg Hb He) in Hraise. discriminate. }
      destruct (df_close df) as [closes|] eqn:Hc; [|left; auto].
      destruct (df_signal df) as [signals|] eqn:Hsig; [|left; auto].
      right. split; [reflexivity|]. exists closes, signals.
      split; [reflexivity|]. split; [reflexivity|].
      destruct (Forall_Exists_dec (fun b => 0 < bar_close b) positive_close_dec
                  (bars_of (df_index df) closes signals)) as [Hall|Hex].
      * destruct (backtest_signals_returns df cfg closes signals Hs Hb He Hc Hsig Hall)
          as (st & st' & o & _ & _ & _ & Ho).
        rewrite Ho in Hraise. discriminate.
      * apply Exists_exists in Hex as (b & Hin & Hb'). apply Exists_exists.
        exists b. split; [exact Hin|]. lra.
    + intros [Hb|[(He & Hcols)|(He & closes & signals & Hc & Hsig & Hex)]].
      * eexists. apply H1, Hb.
      * destruct (Qlt_le_dec 0 (initial_balance cfg)) as [Hb|Hb].
        -- eexists. apply H2; assumption.
        -- eexists. apply H1, Hb.
      * destruct (Qlt_le_dec 0 (initial_balance cfg)) as [Hb|Hb];
          [|eexists; apply H1, Hb].
        rewrite (backtest_signals_unfold _ _ _ _ Hb He Hc Hsig).
        destruct (replay cfg (initial_state cfg)
                    (bars_of (df_index df) closes signals)) as [st|e] eqn:Hr.
        -- apply replay_positive in Hr. apply Exists_exists in Hex as (b & Hin & Hb').
           unfold positive_closes in Hr. rewrite Forall_forall in Hr.
           specialize (Hr b Hin). lra.
        -- exists e. reflexivity.
Qed.

Lemma backtest_signals_raises_exactly_when_witness :
  backtest_signals Fixtures.bad_close (default_config 1000) =
  Raise (ValueError "Close prices must be positive for backtesting").
Proof.
  assert (Hs : ~ slippage (default_config 1000) == -1)
    by (intros H; vm_compute in H; discriminate H).
  destruct (backtest_signals_raises_exactly_when
              Fixtures.bad_close (default_config 1000) Hs) as (_ & _ & H & _).
  destruct (H [100; -5; 120] ["BUY"; "HOLD"; "SELL"]
              [(Fixtures.hour 0, 100, "BUY")]
              (Fixtures.hour 1, -5, "HOLD")
              [(Fixtures.hour 2, 120, "SELL")]) as (st & _ & _ & Hr).
  - reflexivity.
  - reflexivity.
  - reflexivity.
  - reflexivity.
  - reflexivity.
  - repeat constructor.
  - vm_compute. discriminate.
  - exact Hr.
Defined.

(** C2.  Whenever the replay of a table ends with an open position, the
    call liquidates it at the close of the last bar exactly as a sell signal
    at that bar would have ([close_long]: the fill is the close times
    (1 - slippage), the commission is taken from the gross proceeds), appends
    to the trade table a trade whose [exit_time] is the timestamp of the last
    bar, reports the cash after the liquidation as [final_balance] and puts
    it in place of the last equity point.  No condition on the signal of the
    last bar is involved. *)
Theorem forced_exit_at_last_bar (df : DataFrame) (cfg : Config)
    (closes : list Q) (signals : list string) (st : LoopState) :
  0 < initial_balance cfg -> df_empty df = false ->
  df_close df = Some closes -> df_signal df = Some signals ->
  replay cfg (initial_state cfg) (bars_of (df_index df) closes signals) = Ok st ->
  0 < position st ->
  exists final_bar entry st' o,
    last_item (bars_of (df_index df) closes signals) = Ok final_bar /\
    st_entry_price st = Some entry /\
    close_long cfg st (bar_time final_bar) (bar_close final_bar) = Ok st' /\
    backtest_signals df cfg = Ok o /\
    out_trades o = trade_log st' /\
    out_trades o =
      trade_log st ++
        [ {| entry_time := st_entry_time st;
             exit_time := bar_time final_bar;
             entry_price := entry;
             exit_price := bar_close final_bar * (1 - slippage cfg);
             pnl_pct :=
               (bar_close final_bar * (1 - slippage cfg) - entry) / entry * 100;
             duration_hrs :=
               hours_since (st_entry_time st) (bar_time final_bar) |} ] /\
    cash st' =
      cash st
      + (position st * (bar_close final_bar * (1 - slippage cfg))
         - position st * (bar_close final_bar * (1 - slippage cfg))
           * commission cfg) /\
    final_balance (out_metrics o) = cash st' /\
    out_equity o =
      removelast (combine (equity_timestamps st) (equity_curve st))
        ++ [(bar_time final_bar, cash st')].
Proof.
  intros Hb He Hc Hsig Hr Hp.
  set (bars := bars_of (df_index df) closes signals) in *.
  pose proof (replay_entry_recorded _ _ _ _ (entry_recorded_initial cfg) Hr) as Hinv.
  destruct (Hinv Hp) as (entry & Hentry & Hz).
  destruct (last_item_ok bars (replay_open_nonempty _ _ _ Hr Hp))
    as (pre & final_bar & Hbars & Hl).
  destruct (close_long_ok cfg st (bar_time final_bar) (bar_close final_bar)
              _ Hentry Hz) as (st1 & Hclose).
  pose proof (forced_exit_as_close_long cfg _ _ _ _ Hp Hentry Hl) as Hf.
  rewrite Hclose in Hf. simpl in Hf.
  match type of Hf with _ = ret ?s => set (st2 := s) in * end.
  destruct (summarise_ok cfg st2 Hb) as (o & Ho & Htr & Heq & _ & Hfin & _).
  exists final_bar, entry, st1, o.
  split; [exact Hl|]. split; [exact Hentry|]. split; [exact Hclose|].
  split.
  { rewrite (backtest_signals_unfold _ _ _ _ Hb He Hc Hsig). fold bars.
    rewrite Hr. simpl. rewrite Hf. simpl. exact Ho. }
  apply close_long_inv in Hclose as (entry' & Hentry' & _ & Hst1).
  rewrite Hentry in Hentry'. injection Hentry' as <-.
  subst st1. unfold st2 in *. cbn in Htr, Heq, Hfin |- *.
  split; [exact Htr|]. split; [exact Htr|].
  split; [reflexivity|]. split; [exact Hfin|].
  rewrite Heq.
  destruct (replay_curve _ _ _ _ Hr) as [Hts Hlen].
  simpl in Hts, Hlen. fold bars in Hts, Hlen.
  rewrite Hbars, map_app in Hts. simpl in Hts.
  rewrite Hbars, length_app in Hlen. simpl in Hlen.
  destruct (exists_last (l := equity_curve st)) as (curve & v & Hcurve).
  { intros E. rewrite E in Hlen. simpl in Hlen. lia. }
  rewrite Hcurve in Hlen |- *. rewrite length_app in Hlen. simpl in Hlen.
  rewrite Hts.
  assert (Hlen' : List.length (map bar_time pre) = List.length curve)
    by (rewrite length_map; lia).
  rewrite set_last_nonempty by (destruct curve; discriminate).
  rewrite removelast_last, (removelast_combine_snoc _ _ _ _ Hlen').
  apply combine_snoc, Hlen'.
Qed.

Lemma forced_exit_at_last_bar_witness :
  exists o,
    backtest_signals Fixtures.open_at_end (default_config 1000) = Ok o /\
    List.length (out_trades o) = 1%nat.
Proof.
  destruct (forced_exit_at_last_bar Fixtures.open_at_end (default_config 1000)
              [100; 110; 120] ["BUY"; "HOLD"; "HOLD"] Fixtures.open_at_end_state)
    as (final_bar & entry & st' & o & _ & _ & _ & Ho & _ & Htrades & _).
  - reflexivity.
  - reflexivity.
  - reflexivity.
  - reflexivity.
  - vm_compute. reflexivity.
  - vm_compute. reflexivity.
  - exists o. split; [exact Ho|]. rewrite Htrades. reflexivity.
Defined.

(** ** The loop is the FLAT/LONG machine *)

Lemma Qdiv_pos (a b : Q) : 0 < a -> 0 < b -> 0 < a / b.
Proof.
  intros Ha Hb. unfold Qdiv. apply Qmult_lt_0_compat; [exact Ha|].
  apply Qinv_lt_0_compat, Hb.
Qed.

Lemma net_of_fee_pos (x c : Q) : 0 < x -> c < 1 -> 0 < x - x * c.
Proof.
  intros Hx Hc. nra.
Qed.

Lemma remainder_zero (x y : Q) : ~ y == 0 -> x - x / y * y == 0.
Proof.
  intros H. field. exact H.
Qed.

Section Refinement.

Variable cfg : Config.
Hypothesis rates : valid_rates cfg.

Lemma transition_tracks (st : LoopState) (a : Machine.Account) (b : Bar) :
  0 < bar_close b -> Machine.tracks st a ->
  exists st1, transition cfg st b = Ok st1 /\
    Machine.tracks st1 (Machine.step cfg a b) /\
    equity_curve st1 = equity_curve st /\
    equity_timestamps st1 = equity_timestamps st.
Proof.
  destruct rates as [[Hs0 Hs1] [Hc0 Hc1]].
  intros Hp [(Hcash & Hlog & Hpos) Hinv].
  unfold transition, Machine.step.
  destruct (Machine.acct_position a) as [|q fill since] eqn:Ha.
  - destruct Hpos as (Hq & He & Ht). rewrite Hq.
    change (Qeq_bool 0 0) with true. cbn [andb].
    destruct (mem (bar_signal b) (buy_set cfg)).
    + assert (Hfill : 0 < bar_close b * (1 + slippage cfg))
        by (apply Qmult_lt_0_compat; lra).
      assert (Hcaf : 0 < Machine.acct_cash a - Machine.acct_cash a * commission cfg)
        by (apply net_of_fee_pos; assumption).
      unfold open_long. rewrite Hcash. rewrite py_div_ok by lra.
      cbn [bind ret]. eexists. split; [reflexivity|].
      split; [|split; reflexivity].
      split.
      * repeat split; cbn; try assumption. now apply Qdiv_pos.
      * cbn. split; [|exact Hfill]. rewrite remainder_zero; lra.
    + change (Qlt_bool 0 0) with false. cbn [andb].
      exists st. split; [reflexivity|]. split; [|split; reflexivity].
      split; [|rewrite Ha; exact Hinv].
      repeat split; try assumption. rewrite Ha. repeat split; assumption.
  - destruct Hpos as (Hq & Hq0 & He & Ht). destruct Hinv as [Hcash0 Hfill].
    assert (E1 : Qeq_bool (position st) 0 = false)
      by (apply Qeq_bool_false; rewrite Hq; lra).
    assert (E2 : Qlt_bool 0 (position st) = true)
      by (apply Qlt_bool_iff; rewrite Hq; exact Hq0).
    rewrite E1, E2. cbn [andb].
    destruct (mem (bar_signal b) (sell_set cfg)).
    + unfold close_long. rewrite He, Ht, Hq, Hcash, Hlog. cbn [bind].
      rewrite py_div_ok by lra. cbn [bind ret hours_since].
      eexists. split; [reflexivity|]. split; [|split; reflexivity].
      split.
      * repeat split.
      * cbn.
        assert (0 < q * (bar_close b * (1 - slippage cfg))).
        { apply Qmult_lt_0_compat; [exact Hq0|]. apply Qmult_lt_0_compat; lra. }
        pose proof (net_of_fee_pos _ _ H Hc1). lra.
    + exists st. split; [reflexivity|]. split; [|split; reflexivity].
      split; [|rewrite Ha; split; assumption].
      repeat split; try assumption. rewrite Ha. repeat split; assumption.
Qed.

Lemma bar_step_tracks (st : LoopState) (a : Machine.Account) (b : Bar) :
  0 < bar_close b -> Machine.tracks st a ->
  exists st', bar_step cfg st b = Ok st' /\
    Machine.tracks st' (Machine.step cfg a b) /\
    equity_curve st' =
      equity_curve st ++ [Machine.equity_point (Machine.step cfg a b) b] /\
    equity_timestamps st' = equity_timestamps st ++ [bar_time b].
Proof.
  intros Hp Htr.
  destruct (transition_tracks st a b Hp Htr) as (st1 & Ht & Htr1 & Hc & Hts).
  destruct (mark_to_market_ok st1 b)
    as (st' & Hm & Hcash & Hpos & He & Het & Hlog & _ & Hcurve & Htimes).
  exists st'. split.
  { unfold bar_step. apply Qle_bool_false in Hp. rewrite Hp, Ht. exact Hm. }
  destruct Htr1 as [(Hcash1 & Hlog1 & Hpos1) Hinv1].
  split; [split; [|exact Hinv1]|split].
  - unfold Machine.represents. rewrite Hcash, Hlog, Hpos, He, Het. auto.
  - rewrite Hcurve, Hc. do 2 f_equal. unfold Machine.equity_point.
    rewrite Hcash1. f_equal. f_equal.
    destruct (Machine.acct_position (Machine.step cfg a b)); tauto.
  - rewrite Htimes, Hts. reflexivity.
Qed.

Lemma replay_tracks (bars : list Bar) :
  positive_closes bars ->
  forall st a, Machine.tracks st a ->
  exists st', replay cfg st bars = Ok st' /\
    Machine.tracks st' (Machine.run cfg a bars) /\
    equity_curve st' = equity_curve st ++ Machine.equity_trace cfg a bars.
Proof.
  intros Hpos. induction Hpos as [|b bars Hb _ IH]; intros st a Htr.
  - exists st. split; [reflexivity|]. split; [exact Htr|].
    simpl. now rewrite app_nil_r.
  - destruct (bar_step_tracks st a b Hb Htr) as (st1 & Hs & Htr1 & Hc & _).
    destruct (IH st1 _ Htr1) as (st' & Hr & Htr' & Hc').
    exists st'. split; [simpl; rewrite Hs; exact Hr|]. split; [exact Htr'|].
    rewrite Hc', Hc, <- app_assoc. reflexivity.
Qed.

Lemma tracks_start : 0 < initial_balance cfg ->
  Machine.tracks (initial_state cfg) (Machine.start cfg).
Proof.
  intros Hb. split; [|exact Hb]. repeat split.
Qed.

End Refinement.

Lemma positive_closes_prefix (pre post : list Bar) :
  positive_closes (pre ++ post) -> positive_closes pre.
Proof.
  unfold positive_closes. rewrite Forall_app. tauto.
Qed.

(** C1.  For a table that is not empty, has its two columns and only
    positive closes, under fractional rates and a positive initial balance,
    the loop of [backtest_signals] is the FLAT/LONG machine of the
    specification: after every prefix of the sorted bars it has not failed,
    and its variables (cash, position, entry price and time, trade log) are
    those of [Machine.run] on that prefix, whose [Machine.step] opens a LONG
    on a buy signal while FLAT, closes it on a sell signal while LONG, and
    changes nothing otherwise. *)
Theorem replay_is_flat_long_machine (df : DataFrame) (cfg : Config)
    (closes : list Q) (signals : list string) :
  valid_rates cfg -> 0 < initial_balance cfg -> df_empty df = false ->
  df_close df = Some closes -> df_signal df = Some signals ->
  positive_closes (bars_of (df_index df) closes signals) ->
  (forall pre post,
     bars_of (df_index df) closes signals = pre ++ post ->
     exists st,
       replay cfg (initial_state cfg) pre = Ok st /\
       Machine.represents st (Machine.run cfg (Machine.start cfg) pre)) /\
  exists st,
    replay cfg (initial_state cfg) (bars_of (df_index df) closes signals) = Ok st /\
    backtest_signals df cfg =
      bind (forced_exit cfg st (bars_of (df_index df) closes signals))
           (summarise cfg).
Proof.
  intros Hrates Hb He Hc Hsig Hpos. split.
  - intros pre post Hbars. rewrite Hbars in Hpos.
    apply positive_closes_prefix in Hpos.
    destruct (replay_tracks cfg Hrates pre Hpos _ _ (tracks_start cfg Hb))
      as (st & Hr & [Htr _] & _).
    exists st. split; assumption.
  - destruct (replay_tracks cfg Hrates _ Hpos _ _ (tracks_start cfg Hb))
      as (st & Hr & _).
    exists st. split; [exact Hr|].
    rewrite (backtest_signals_unfold _ _ _ _ Hb He Hc Hsig), Hr. reflexivity.
Qed.

Lemma replay_is_flat_long_machine_witness :
  exists st,
    replay (default_config 1000) (initial_state (default_config 1000))
      (bars_of (df_index Fixtures.scenario_A) [100; 110; 115; 90; 88]
         ["HOLD"; "BUY"; "SELL"; "BUY"; "SELL"]) = Ok st /\
    List.length (trade_log st) = 2%nat.
Proof.
  destruct (replay_is_flat_long_machine Fixtures.scenario_A (default_config 1000)
              [100; 110; 115; 90; 88] ["HOLD"; "BUY"; "SELL"; "BUY"; "SELL"])
    as (Hprefix & _).
  - repeat split; vm_compute; congruence.
  - reflexivity.
  - reflexivity.
  - reflexivity.
  - reflexivity.
  - repeat constructor.
  - destruct (Hprefix
                (bars_of (df_index Fixtures.scenario_A) [100; 110; 115; 90; 88]
                   ["HOLD"; "BUY"; "SELL"; "BUY"; "SELL"]) [])
      as (st & Hr & _ & Hlog & _).
    + now rewrite app_nil_r.
    + exists st. split; [exact Hr|]. rewrite Hlog. reflexivity.
Defined.

(** ** Cash conservation and the equity curve *)

Lemma np_sum_app (l l' : list Q) : np_sum (l ++ l') == np_sum l + np_sum l'.
Proof.
  induction l as [|x l IH]; simpl.
  - ring.
  - unfold np_sum in IH. rewrite IH. unfold np_sum. ring.
Qed.

Lemma transition_cash (cfg : Config) (st st1 : LoopState) (b : Bar) :
  transition cfg st b = Ok st1 ->
  cash st1 == cash st + np_sum (bar_deltas cfg st b).
Proof.
  unfold transition, bar_deltas.
  destruct (Qeq_bool (position st) 0 && mem (bar_signal b) (buy_set cfg)).
  - intros H. apply open_long_inv in H as [_ ->]. cbn. ring.
  - destruct (Qlt_bool 0 (position st) && mem (bar_signal b) (sell_set cfg)).
    + intros H. apply close_long_inv in H as (e & _ & _ & ->). cbn. ring.
    + intros [= <-]. cbn. ring.
Qed.

Lemma replay_cash (cfg : Config) (bars : list Bar) :
  forall st st', replay cfg st bars = Ok st' ->
    cash st' == cash st + np_sum (replay_deltas cfg st bars).
Proof.
  induction bars as [|b bars IH]; intros st st' H; simpl in H |- *.
  - injection H as <-. cbn. ring.
  - apply bind_ok in H as (st1 & Hb & H). rewrite Hb.
    apply bar_step_curve in Hb as (st2 & Ht & Hc & _).
    rewrite np_sum_app, (IH _ _ H), Hc, (transition_cash _ _ _ _ Ht). ring.
Qed.

Lemma forced_exit_cash (cfg : Config) (st st' : LoopState) (bars : list Bar) :
  forced_exit cfg st bars = Ok st' ->
  cash st' == cash st + np_sum (forced_exit_deltas cfg st bars).
Proof.
  unfold forced_exit, forced_exit_deltas.
  destruct (Qlt_bool 0 (position st)).
  - destruct (st_entry_price st) as [entry|].
    + destruct (last_item bars) as [final_bar|e]; [|discriminate].
      cbn [bind]. intros H. apply bind_ok in H as (q & _ & H).
      injection H as <-. cbn. ring.
    + intros [= <-]. cbn. ring.
  - intros [= <-]. destruct (st_entry_price st), (last_item bars); cbn; ring.
Qed.

Lemma forced_exit_fires (cfg : Config) (bars : list Bar) (st : LoopState) :
  replay cfg (initial_state cfg) bars = Ok st -> 0 < position st ->
  exists st', forced_exit cfg st bars = Ok st' /\
    equity_curve st' = set_last (equity_curve st) (cash st') /\
    equity_timestamps st' = equity_timestamps st.
Proof.
  intros Hr Hp.
  pose proof (replay_entry_recorded _ _ _ _ (entry_recorded_initial cfg) Hr) as Hinv.
  destruct (Hinv Hp) as (entry & Hentry & Hz).
  destruct (last_item_ok bars (replay_open_nonempty _ _ _ Hr Hp))
    as (pre & final_bar & _ & Hl).
  rewrite (forced_exit_as_close_long cfg _ _ _ _ Hp Hentry Hl).
  destruct (close_long_ok cfg st (bar_time final_bar) (bar_close final_bar)
              _ Hentry Hz) as (st1 & Hclose).
  rewrite Hclose. cbn [bind ret]. eexists. split; [reflexivity|].
  apply close_long_inv in Hclose as (e & _ & _ & ->). split; reflexivity.
Qed.

Lemma replay_last_point (cfg : Config) (pre : list Bar) (b : Bar)
    (st0 st : LoopState) :
  replay cfg st0 (pre ++ [b]) = Ok st ->
  exists curve,
    equity_curve st = curve ++ [cash st + position st * bar_close b].
Proof.
  rewrite replay_app. intros H. apply bind_ok in H as (st1 & _ & H).
  simpl in H. apply bind_ok in H as (st2 & Hb & H). injection H as <-.
  apply bar_step_curve in Hb as (st3 & _ & Hc & Hp & _ & _ & _ & Hcurve & _).
  exists (equity_curve st1). rewrite Hcurve, Hc, Hp. reflexivity.
Qed.

Lemma zip3_length (ts : list Timestamp) (cs : list Q) (ss : list string) :
  List.length cs = List.length ts -> List.length ss = List.length ts ->
  List.length (zip3 ts cs ss) = List.length ts.
Proof.
  revert cs ss. induction ts as [|t ts IH]; intros [|c cs] [|s ss]; simpl;
    intros H1 H2; try discriminate; [reflexivity|].
  f_equal. apply IH; lia.
Qed.

Lemma insert_row_length (r : Bar) (l : list Bar) :
  List.length (insert_row r l) = S (List.length l).
Proof.
  induction l as [|r' l IH]; simpl; [reflexivity|].
  destruct (bar_time r <=? bar_time r')%Z; simpl; [reflexivity|].
  now rewrite IH.
Qed.

Lemma sort_index_length (rows : list Bar) :
  List.length (sort_index rows) = List.length rows.
Proof.
  unfold sort_index. induction rows as [|r rows IH]; simpl; [reflexivity|].
  now rewrite insert_row_length, IH.
Qed.

Lemma bars_of_nonempty (df : DataFrame) (closes : list Q) (signals : list string) :
  df_empty df = false -> well_formed df ->
  df_close df = Some closes -> df_signal df = Some signals ->
  bars_of (df_index df) closes signals <> [].
Proof.
  intros He Hwf Hc Hs. unfold well_formed in Hwf. rewrite Hc, Hs in Hwf.
  destruct Hwf as [H1 H2]. unfold df_empty in He.
  apply orb_false_elim in He as [He _]. apply Nat.eqb_neq in He.
  intros E. apply (f_equal (@List.length Bar)) in E.
  unfold bars_of in E.
  rewrite length_map, sort_index_length, zip3_length in E by assumption.
  simpl in E. lia.
Qed.

(** C7.  For a well-formed, non-empty table with positive closes, under
    fractional rates and a positive initial balance, the call returns;
    [final_balance] is the initial balance plus the sum of the cash deltas of
    the entries and exits (the forced exit included); the equity curve has
    one point per bar, the cash plus the quantity held times the raw close;
    the returned curve is that curve with its last value [v] equal to
    [final_balance]: the post-liquidation cash when the forced exit fired, the
    last point of the loop otherwise. *)
Theorem final_balance_reconciles (df : DataFrame) (cfg : Config)
    (closes : list Q) (signals : list string) :
  valid_rates cfg -> 0 < initial_balance cfg -> df_empty df = false ->
  df_close df = Some closes -> df_signal df = Some signals ->
  well_formed df ->
  positive_closes (bars_of (df_index df) closes signals) ->
  exists st o pre final_bar v,
    bars_of (df_index df) closes signals = pre ++ [final_bar] /\
    replay cfg (initial_state cfg) (bars_of (df_index df) closes signals) = Ok st /\
    backtest_signals df cfg = Ok o /\
    final_balance (out_metrics o) ==
      initial_balance cfg
      + np_sum (replay_deltas cfg (initial_state cfg)
                  (bars_of (df_index df) closes signals)
                ++ forced_exit_deltas cfg st
                     (bars_of (df_index df) closes signals)) /\
    equity_curve st =
      Machine.equity_trace cfg (Machine.start cfg)
        (bars_of (df_index df) closes signals) /\
    out_equity o =
      removelast (combine (map bar_time (bars_of (df_index df) closes signals))
                    (equity_curve st))
        ++ [(bar_time final_bar, v)] /\
    v == final_balance (out_metrics o) /\
    (0 < position st -> v = final_balance (out_metrics o)) /\
    (position st <= 0 ->
     v = cash st + position st * bar_close final_bar /\
     out_equity o =
       combine (map bar_time (bars_of (df_index df) closes signals))
         (equity_curve st)).
Proof.
  intros Hrates Hb He Hc Hsig Hwf Hpos.
  pose proof (bars_of_nonempty df closes signals He Hwf Hc Hsig) as Hne.
  set (bars := bars_of (df_index df) closes signals) in *.
  destruct (last_item_ok bars Hne) as (pre & final_bar & Hbars & Hl).
  destruct (replay_tracks cfg Hrates bars Hpos _ _ (tracks_start cfg Hb))
    as (st & Hr & Htr & Htrace).
  simpl in Htrace.
  destruct (replay_curve _ _ _ _ Hr) as [Hts Hlen]. simpl in Hts, Hlen.
  pose proof Hr as Hr'. rewrite Hbars in Hr'.
  destruct (replay_last_point _ _ _ _ _ Hr') as (curve & Hcurve).
  assert (Hlen' : List.length (map bar_time pre) = List.length curve).
  { rewrite Hcurve, Hbars, !length_app in Hlen. simpl in Hlen.
    rewrite length_map. lia. }
  pose proof (backtest_signals_unfold _ _ _ _ Hb He Hc Hsig) as Hun.
  fold bars in Hun. rewrite Hr in Hun. cbn [bind] in Hun.
  destruct (Qlt_le_dec 0 (position st)) as [Hp|Hp].
  - destruct (forced_exit_fires cfg bars st Hr Hp) as (st' & Hf & Hcv & Htm).
    destruct (summarise_ok cfg st' Hb) as (o & Ho & _ & Heq & _ & Hfin & _).
    rewrite Hf in Hun. cbn [bind] in Hun. rewrite Ho in Hun.
    exists st, o, pre, final_bar, (cash st').
    split; [exact Hbars|]. split; [exact Hr|]. split; [exact Hun|].
    split.
    { rewrite Hfin, np_sum_app, (forced_exit_cash _ _ _ _ Hf), (replay_cash _ _ _ _ Hr).
      simpl. ring. }
    split; [exact Htrace|]. split.
    { rewrite Heq, Hcv, Htm, Hts, Hcurve, Hbars, map_app. simpl.
      rewrite set_last_nonempty by (destruct curve; discriminate).
      rewrite removelast_last, (removelast_combine_snoc _ _ _ _ Hlen').
      apply combine_snoc, Hlen'. }
    split; [rewrite Hfin; reflexivity|]. split; [intros _; now rewrite Hfin|].
    intros Hp'. lra.
  - rewrite (forced_exit_idle cfg st bars Hp) in Hun. cbn [bind] in Hun.
    destruct (summarise_ok cfg st Hb) as (o & Ho & _ & Heq & _ & Hfin & _).
    rewrite Ho in Hun.
    exists st, o, pre, final_bar, (cash st + position st * bar_close final_bar).
    split; [exact Hbars|]. split; [exact Hr|]. split; [exact Hun|].
    split.
    { rewrite Hfin, np_sum_app, (replay_cash _ _ _ _ Hr).
      unfold forced_exit_deltas. apply Qlt_bool_false in Hp. rewrite Hp.
      destruct (st_entry_price st), (last_item bars); simpl; ring. }
    split; [exact Htrace|].
    assert (Hout : out_equity o = combine (map bar_time bars) (equity_curve st))
      by (rewrite Heq, Hts; reflexivity).
    split.
    { rewrite Hout, Hcurve, Hbars, map_app. simpl.
      rewrite (removelast_combine_snoc _ _ _ _ Hlen').
      apply combine_snoc, Hlen'. }
    assert (Hzero : position st == 0).
    { destruct Htr as [(_ & _ & Hrep) _].
      destruct (Machine.acct_position (Machine.run cfg (Machine.start cfg) bars)).
      - destruct Hrep as [-> _]. reflexivity.
      - destruct Hrep as (Hq & Hq0 & _). rewrite Hq in Hp. lra. }
    split; [rewrite Hfin, Hzero; ring|]. split; [intros Hp'; lra|].
    intros _. split; [reflexivity|exact Hout].
Qed.

Lemma final_balance_reconciles_witness :
  exists o v,
    backtest_signals Fixtures.scenario_A (default_config 1000) = Ok o /\
    List.last (map snd (out_equity o)) 0 = v /\
    v == final_balance (out_metrics o).
Proof.
  destruct (final_balance_reconciles Fixtures.scenario_A (default_config 1000)
              [100; 110; 115; 90; 88] ["HOLD"; "BUY"; "SELL"; "BUY"; "SELL"])
    as (st & o & pre & final_bar & v & _ & _ & Ho & _ & _ & Hout & Hv & _).
  - repeat split; vm_compute; congruence.
  - reflexivity.
  - reflexivity.
  - reflexivity.
  - reflexivity.
  - split; reflexivity.
  - repeat constructor.
  - exists o, v. split; [exact Ho|]. split; [|exact Hv].
    rewrite Hout, map_app. simpl. apply last_last.
Defined.

(** ** The ratio metrics *)

Lemma transition_ledger (cfg : Config) (st st1 : LoopState) (b : Bar) :
  ledger_matches_pnl st -> transition cfg st b = Ok st1 -> ledger_matches_pnl st1.
Proof.
  unfold ledger_matches_pnl, transition. intros Hinv.
  destruct (Qeq_bool (position st) 0 && mem (bar_signal b) (buy_set cfg)).
  - intros H. apply open_long_inv in H as [_ ->]. exact Hinv.
  - destruct (Qlt_bool 0 (position st) && mem (bar_signal b) (sell_set cfg)).
    + intros H. apply close_long_inv in H as (e & _ & _ & ->).
      cbn [trade_log pnl_decimals]. rewrite !map_app, Hinv. reflexivity.
    + intros [= <-]. exact Hinv.
Qed.

Lemma replay_ledger (cfg : Config) (bars : list Bar) :
  forall st st', ledger_matches_pnl st -> replay cfg st bars = Ok st' ->
                 ledger_matches_pnl st'.
Proof.
  induction bars as [|b bars IH]; simpl; intros st st' Hinv H.
  - injection H as <-. exact Hinv.
  - apply bind_ok in H as (st1 & Hb & H). eapply IH; [|exact H].
    apply bar_step_inv in Hb as (_ & st2 & Ht & Hm).
    pose proof (transition_ledger _ _ _ _ Hinv Ht) as H2.
    destruct (mark_to_market_ok st2 b) as (st3 & Hm' & _ & _ & _ & _ & Hl & Hp & _).
    rewrite Hm in Hm'. injection Hm' as <-.
    unfold ledger_matches_pnl. now rewrite Hl, Hp.
Qed.

Lemma forced_exit_ledger (cfg : Config) (st st' : LoopState) (bars : list Bar) :
  ledger_matches_pnl st -> forced_exit cfg st bars = Ok st' ->
  ledger_matches_pnl st'.
Proof.
  unfold ledger_matches_pnl, forced_exit. intros Hinv.
  destruct (Qlt_bool 0 (position st)); [|now intros [= <-]].
  destruct (st_entry_price st) as [entry|]; [|now intros [= <-]].
  intros H. apply bind_ok in H as (final_bar & _ & H).
  apply bind_ok in H as (q & _ & H). injection H as <-.
  cbn [trade_log pnl_decimals]. rewrite !map_app, Hinv. reflexivity.
Qed.


Lemma filter_split_length {A} (f : A -> bool) (l : list A) :
  (List.length (filter f l) + List.length (filter (fun x => negb (f x)) l))%nat
  = List.length l.
Proof.
  induction l as [|x l IH]; simpl; [reflexivity|].
  destruct (f x); simpl; lia.
Qed.

Lemma losses_of_complement (pnl : list Q) :
  losses_of pnl = filter (fun p => negb (Qlt_bool 0 p)) pnl.
Proof.
  unfold losses_of. apply filter_ext. intros p. unfold Qlt_bool.
  now rewrite negb_involutive.
Qed.

Lemma wins_losses_partition (pnl : list Q) (p : Q) :
  In p pnl ->
  (0 < p /\ In p (wins_of pnl) /\ ~ In p (losses_of pnl)) \/
  (p <= 0 /\ In p (losses_of pnl) /\ ~ In p (wins_of pnl)).
Proof.
  intros Hin. unfold wins_of, losses_of.
  destruct (Qlt_le_dec 0 p) as [H|H]; [left|right];
    (split; [exact H|]); rewrite !filter_In; split.
  - split; [exact Hin|]. now apply Qlt_bool_iff.
  - intros [_ E]. apply Qle_bool_iff in E. lra.
  - split; [exact Hin|]. now apply Qle_bool_iff.
  - intros [_ E]. apply Qlt_bool_iff in E. lra.
Qed.

Lemma np_sum_scale (l : list Q) (k : Q) :
  np_sum (map (fun p => p * k) l) == np_sum l * k.
Proof.
  induction l as [|x l IH]; simpl.
  - ring.
  - unfold np_sum in IH. rewrite IH. unfold np_sum. ring.
Qed.

Lemma nonempty_true {A} (l : list A) : l <> [] -> nonempty l = true.
Proof.
  destruct l; [congruence|reflexivity].
Qed.

Lemma profit_factor_cases (wins losses : list Q) :
  (~ np_sum losses == 0 ->
   profit_factor_of wins losses = Fin (Qabs (np_sum wins / np_sum losses))) /\
  (losses <> [] -> np_sum losses == 0 ->
   profit_factor_of wins losses = if nonempty wins then PosInf else Fin 0) /\
  (losses = [] ->
   profit_factor_of wins losses = if nonempty wins then PosInf else Fin 0) /\
  is_nan (profit_factor_of wins losses) = false.
Proof.
  unfold profit_factor_of, np_div.
  destruct (Qeq_bool (np_sum losses) 0) eqn:E.
  - apply Qeq_bool_iff in E. rewrite andb_false_r.
    repeat split; try reflexivity.
    + intros H. contradiction.
    + destruct (nonempty wins); reflexivity.
  - apply Qeq_bool_false in E. rewrite andb_true_r.
    assert (Hne : nonempty losses = true).
    { destruct losses; [|reflexivity]. exfalso. apply E. reflexivity. }
    rewrite Hne. cbn [py_abs is_nan]. repeat split; try reflexivity.
    + intros _ H. contradiction.
    + intros ->. discriminate.
Qed.

(** C4.  The summary of any trade log never fails.  Every trade is either a
    win (P&L% > 0) or a loss (P&L% <= 0, so a zero P&L is a loss); the P&L%
    of a trade is 100 times its decimal P&L [p] ([replay_ledger]).
    [profit_factor] is |sum of the winning P&L% / sum of the losing P&L%|
    when the losing sum is not zero, and otherwise infinity when there are
    wins and 0 when there are none; [win_loss_ratio] is the number of wins
    over the number of losses when there are losses, and otherwise infinity
    when there are wins and 0 when there are none.  Neither is a NaN. *)
Theorem ratio_metrics_are_total (cfg : Config) (st : LoopState) :
  0 < initial_balance cfg ->
  exists o,
    summarise cfg st = Ok o /\
    (forall p, In p (pnl_decimals st) ->
       (0 < p * 100 /\ In p (wins_of (pnl_decimals st))
        /\ ~ In p (losses_of (pnl_decimals st))) \/
       (p * 100 <= 0 /\ In p (losses_of (pnl_decimals st))
        /\ ~ In p (wins_of (pnl_decimals st)))) /\
    (List.length (wins_of (pnl_decimals st))
     + List.length (losses_of (pnl_decimals st)))%nat
      = total_trades (out_metrics o) /\
    (~ np_sum (losses_of (pnl_decimals st)) == 0 ->
     exists q,
       profit_factor (out_metrics o) = Fin q /\
       q == Qabs (np_sum (map (fun p => p * 100) (wins_of (pnl_decimals st)))
                  / np_sum (map (fun p => p * 100) (losses_of (pnl_decimals st))))) /\
    (np_sum (losses_of (pnl_decimals st)) == 0 ->
     wins_of (pnl_decimals st) <> [] ->
     profit_factor (out_metrics o) = PosInf) /\
    (np_sum (losses_of (pnl_decimals st)) == 0 ->
     wins_of (pnl_decimals st) = [] ->
     profit_factor (out_metrics o) = Fin 0) /\
    (losses_of (pnl_decimals st) <> [] ->
     win_loss_ratio (out_metrics o) =
       Fin (len (wins_of (pnl_decimals st)) / len (losses_of (pnl_decimals st)))) /\
    (losses_of (pnl_decimals st) = [] -> wins_of (pnl_decimals st) <> [] ->
     win_loss_ratio (out_metrics o) = PosInf) /\
    (losses_of (pnl_decimals st) = [] -> wins_of (pnl_decimals st) = [] ->
     win_loss_ratio (out_metrics o) = Fin 0) /\
    is_nan (profit_factor (out_metrics o)) = false /\
    is_nan (win_loss_ratio (out_metrics o)) = false.
Proof.
  intros Hb.
  destruct (summarise_ok cfg st Hb) as (o & Ho & _ & _ & Htot & _ & Hpf & Hwl & _).
  set (wins := wins_of (pnl_decimals st)) in *.
  set (losses := losses_of (pnl_decimals st)) in *.
  destruct (profit_factor_cases wins losses) as (Hp1 & Hp2 & Hp3 & Hp4).
  destruct (win_loss_ratio_ok wins losses) as (r & Hr & Hr1 & Hr2 & Hr3).
  rewrite Hwl in Hr. injection Hr as <-.
  exists o. split; [exact Ho|].
  split.
  { intros p Hin.
    destruct (wins_losses_partition _ _ Hin) as [(H & Hrest)|(H & Hrest)];
      [left|right]; (split; [lra|exact Hrest]). }
  split.
  { rewrite Htot. unfold wins, losses. rewrite losses_of_complement.
    apply filter_split_length. }
  split.
  { intros Hz. eexists. split; [rewrite Hpf; apply Hp1, Hz|].
    rewrite !np_sum_scale. apply Qabs_wd. field. exact Hz. }
  assert (Hzero : np_sum losses == 0 ->
                  profit_factor (out_metrics o)
                  = if nonempty wins then PosInf else Fin 0).
  { intros Hz. rewrite Hpf. destruct losses as [|l losses'] eqn:El.
    - now apply Hp3.
    - apply Hp2; [discriminate|exact Hz]. }
  split.
  { intros Hz Hw. rewrite (Hzero Hz), nonempty_true by assumption. reflexivity. }
  split.
  { intros Hz Hw. rewrite (Hzero Hz), Hw. reflexivity. }
  split; [exact Hr1|]. split; [exact Hr2|]. split; [exact Hr3|].
  split; [rewrite Hpf; exact Hp4|].
  destruct losses as [|l losses'] eqn:El.
  - destruct wins as [|w wins'] eqn:Ew.
    + rewrite Hr3; reflexivity.
    + rewrite Hr2; [reflexivity|reflexivity|discriminate].
  - rewrite Hr1 by discriminate. reflexivity.
Qed.

Lemma ratio_metrics_are_total_witness :
  exists o,
    summarise (default_config 1000) Fixtures.scenario_A_state = Ok o /\
    total_trades (out_metrics o) = 2%nat /\
    win_loss_ratio (out_metrics o) = Fin (1 / 1).
Proof.
  destruct (ratio_metrics_are_total (default_config 1000) Fixtures.scenario_A_state)
    as (o & Ho & _ & Htot & _ & _ & _ & Hwl & _).
  - reflexivity.
  - exists o. split; [exact Ho|]. split.
    + rewrite <- Htot. vm_compute. reflexivity.
    + rewrite Hwl; [vm_compute; reflexivity|]. vm_compute. discriminate.
Defined.

(** ** Scenario A *)

(** C8, as stated, fails: it has the first trade of scenario A entered at
    about 100.  The BUY signal is on the second bar, whose close is 110:
    the entry price is 110.055, more than one percent away from 100. *)
Lemma scenario_A_entry_is_not_100 :
  exists m t1 t2 e,
    backtest_signals Fixtures.scenario_A (default_config 1000)
    = Ok (m, [t1; t2], e) /\
    entry_price t1 == 110055 # 1000 /\
    ~ approx 100 (entry_price t1).
Proof.
  do 4 eexists. split; [vm_compute; reflexivity|]. split.
  - vm_compute. reflexivity.
  - unfold approx. intros H. vm_compute in H. apply H. reflexivity.
Qed.

(** C8 (amended).  On closes [100,110,115,90,88] with signals
    [HOLD,BUY,SELL,BUY,SELL] and an initial balance of 1000, the call returns
    exactly 2 trades; the first is profitable, entered at about 110 (the
    close of the BUY bar, 110.055 with slippage) and left at about 115
    (114.9425 with slippage); [net_return] is positive and [max_drawdown] is
    at most 0. *)
Theorem scenario_A_result :
  exists m t1 t2 e,
    backtest_signals Fixtures.scenario_A (default_config 1000)
    = Ok (m, [t1; t2], e) /\
    total_trades m = 2%nat /\
    0 < pnl_pct t1 /\
    approx 110 (entry_price t1) /\ approx 115 (exit_price t1) /\
    entry_price t1 == 110 * (1 + slippage (default_config 1000)) /\
    exit_price t1 == 115 * (1 - slippage (default_config 1000)) /\
    0 < net_return m /\ m_max_drawdown m <= 0.
Proof.
  do 4 eexists. split; [vm_compute; reflexivity|].
  unfold approx. repeat split; vm_compute; congruence.
Qed.

Import Strategy Rows.

(** ** The signal deriver *)

Lemma lookup_assign_same (name : string) (c : column) (cols : list (string * column)) :
  lookup name (assign name c cols) = Some c.
Proof.
  induction cols as [|[n c'] cols IH]; simpl.
  - now rewrite String.eqb_refl.
  - destruct (String.eqb n name) eqn:E; simpl; rewrite E; [reflexivity|exact IH].
Qed.

Lemma lookup_assign_other (name name' : string) (c : column)
    (cols : list (string * column)) :
  name <> name' -> lookup name (assign name' c cols) = lookup name cols.
Proof.
  intros Hne. induction cols as [|[n c'] cols IH]; simpl.
  - destruct (String.eqb name' name) eqn:E; [|reflexivity].
    apply String.eqb_eq in E. congruence.
  - destruct (String.eqb n name') eqn:E; simpl.
    + apply String.eqb_eq in E. subst n.
      destruct (String.eqb name' name) eqn:E'; [|reflexivity].
      apply String.eqb_eq in E'. congruence.
    + now rewrite IH.
Qed.

Lemma list_eq_dec_nil {A} (l : list A) : {l = []} + {l <> []}.
Proof.
  destruct l; [left; reflexivity|right; discriminate].
Qed.

Lemma map2_length {A B C} (f : A -> B -> C) (l : list A) (l' : list B) (n : nat) :
  List.length l = n -> List.length l' = n -> List.length (map2 f l l') = n.
Proof.
  revert l' n. induction l as [|a l IH]; intros [|b l'] n H1 H2; simpl in *;
    try congruence.
  destruct n; [discriminate|]. f_equal. apply IH; congruence.
Qed.

Lemma map2_nth {A B C} (f : A -> B -> C) (l : list A) (l' : list B)
    (t : nat) (a : A) (b : B) (c : C) :
  (t < List.length l)%nat -> (t < List.length l')%nat ->
  nth t (map2 f l l') c = f (nth t l a) (nth t l' b).
Proof.
  revert l' t. induction l as [|x l IH]; intros [|y l'] t H1 H2; simpl in *;
    try lia.
  destruct t; [reflexivity|]. apply IH; lia.
Qed.

Lemma map_nth_in {A B} (f : A -> B) (l : list A) (t : nat) (a : A) (b : B) :
  (t < List.length l)%nat -> nth t (map f l) b = f (nth t l a).
Proof.
  intros H. rewrite (nth_indep _ b (f a)) by (now rewrite length_map).
  apply map_nth.
Qed.

Lemma shift_snoc {A} (s : list (option A)) (x : option A) :
  shift (s ++ [x]) = None :: s.
Proof.
  unfold shift. rewrite removelast_last. destruct s; reflexivity.
Qed.

Lemma shift_length {A} (s : list (option A)) :
  List.length (shift s) = List.length s.
Proof.
  destruct (list_eq_dec_nil s) as [->|H]; [reflexivity|].
  destruct (exists_last H) as (s' & x & ->).
  rewrite shift_snoc, length_app. simpl. lia.
Qed.

Lemma shift_nth (s : list (option Q)) (t : nat) :
  (t < List.length s)%nat -> nth t (shift s) None = before_row s t.
Proof.
  intros Ht. destruct (list_eq_dec_nil s) as [->|H]; [simpl in Ht; lia|].
  destruct (exists_last H) as (s' & x & ->).
  rewrite shift_snoc. destruct t as [|k]; [reflexivity|].
  rewrite length_app in Ht. simpl in Ht |- *.
  rewrite app_nth1 by lia. reflexivity.
Qed.

Lemma reindex_length (n : nat) (s : list (option Q)) :
  List.length (reindex n s) = n.
Proof.
  unfold reindex. now rewrite length_map, length_seq.
Qed.

Ltac column_length :=
  repeat first
    [ apply map2_length
    | rewrite length_map
    | rewrite shift_length
    | apply reindex_length
    | apply repeat_length
    | reflexivity
    | assumption ].

Ltac in_range n Ht :=
  match goal with
  | |- (_ < List.length ?X)%nat =>
      replace (List.length X) with n by (symmetry; column_length); exact Ht
  end.

Lemma aligned_macd_lengths (n : nat) (m : MacdFrame) :
  List.length (macd_line (aligned_macd n m)) = n /\
  List.length (signal_line (aligned_macd n m)) = n.
Proof.
  unfold aligned_macd. destruct (List.length (macd_line m) =? 0)%nat; simpl;
    split; column_length.
Qed.

Lemma flt_below (x y : option Q) : flt x y = true <-> below x y.
Proof.
  unfold flt, below. destruct x as [a|], y as [b|]; split;
    try discriminate; try (intros (a' & b' & H1 & H2 & _); discriminate).
  - intros H. apply Qlt_bool_iff in H. eauto.
  - intros (a' & b' & [= <-] & [= <-] & H). now apply Qlt_bool_iff.
Qed.

Lemma buy_mask_at_trigger (osc fast slow : list (option Q)) (oversold : Q) (t : nat) :
  buy_mask_at osc fast slow oversold t = true <->
  buy_trigger osc fast slow oversold t.
Proof.
  unfold buy_mask_at, buy_trigger, cross_up.
  rewrite !andb_true_iff, !flt_below. split.
  - intros [[[[(p & o & Hp & [= <-] & H1) H2] H3] _] _].
    destruct (at_row osc t) as [c|]; [|discriminate H2].
    apply Qle_bool_iff in H2. split; [|exact H3]. exists p, c. auto.
  - intros [(p & c & Hp & Hc & H1 & H2) H3]. rewrite Hp, Hc.
    repeat split; try exact H3.
    + exists p, oversold. auto.
    + now apply Qle_bool_iff.
Qed.

Lemma sell_mask_at_trigger (osc fast slow : list (option Q)) (overbought : Q) (t : nat) :
  sell_mask_at osc fast slow overbought t = true <->
  sell_trigger osc fast slow overbought t.
Proof.
  unfold sell_mask_at, sell_trigger, cross_down.
  rewrite !andb_true_iff, !flt_below. split.
  - intros [[[[(o & p & [= <-] & Hp & H1) H2] H3] _] _].
    destruct (at_row osc t) as [c|]; [|discriminate H2].
    apply Qle_bool_iff in H2. split; [|exact H3]. exists p, c. auto.
  - intros [(p & c & Hp & Hc & H1 & H2) H3]. rewrite Hp, Hc.
    repeat split; try exact H3.
    + exists overbought, p. auto.
    + now apply Qle_bool_iff.
Qed.

Lemma cross_up_at_line (line sig : list (option Q)) (t : nat) :
  cross_up_at line sig t = true <-> line_cross_up line sig t.
Proof.
  unfold cross_up_at, line_cross_up. now rewrite andb_true_iff, !flt_below.
Qed.

Lemma cross_down_at_line (line sig : list (option Q)) (t : nat) :
  cross_down_at line sig t = true <-> line_cross_down line sig t.
Proof.
  unfold cross_down_at, line_cross_down. now rewrite andb_true_iff, !flt_below.
Qed.

Lemma below_asym (x y : option Q) : below x y -> below y x -> False.
Proof.
  intros (a & b & -> & -> & H) (a' & b' & [= <-] & [= <-] & H'). lra.
Qed.

Lemma cross_up_not_down (prev cur : option Q) (lo hi : Q) :
  cross_up prev cur lo -> cross_down prev cur hi -> False.
Proof.
  intros (p & c & -> & -> & H1 & H2) (p' & c' & [= <-] & [= <-] & H3 & H4). lra.
Qed.

Lemma insert_pos_length (r : Timestamp * nat) (l : list (Timestamp * nat)) :
  List.length (insert_pos r l) = S (List.length l).
Proof.
  induction l as [|r' l IH]; simpl; [reflexivity|].
  destruct (fst r <=? fst r')%Z; simpl; [reflexivity|]. now rewrite IH.
Qed.

Lemma sorted_positions_length (idx : list Timestamp) :
  List.length (sorted_positions idx) = List.length idx.
Proof.
  unfold sorted_positions. rewrite length_map.
  assert (H : forall l : list (Timestamp * nat),
             List.length (fold_right insert_pos [] l) = List.length l).
  { induction l as [|r l IH]; simpl; [reflexivity|].
    now rewrite insert_pos_length, IH. }
  rewrite H, length_combine, length_seq. lia.
Qed.

Lemma sort_index_rows (df : Frame) :
  List.length (index (Strategy.sort_index df)) = List.length (index df).
Proof.
  unfold Strategy.sort_index, take. cbn [index].
  now rewrite length_map, sorted_positions_length.
Qed.

Lemma lookup_sort_index (name : string) (order : list nat)
    (cols : list (string * column)) :
  lookup name (map (fun nc => (fst nc, take_col order (snd nc))) cols)
  = option_map (take_col order) (lookup name cols).
Proof.
  induction cols as [|[n c] cols IH]; simpl; [reflexivity|].
  destruct (String.eqb n name); [reflexivity|exact IH].
Qed.

Lemma get_float_sort_index (name : string) (df : Frame) (c : list (option Q)) :
  get_float name df = Ok c ->
  get_float name (Strategy.sort_index df)
  = Ok (take None (sorted_positions (index df)) c).
Proof.
  unfold get_float, Strategy.sort_index. cbn [columns].
  rewrite lookup_sort_index.
  destruct (lookup name (columns df)) as [[v|v]|]; simpl; try discriminate.
  now intros [= ->].
Qed.

Lemma select_by_masks (bm sm um dm : bool) (buy sell up down : Prop) :
  (bm = true <-> buy) -> (sm = true <-> sell) ->
  (um = true <-> up) -> (dm = true <-> down) ->
  (buy -> sell -> False) ->
  let s := if sm && dm then Some "STRONG SELL"
           else if bm && um then Some "STRONG BUY"
           else if sm then Some "SELL"
           else if bm then Some "BUY"
           else Some "HOLD" in
  (s = Some "STRONG BUY" <-> buy /\ up) /\
  (s = Some "BUY" <-> buy /\ ~ up) /\
  (s = Some "STRONG SELL" <-> sell /\ down) /\
  (s = Some "SELL" <-> sell /\ ~ down) /\
  (s = Some "HOLD" <-> ~ buy /\ ~ sell).
Proof.
  intros Hb Hs Hu Hd Hex.
  destruct bm, sm, um, dm; cbn [andb]; intuition congruence.
Qed.

Section Deriver.

Context {lib : Indicators}.
Variables (period : Z) (oversold overbought : Q) (fast_period slow_period : Z).

Lemma rsi_signal_columns (df : Frame) (close rsi_series fast_series slow_series
    : list (option Q)) (macd_df : MacdFrame) :
  frame_empty df = false ->
  get_float "close" (sort_index df) = Ok close ->
  rsi close period = Ok rsi_series ->
  ema close fast_period = Ok fast_series ->
  ema close slow_period = Ok slow_series ->
  macd close fast_period slow_period 9 = Ok macd_df ->
  let n := List.length (index (sort_index df)) in
  let osc := reindex n rsi_series in
  let fast := reindex n fast_series in
  let slow := reindex n slow_series in
  let m := aligned_macd n macd_df in
  exists out signal,
    rsi_signal df period oversold overbought fast_period slow_period = Ok out /\
    index out = index (sort_index df) /\
    get_float "rsi" out = Ok osc /\
    get_float "ema_fast" out = Ok fast /\
    get_float "ema_slow" out = Ok slow /\
    get_float "macd" out = Ok (macd_line m) /\
    get_float "macd_signal" out = Ok (signal_line m) /\
    get_text "signal" out = Some signal /\
    List.length signal = n /\
    forall t, (t < n)%nat ->
      nth t signal None =
      signal_at osc fast slow (macd_line m) (signal_line m) oversold overbought t.
Proof.
  intros He Hc Hr Hf Hs Hm n osc fast slow m.
  unfold rsi_signal. rewrite He, Hc. cbn [bind].
  rewrite Hr. cbn [bind]. rewrite Hf. cbn [bind]. rewrite Hs. cbn [bind].
  rewrite Hm. cbn [bind].
  fold n. fold osc. fold fast. fold slow.
  change (if (List.length (macd_line macd_df) =? 0)%nat then _ else _) with m.
  cbv zeta.
  pose proof (reindex_length n rsi_series) as Losc.
  pose proof (reindex_length n fast_series) as Lfast.
  pose proof (reindex_length n slow_series) as Lslow.
  destruct (aligned_macd_lengths n macd_df) as [Lline Lsig].
  fold osc in Losc. fold fast in Lfast. fold slow in Lslow. fold m in Lline, Lsig.
  eexists. eexists. split; [reflexivity|].
  split; [reflexivity|].
  unfold get_float, get_text, set_col. cbn [columns].
  repeat match goal with |- _ /\ _ => split end;
    try (repeat (rewrite lookup_assign_other by discriminate);
         rewrite lookup_assign_same; reflexivity).
  - unfold loc_set, mask_and. column_length.
  - intros t Ht. unfold loc_set, mask_and.
    repeat (rewrite (map2_nth _ _ _ t false None) by in_range n Ht).
    repeat (rewrite (map2_nth _ _ _ t false false) by in_range n Ht).
    repeat (rewrite (map2_nth _ _ _ t None None) by in_range n Ht).
    repeat (rewrite (map_nth_in _ _ t None) by in_range n Ht).
    repeat (rewrite shift_nth by in_range n Ht).
    rewrite nth_repeat_lt by lia.
    reflexivity.
Qed.

(** What a returned call of the deriver went through: the table was empty
    and came back as it is, or the four calls of the indicators returned. *)
Lemma rsi_signal_inv (df out : Frame) :
  rsi_signal df period oversold overbought fast_period slow_period = Ok out ->
  (frame_empty df = true /\ out = df) \/
  (frame_empty df = false /\
   exists close rsi_series fast_series slow_series macd_df,
     get_float "close" (sort_index df) = Ok close /\
     rsi close period = Ok rsi_series /\
     ema close fast_period = Ok fast_series /\
     ema close slow_period = Ok slow_series /\
     macd close fast_period slow_period 9 = Ok macd_df).
Proof.
  unfold rsi_signal. destruct (frame_empty df) eqn:He.
  - intros [= <-]. left. auto.
  - intros H. right. split; [reflexivity|].
    apply bind_ok in H. destruct H as (close & Hc & H).
    apply bind_ok in H. destruct H as (rsi_series & Hr & H).
    apply bind_ok in H. destruct H as (fast_series & Hf & H).
    apply bind_ok in H. destruct H as (slow_series & Hs & H).
    apply bind_ok in H. destruct H as (macd_df & Hm & H).
    exists close, rsi_series, fast_series, slow_series, macd_df. auto.
Qed.

(** A call of an indicator that raises makes the deriver raise the same
    exception. *)
Lemma rsi_signal_raises (df : Frame) (close : list (option Q)) (e : exn) :
  frame_empty df = false ->
  get_float "close" (sort_index df) = Ok close ->
  rsi close period = Raise e ->
  rsi_signal df period oversold overbought fast_period slow_period = Raise e.
Proof.
  intros He Hc Hr. unfold rsi_signal. rewrite He, Hc. cbn [bind].
  now rewrite Hr.
Qed.

(** The signal of a row, read off the masks. *)
Lemma signal_at_cases (osc fast slow line sig : list (option Q)) (t : nat) :
  let s := signal_at osc fast slow line sig oversold overbought t in
  let buy := buy_trigger osc fast slow oversold t in
  let sell := sell_trigger osc fast slow overbought t in
  let up := line_cross_up line sig t in
  let down := line_cross_down line sig t in
  (s = Some "STRONG BUY" <-> buy /\ up) /\
  (s = Some "BUY" <-> buy /\ ~ up) /\
  (s = Some "STRONG SELL" <-> sell /\ down) /\
  (s = Some "SELL" <-> sell /\ ~ down) /\
  (s = Some "HOLD" <-> ~ buy /\ ~ sell).
Proof.
  intros s buy sell up down. subst s. unfold signal_at.
  apply select_by_masks.
  - apply buy_mask_at_trigger.
  - apply sell_mask_at_trigger.
  - apply cross_up_at_line.
  - apply cross_down_at_line.
  - intros [_ H1] [_ H2]. exact (below_asym _ _ H1 H2).
Qed.

End Deriver.

(** C5.  On a table that is not empty, when the four calls of the
    indicators on its sorted [close] column return (the oscillator, the fast
    and the slow trend line, the convergence/divergence table), the deriver
    returns a table whose columns [rsi], [ema_fast], [ema_slow], [macd] and
    [macd_signal] are these series on the rows of the table, and whose
    [signal] column has, at every row [t]: BUY or STRONG BUY exactly when the
    oscillator was below the oversold threshold at [t-1], is at or above it
    at [t], and the fast trend line is above the slow one at [t]; SELL or
    STRONG SELL exactly when the oscillator was above the overbought
    threshold, is at or below it, and the fast line is below the slow one;
    the STRONG variant exactly when, in addition, the convergence/divergence
    line crosses its signal line in the same direction at [t]; HOLD on all
    other rows, in particular on an upward oversold cross with the fast line
    below the slow one. *)
Theorem signal_of_every_bar {lib : Indicators} (df : Frame)
    (close rsi_series fast_series slow_series : list (option Q))
    (macd_df : MacdFrame) (period : Z) (oversold overbought : Q)
    (fast_period slow_period : Z) :
  frame_empty df = false ->
  get_float "close" (Strategy.sort_index df) = Ok close ->
  rsi close period = Ok rsi_series ->
  ema close fast_period = Ok fast_series ->
  ema close slow_period = Ok slow_series ->
  macd close fast_period slow_period 9 = Ok macd_df ->
  let n := List.length (index df) in
  let osc := reindex n rsi_series in
  let fast := reindex n fast_series in
  let slow := reindex n slow_series in
  let line := macd_line (aligned_macd n macd_df) in
  let sig := signal_line (aligned_macd n macd_df) in
  exists out signal,
    rsi_signal df period oversold overbought fast_period slow_period = Ok out /\
    List.length (index out) = n /\
    get_float "rsi" out = Ok osc /\
    get_float "ema_fast" out = Ok fast /\
    get_float "ema_slow" out = Ok slow /\
    get_float "macd" out = Ok line /\
    get_float "macd_signal" out = Ok sig /\
    get_text "signal" out = Some signal /\
    List.length signal = n /\
    forall t, (t < n)%nat ->
      (nth t signal None = Some "BUY" \/ nth t signal None = Some "STRONG BUY"
       <-> buy_trigger osc fast slow oversold t) /\
      (nth t signal None = Some "SELL" \/ nth t signal None = Some "STRONG SELL"
       <-> sell_trigger osc fast slow overbought t) /\
      (nth t signal None = Some "STRONG BUY"
       <-> buy_trigger osc fast slow oversold t /\ line_cross_up line sig t) /\
      (nth t signal None = Some "BUY"
       <-> buy_trigger osc fast slow oversold t /\ ~ line_cross_up line sig t) /\
      (nth t signal None = Some "STRONG SELL"
       <-> sell_trigger osc fast slow overbought t /\ line_cross_down line sig t) /\
      (nth t signal None = Some "SELL"
       <-> sell_trigger osc fast slow overbought t /\ ~ line_cross_down line sig t) /\
      (nth t signal None = Some "HOLD"
       <-> ~ buy_trigger osc fast slow oversold t
           /\ ~ sell_trigger osc fast slow overbought t) /\
      (cross_up (before_row osc t) (at_row osc t) oversold ->
       below (at_row fast t) (at_row slow t) ->
       nth t signal None = Some "HOLD").
Proof.
  intros He Hc Hr Hf Hs Hm n osc fast slow line sig.
  destruct (rsi_signal_columns period oversold overbought fast_period slow_period
              df _ _ _ _ _ He Hc Hr Hf Hs Hm)
    as (out & signal & Hout & Hidx & Hosc & Hfast & Hslow & Hline & Hsig
        & Hsignal & Hlen & Hrows).
  rewrite sort_index_rows in Hosc, Hfast, Hslow, Hline, Hsig, Hlen, Hrows.
  fold n in Hosc, Hfast, Hslow, Hline, Hsig, Hlen, Hrows.
  fold osc in Hosc, Hrows. fold fast in Hfast, Hrows. fold slow in Hslow, Hrows.
  fold line in Hline, Hrows. fold sig in Hsig, Hrows.
  exists out, signal. split; [exact Hout|].
  split; [rewrite Hidx; apply sort_index_rows|].
  split; [exact Hosc|]. split; [exact Hfast|]. split; [exact Hslow|].
  split; [exact Hline|]. split; [exact Hsig|]. split; [exact Hsignal|].
  split; [exact Hlen|].
  intros t Ht. rewrite (Hrows t Ht).
  destruct (signal_at_cases oversold overbought osc fast slow line sig t)
    as (Hsb & Hb & Hss & Hsl & Hh).
  set (x := signal_at osc fast slow line sig oversold overbought t) in *.
  assert (Dup : line_cross_up line sig t \/ ~ line_cross_up line sig t)
    by (destruct (cross_up_at line sig t) eqn:E;
        [left; now apply cross_up_at_line
        |right; intros X; apply cross_up_at_line in X; congruence]).
  assert (Ddown : line_cross_down line sig t \/ ~ line_cross_down line sig t)
    by (destruct (cross_down_at line sig t) eqn:E;
        [left; now apply cross_down_at_line
        |right; intros X; apply cross_down_at_line in X; congruence]).
  repeat match goal with |- _ /\ _ => split end;
    try assumption; try tauto.
  intros Hup Hveto. apply Hh. split.
  - intros [_ Habove]. exact (below_asym _ _ Hveto Habove).
  - intros [Hdown _]. exact (cross_up_not_down _ _ _ _ Hup Hdown).
Qed.

(** C9.  On an empty table the deriver returns the table as it is: no
    column is added (so no [signal] column), no indicator is called and
    nothing is raised.  On a table with rows, when the four calls of the
    indicators on its sorted [close] column return, it returns a table whose
    [rsi] column is the oscillator on the rows of the table and whose
    [signal] column is HOLD on its only row when the table has a single row,
    and HOLD on every row where the oscillator or its previous value is
    undefined. *)
Theorem deriver_edge_cases {lib : Indicators} (df : Frame)
    (period : Z) (oversold overbought : Q) (fast_period slow_period : Z) :
  (frame_empty df = true ->
   rsi_signal df period oversold overbought fast_period slow_period = Ok df) /\
  (forall close rsi_series fast_series slow_series macd_df,
     frame_empty df = false ->
     get_float "close" (Strategy.sort_index df) = Ok close ->
     rsi close period = Ok rsi_series ->
     ema close fast_period = Ok fast_series ->
     ema close slow_period = Ok slow_series ->
     macd close fast_period slow_period 9 = Ok macd_df ->
     let osc := reindex (List.length (index df)) rsi_series in
     exists out signal,
       rsi_signal df period oversold overbought fast_period slow_period = Ok out /\
       get_float "rsi" out = Ok osc /\
       get_text "signal" out = Some signal /\
       List.length signal = List.length (index df) /\
       (List.length (index df) = 1%nat -> signal = [Some "HOLD"]) /\
       (forall t, (t < List.length (index df))%nat ->
          at_row osc t = None \/ before_row osc t = None ->
          nth t signal None = Some "HOLD")).
Proof.
  split.
  - intros He. unfold rsi_signal. now rewrite He.
  - intros close rsi_series fast_series slow_series macd_df He Hc Hr Hf Hs Hm osc.
    destruct (rsi_signal_columns period oversold overbought fast_period
                slow_period df _ _ _ _ _ He Hc Hr Hf Hs Hm)
      as (out & signal & Hout & Hidx & Hosc & _ & _ & _ & _ & Hsignal & Hlen & Hrows).
    rewrite sort_index_rows in Hlen, Hrows, Hosc. fold osc in Hosc, Hrows.
    assert (Hhold : forall t, (t < List.length (index df))%nat ->
              at_row osc t = None \/ before_row osc t = None ->
              nth t signal None = Some "HOLD").
    { intros t Ht Hna. rewrite (Hrows t Ht).
      match goal with
      | |- signal_at ?o ?f ?s ?l ?g _ _ _ = _ =>
          apply (signal_at_cases oversold overbought o f s l g t)
      end.
      split; intros [(p & c & Hp & Hcur & _) _];
        destruct Hna as [Hna|Hna]; congruence. }
    exists out, signal. split; [exact Hout|]. split; [exact Hosc|].
    split; [exact Hsignal|]. split; [exact Hlen|]. split; [|exact Hhold].
    intros Hone. rewrite Hone in Hlen.
    destruct signal as [|s [|s' signal]]; try discriminate.
    f_equal. apply (Hhold 0%nat); [lia|]. right. reflexivity.
Qed.

Lemma signal_of_every_bar_witness :
  exists out signal,
    rsi_signal (lib := Fixtures.fake_indicators) Fixtures.base_df 14 30 70 12 26
    = Ok out /\
    get_float "rsi" out = Ok (Fixtures.floats [25; 80; 65; 60]) /\
    get_text "signal" out = Some signal /\
    List.length signal = 4%nat.
Proof.
  destruct (signal_of_every_bar (lib := Fixtures.fake_indicators)
              Fixtures.base_df (Fixtures.floats [100; 101; 102; 103])
              (Fixtures.floats [25; 80; 65; 60])
              (Fixtures.floats [12 # 10; 14 # 10; 8 # 10; 6 # 10])
              (Fixtures.floats [11 # 10; 13 # 10; 9 # 10; 7 # 10])
              {| macd_line := Fixtures.floats [-1 # 10; 2 # 10; 5 # 100; -1 # 10];
                 signal_line := Fixtures.floats [0; 1 # 10; 1 # 10; -5 # 100];
                 histogram := Fixtures.floats [-1 # 10; 1 # 10; -5 # 100; -5 # 100] |}
              14 30 70 12 26)
    as (out & signal & Hout & _ & Hosc & _ & _ & _ & _ & Hsignal & Hlen & _).
  - reflexivity.
  - reflexivity.
  - reflexivity.
  - reflexivity.
  - reflexivity.
  - reflexivity.
  - exists out, signal. split; [exact Hout|]. split; [exact Hosc|].
    split; [exact Hsignal|exact Hlen].
Defined.

Lemma deriver_edge_cases_witness :
  rsi_signal (lib := Fixtures.fake_indicators) Fixtures.empty_frame 14 30 70 12 26
  = Ok Fixtures.empty_frame /\
  exists out,
    rsi_signal (lib := Fixtures.fake_indicators) Fixtures.one_bar 14 30 70 12 26
    = Ok out /\
    get_text "signal" out = Some [Some "HOLD"].
Proof.
  split.
  - apply (deriver_edge_cases (lib := Fixtures.fake_indicators)
             Fixtures.empty_frame 14 30 70 12 26).
    reflexivity.
  - destruct (deriver_edge_cases (lib := Fixtures.fake_indicators)
                Fixtures.one_bar 14 30 70 12 26) as (_ & H).
    destruct (H (Fixtures.floats [100])
                (Fixtures.floats [25; 80; 65; 60])
                (Fixtures.floats [12 # 10; 14 # 10; 8 # 10; 6 # 10])
                (Fixtures.floats [11 # 10; 13 # 10; 9 # 10; 7 # 10])
                {| macd_line := Fixtures.floats [-1 # 10; 2 # 10; 5 # 100; -1 # 10];
                   signal_line := Fixtures.floats [0; 1 # 10; 1 # 10; -5 # 100];
                   histogram := Fixtures.floats [-1 # 10; 1 # 10; -5 # 100; -5 # 100] |})
      as (out & signal & Hout & _ & Hsignal & _ & Hone & _).
    + reflexivity.
    + reflexivity.
    + reflexivity.
    + reflexivity.
    + reflexivity.
    + reflexivity.
    + exists out. split; [exact Hout|]. rewrite Hsignal, Hone; reflexivity.
Defined.

(** ** The test suite, replayed *)

Example test_buy_sell_signals_vectorized :
  exists out,
    rsi_signal (lib := Fixtures.fake_indicators) Fixtures.base_df 14 30 70 12 26
    = Ok out /\
    get_text "signal" out
    = Some [Some "HOLD"; Some "STRONG BUY"; Some "STRONG SELL"; Some "HOLD"].
Proof.
  eexists. split; vm_compute; reflexivity.
Qed.

Example scenario_E_trend_filter_veto :
  exists out,
    rsi_signal (lib := Fixtures.vetoed_indicators) Fixtures.two_bars 14 30 70 12 26
    = Ok out /\
    get_text "signal" out = Some [Some "HOLD"; Some "HOLD"].
Proof.
  eexists. split; vm_compute; reflexivity.
Qed.

Example test_metrics_for_profitable_trade :
  exists m trades equity,
    backtest_signals Fixtures.scenario_A (default_config 1000)
    = Ok (m, trades, equity) /\
    total_trades m = 2%nat /\ win_rate m == 50 /\ 0 < net_return m /\
    m_max_drawdown m <= 0 /\ List.length trades = 2%nat /\
    equity <> [] /\ m_initial_balance m == 1000.
Proof.
  do 3 eexists. split; [vm_compute; reflexivity|].
  repeat split; vm_compute; congruence.
Qed.

Example test_initial_balance_validation :
  backtest_signals
    {| df_index := [0%Z]; df_close := Some [100]; df_signal := Some ["HOLD"];
       df_others := [] |}
    (default_config 0)
  = Raise (ValueError "initial_balance must be > 0").
Proof.
  reflexivity.
Qed.

Import Backtest Domain Ledger.

(** * Further properties of the backtest engine *)

(** What a returned call went through. *)
Lemma backtest_signals_inv (df : DataFrame) (cfg : Config) (o : Outcome) :
  backtest_signals df cfg = Ok o ->
  0 < initial_balance cfg /\
  ((df_empty df = true /\ o = (empty_metrics cfg, [], [])) \/
   (df_empty df = false /\
    exists closes signals st st',
      df_close df = Some closes /\ df_signal df = Some signals /\
      replay cfg (initial_state cfg) (bars_of (df_index df) closes signals) = Ok st /\
      forced_exit cfg st (bars_of (df_index df) closes signals) = Ok st' /\
      summarise cfg st' = Ok o)).
Proof.
  unfold backtest_signals.
  destruct (Qle_bool (initial_balance cfg) 0) eqn:Eb; [discriminate|].
  apply Qle_bool_false in Eb. intros H. split; [exact Eb|].
  destruct (df_empty df); [left; injection H as <-; auto|right].
  split; [reflexivity|].
  destruct (df_close df) as [closes|]; [|discriminate].
  destruct (df_signal df) as [signals|]; [|discriminate].
  apply bind_ok in H as (st & Hr & H). apply bind_ok in H as (st' & Hf & H).
  exists closes, signals, st, st'. auto.
Qed.

Lemma ledger_matches_pnl_initial (cfg : Config) :
  ledger_matches_pnl (initial_state cfg).
Proof.
  reflexivity.
Qed.

Lemma ledger_matches_pnl_length (st : LoopState) :
  ledger_matches_pnl st ->
  List.length (pnl_decimals st) = List.length (trade_log st).
Proof.
  intros H. apply (f_equal (@List.length Q)) in H.
  now rewrite !length_map in H.
Qed.

Lemma summarise_fields (cfg : Config) (st : LoopState) (o : Outcome) :
  summarise cfg st = Ok o ->
  win_rate (out_metrics o) =
    (if (0 <? List.length (pnl_decimals st))%nat
     then len (wins_of (pnl_decimals st)) / len (pnl_decimals st) * 100
     else 0) /\
  m_max_drawdown (out_metrics o) = max_drawdown st * 100 /\
  final_balance (out_metrics o) = cash st /\
  net_return (out_metrics o) = (cash st / initial_balance cfg - 1) * 100 /\
  m_initial_balance (out_metrics o) = initial_balance cfg /\
  out_trades o = trade_log st /\
  out_equity o = combine (equity_timestamps st) (equity_curve st) /\
  exposure_pct (out_metrics o) =
    (if nonempty (trade_log st) && Qlt_bool 0 (total_hours_of (equity_timestamps st))
     then np_sum (map duration_hrs (trade_log st))
          / total_hours_of (equity_timestamps st) * 100
     else 0).
Proof.
  unfold summarise. intros H.
  apply bind_ok in H as (wr & Hwr & H).
  apply bind_ok in H as (growth & Hg & H).
  apply bind_ok in H as (wl & Hwl & H).
  injection H as <-. apply py_div_inv in Hg as [_ ->].
  unfold out_metrics, out_trades, out_equity.
  cbn [fst snd win_rate m_max_drawdown final_balance net_return
       m_initial_balance exposure_pct].
  repeat split.
  destruct (0 <? List.length (pnl_decimals st))%nat.
  - apply bind_ok in Hwr as (r & Hr & Hwr). apply py_div_inv in Hr as [_ ->].
    now injection Hwr as <-.
  - now injection Hwr as <-.
Qed.

Lemma len_nonneg {A} (l : list A) : 0 <= len l.
Proof.
  unfold len. change 0 with (inject_Z 0). rewrite <- Zle_Qle. lia.
Qed.

Lemma len_filter_le {A} (f : A -> bool) (l : list A) : len (filter f l) <= len l.
Proof.
  unfold len. rewrite <- Zle_Qle. apply inj_le.
  induction l as [|x l IH]; simpl; [lia|]. destruct (f x); simpl; lia.
Qed.

(** X1.  Whenever the engine returns, the win rate it reports lies between 0
    and 100. *)
Theorem win_rate_is_a_percentage (df : DataFrame) (cfg : Config) (o : Outcome) :
  backtest_signals df cfg = Ok o ->
  0 <= win_rate (out_metrics o) /\ win_rate (out_metrics o) <= 100.
Proof.
  intros H. apply backtest_signals_inv in H as (Hb & [(_ & ->)|(_ & H)]).
  - cbn. lra.
  - destruct H as (closes & signals & st & st' & _ & _ & _ & _ & Hs).
    apply summarise_fields in Hs as (-> & _).
    destruct (0 <? List.length (pnl_decimals st'))%nat eqn:E; [|lra].
    apply Nat.ltb_lt in E.
    assert (Hn : 0 < len (pnl_decimals st')).
    { destruct (Qle_lt_or_eq _ _ (len_nonneg (pnl_decimals st'))) as [Hl|Hl];
        [exact Hl|].
      exfalso. apply (len_nonzero (pnl_decimals st')); [|now symmetry].
      destruct (pnl_decimals st'); simpl in E; [lia|discriminate]. }
    pose proof (len_nonneg (wins_of (pnl_decimals st'))) as Hw.
    pose proof (len_filter_le (fun p => Qlt_bool 0 p) (pnl_decimals st')) as Hle.
    fold (wins_of (pnl_decimals st')) in Hle.
    split.
    + apply Qmult_le_0_compat; [|lra]. apply Qle_shift_div_l; [exact Hn|lra].
    + assert (len (wins_of (pnl_decimals st')) / len (pnl_decimals st') <= 1).
      { apply Qle_shift_div_r; [exact Hn|lra]. }
      lra.
Qed.

Lemma win_rate_is_a_percentage_witness :
  0 <= win_rate (out_metrics Samples.scenario_A_outcome) /\
  win_rate (out_metrics Samples.scenario_A_outcome) <= 100.
Proof.
  apply (win_rate_is_a_percentage Fixtures.scenario_A (default_config 1000)).
  vm_compute. reflexivity.
Defined.

Lemma py_min_le_l (a b : Q) : py_min a b <= a.
Proof.
  unfold py_min. destruct (Qlt_bool b a) eqn:E; [|lra].
  apply Qlt_bool_iff in E. lra.
Qed.

Lemma replay_drawdown (cfg : Config) (bars : list Bar) :
  forall st st', max_drawdown st <= 0 -> replay cfg st bars = Ok st' ->
                 max_drawdown st' <= 0.
Proof.
  induction bars as [|b bars IH]; simpl; intros st st' Hinv H.
  - now injection H as <-.
  - apply bind_ok in H as (st1 & Hb & H). eapply IH; [|exact H].
    apply bar_step_inv in Hb as (_ & st2 & Ht & Hm).
    assert (H2 : max_drawdown st2 = max_drawdown st).
    { unfold transition in Ht.
      destruct (Qeq_bool (position st) 0 && mem (bar_signal b) (buy_set cfg)).
      - apply open_long_inv in Ht as [_ ->]. reflexivity.
      - destruct (Qlt_bool 0 (position st) && mem (bar_signal b) (sell_set cfg)).
        + apply close_long_inv in Ht as (e & _ & _ & ->). reflexivity.
        + now injection Ht as <-. }
    unfold mark_to_market in Hm. apply bind_ok in Hm as (d & _ & Hm).
    injection Hm as <-. cbn. rewrite H2.
    pose proof (py_min_le_l (max_drawdown st) d). lra.
Qed.

Lemma forced_exit_drawdown (cfg : Config) (st st' : LoopState) (bars : list Bar) :
  forced_exit cfg st bars = Ok st' -> max_drawdown st' = max_drawdown st.
Proof.
  unfold forced_exit.
  destruct (Qlt_bool 0 (position st)); [|now intros [= <-]].
  destruct (st_entry_price st) as [entry|]; [|now intros [= <-]].
  intros H. apply bind_ok in H as (final_bar & _ & H).
  apply bind_ok in H as (q & _ & H). now injection H as <-.
Qed.

(** X2.  Whenever the engine returns, the maximum drawdown it reports is
    zero or negative. *)
Theorem max_drawdown_is_never_positive (df : DataFrame) (cfg : Config)
    (o : Outcome) :
  backtest_signals df cfg = Ok o -> m_max_drawdown (out_metrics o) <= 0.
Proof.
  intros H. apply backtest_signals_inv in H as (Hb & [(_ & ->)|(_ & H)]).
  - cbn. lra.
  - destruct H as (closes & signals & st & st' & _ & _ & Hr & Hf & Hs).
    apply summarise_fields in Hs as (_ & -> & _).
    rewrite (forced_exit_drawdown _ _ _ _ Hf).
    assert (max_drawdown st <= 0).
    { eapply replay_drawdown; [|exact Hr]. cbn. lra. }
    lra.
Qed.

Lemma max_drawdown_is_never_positive_witness :
  m_max_drawdown (out_metrics Samples.scenario_A_outcome) <= 0.
Proof.
  apply (max_drawdown_is_never_positive Fixtures.scenario_A (default_config 1000)).
  vm_compute. reflexivity.
Defined.

(** ** The sorted bars *)

Lemma insert_row_perm (r : Bar) (l : list Bar) : Permutation (insert_row r l) (r :: l).
Proof.
  induction l as [|r' l IH]; simpl; [reflexivity|].
  destruct (bar_time r <=? bar_time r')%Z; [reflexivity|].
  rewrite IH. apply perm_swap.
Qed.

Lemma sort_index_perm (rows : list Bar) : Permutation (sort_index rows) rows.
Proof.
  unfold sort_index. induction rows as [|r rows IH]; simpl; [reflexivity|].
  rewrite insert_row_perm. now constructor.
Qed.

Lemma insert_row_sorted (r : Bar) (l : list Bar) :
  chronological_bars l -> chronological_bars (insert_row r l).
Proof.
  unfold chronological_bars. intros H. induction H as [|r' l Hs IH Hall]; simpl.
  - repeat constructor.
  - destruct (bar_time r <=? bar_time r')%Z eqn:E.
    + apply Z.leb_le in E. constructor; [now constructor|].
      constructor; [exact E|]. eapply Forall_impl; [|exact Hall].
      intros a Ha. simpl in Ha. lia.
    + apply Z.leb_gt in E. constructor; [exact IH|].
      eapply Permutation_Forall; [symmetry; apply insert_row_perm|].
      constructor; [lia|exact Hall].
Qed.

Lemma sort_index_sorted (rows : list Bar) : chronological_bars (sort_index rows).
Proof.
  unfold sort_index. induction rows as [|r rows IH]; simpl.
  - constructor.
  - now apply insert_row_sorted.
Qed.

Lemma bars_of_times (index : list Timestamp) (closes : list Q)
    (signals : list string) :
  map bar_time (bars_of index closes signals)
  = map bar_time (sort_index (zip3 index closes signals)).
Proof.
  unfold bars_of. rewrite map_map. reflexivity.
Qed.

Lemma chronological_bars_times (bars : list Bar) :
  chronological_bars bars <-> StronglySorted Z.le (map bar_time bars).
Proof.
  unfold chronological_bars. induction bars as [|b bars IH]; simpl.
  - split; constructor.
  - split; intros H; inversion H as [|? ? Hs Hall]; subst; constructor;
      try (now apply IH); rewrite Forall_map in *; exact Hall.
Qed.

Lemma bars_of_sorted (index : list Timestamp) (closes : list Q)
    (signals : list string) :
  chronological_bars (bars_of index closes signals).
Proof.
  apply chronological_bars_times. rewrite bars_of_times.
  apply chronological_bars_times, sort_index_sorted.
Qed.

Lemma zip3_times (index : list Timestamp) (closes : list Q) (signals : list string) :
  List.length closes = List.length index ->
  List.length signals = List.length index ->
  map bar_time (zip3 index closes signals) = index.
Proof.
  revert closes signals.
  induction index as [|t ts IH]; intros [|c cs] [|s ss]; simpl; intros H1 H2;
    try discriminate; [reflexivity|].
  f_equal. apply IH; lia.
Qed.

Lemma set_last_length (l : list Q) (v : Q) :
  List.length (set_last l v) = List.length l.
Proof.
  destruct (list_eq_dec_nil l) as [->|H]; [reflexivity|].
  destruct (exists_last H) as (l' & x & ->).
  rewrite set_last_nonempty by (destruct l'; discriminate).
  now rewrite removelast_last, !length_app.
Qed.

Lemma forced_exit_curve (cfg : Config) (st st' : LoopState) (bars : list Bar) :
  forced_exit cfg st bars = Ok st' ->
  equity_timestamps st' = equity_timestamps st /\
  List.length (equity_curve st') = List.length (equity_curve st).
Proof.
  unfold forced_exit.
  destruct (Qlt_bool 0 (position st)); [|now intros [= <-]].
  destruct (st_entry_price st) as [entry|]; [|now intros [= <-]].
  intros H. apply bind_ok in H as (final_bar & _ & H).
  apply bind_ok in H as (q & _ & H). injection H as <-.
  cbn [equity_timestamps equity_curve]. split; [reflexivity|].
  apply set_last_length.
Qed.

Lemma map_fst_combine {A B} (l : list A) (l' : list B) :
  List.length l = List.length l' -> map fst (combine l l') = l.
Proof.
  revert l'. induction l as [|a l IH]; intros [|b l'] H; simpl in *;
    try discriminate; [reflexivity|].
  f_equal. apply IH. lia.
Qed.

(** What a returned call on a table with rows leaves of the loop. *)
Lemma backtest_signals_run (df : DataFrame) (cfg : Config) (o : Outcome) :
  backtest_signals df cfg = Ok o -> df_empty df = false ->
  exists closes signals st st',
    0 < initial_balance cfg /\
    df_close df = Some closes /\ df_signal df = Some signals /\
    replay cfg (initial_state cfg) (bars_of (df_index df) closes signals) = Ok st /\
    forced_exit cfg st (bars_of (df_index df) closes signals) = Ok st' /\
    summarise cfg st' = Ok o.
Proof.
  intros H He. apply backtest_signals_inv in H as (Hb & [(He' & _)|(_ & H)]).
  - congruence.
  - destruct H as (closes & signals & st & st' & H).
    exists closes, signals, st, st'. tauto.
Qed.

(** X3.  On a table that is not empty and has one close and one signal per
    row, the equity series the engine returns has one point per row, and its
    timestamps are the timestamps of the table in increasing order. *)
Theorem equity_series_follows_the_sorted_index (df : DataFrame) (cfg : Config)
    (o : Outcome) :
  backtest_signals df cfg = Ok o -> df_empty df = false -> well_formed df ->
  StronglySorted Z.le (map fst (out_equity o)) /\
  Permutation (map fst (out_equity o)) (df_index df) /\
  List.length (out_equity o) = List.length (df_index df).
Proof.
  intros H He Hwf.
  destruct (backtest_signals_run _ _ _ H He)
    as (closes & signals & st & st' & _ & Hc & Hsig & Hr & Hf & Hs).
  unfold well_formed in Hwf. rewrite Hc, Hsig in Hwf. destruct Hwf as [Hl1 Hl2].
  apply summarise_fields in Hs as (_ & _ & _ & _ & _ & _ & Heq & _).
  destruct (replay_curve _ _ _ _ Hr) as [Hts Hlen]. simpl in Hts, Hlen.
  destruct (forced_exit_curve _ _ _ _ Hf) as [Hts' Hlen'].
  assert (Htimes : map fst (out_equity o)
                   = map bar_time (bars_of (df_index df) closes signals)).
  { rewrite Heq, Hts', Hts. apply map_fst_combine.
    rewrite Hlen', Hlen. now rewrite length_map. }
  assert (Hperm : Permutation (map fst (out_equity o)) (df_index df)).
  { rewrite Htimes, bars_of_times.
    rewrite (Permutation_map bar_time (sort_index_perm _)).
    now rewrite zip3_times. }
  split; [|split; [exact Hperm|]].
  - rewrite Htimes. apply chronological_bars_times, bars_of_sorted.
  - rewrite <- (length_map fst). now apply Permutation_length.
Qed.

Lemma equity_series_follows_the_sorted_index_witness :
  StronglySorted Z.le (map fst (out_equity Samples.shuffled_A_outcome)) /\
  Permutation (map fst (out_equity Samples.shuffled_A_outcome))
              (df_index Samples.shuffled_A) /\
  List.length (out_equity Samples.shuffled_A_outcome)
  = List.length (df_index Samples.shuffled_A).
Proof.
  apply (equity_series_follows_the_sorted_index Samples.shuffled_A
           (default_config 1000)).
  - vm_compute. reflexivity.
  - reflexivity.
  - split; reflexivity.
Defined.

(** ** The order of the rows and the case of the signals *)

Lemma sorted_permutation_unique {A} (key : A -> Z) (l : list A) :
  forall l',
    StronglySorted (fun a b => (key a <= key b)%Z) l ->
    StronglySorted (fun a b => (key a <= key b)%Z) l' ->
    Permutation l l' -> NoDup (map key l) -> l = l'.
Proof.
  induction l as [|a t IH]; intros l' Hs Hs' Hp Hnd.
  - apply Permutation_nil in Hp. now subst.
  - destruct l' as [|b t'].
    { apply Permutation_sym, Permutation_nil in Hp. discriminate. }
    inversion Hs as [|? ? Hst Hall]; subst.
    inversion Hs' as [|? ? Hst' Hall']; subst.
    inversion Hnd as [|? ? Hnotin Hnd']; subst.
    assert (Hin : In a (b :: t')) by (eapply Permutation_in; [exact Hp|now left]).
    destruct Hin as [<-|Hin].
    + f_equal. apply IH; try assumption. eapply Permutation_cons_inv, Hp.
    + exfalso.
      assert (Hin' : In b (a :: t))
        by (eapply Permutation_in; [symmetry; exact Hp|now left]).
      destruct Hin' as [->|Hin'].
      * rewrite Forall_forall in Hall'. specialize (Hall' _ Hin).
        apply Hnotin. apply in_map_iff.
        apply Permutation_cons_inv in Hp.
        exists b. split; [reflexivity|].
        eapply Permutation_in; [symmetry; exact Hp|exact Hin].
      * rewrite Forall_forall in Hall, Hall'.
        specialize (Hall _ Hin'). specialize (Hall' _ Hin).
        apply Hnotin. apply in_map_iff. exists b. split; [lia|exact Hin'].
Qed.

Lemma sort_index_canonical (rows rows' : list Bar) :
  Permutation rows rows' -> NoDup (map bar_time rows) ->
  sort_index rows = sort_index rows'.
Proof.
  intros Hp Hnd. apply (sorted_permutation_unique bar_time).
  - apply sort_index_sorted.
  - apply sort_index_sorted.
  - now rewrite !sort_index_perm.
  - eapply Permutation_NoDup; [|exact Hnd].
    apply Permutation_map. symmetry. apply sort_index_perm.
Qed.

Lemma df_empty_with_close (df : DataFrame) (closes : list Q) :
  df_close df = Some closes ->
  df_empty df = (List.length (df_index df) =? 0)%nat.
Proof.
  intros H. unfold df_empty, df_columns. rewrite H. simpl. apply orb_false_r.
Qed.

(** X4.  Two tables whose rows (timestamp, close, signal) are the same up to
    their order, with timestamps that are all different, give the same
    result: the engine replays the rows in the order of their timestamps,
    not in the order of the table. *)
Theorem row_order_is_irrelevant (df df' : DataFrame) (cfg : Config)
    (closes closes' : list Q) (signals signals' : list string) :
  df_close df = Some closes -> df_signal df = Some signals ->
  df_close df' = Some closes' -> df_signal df' = Some signals' ->
  well_formed df -> well_formed df' -> NoDup (df_index df) ->
  Permutation (zip3 (df_index df) closes signals)
              (zip3 (df_index df') closes' signals') ->
  backtest_signals df cfg = backtest_signals df' cfg.
Proof.
  intros Hc Hs Hc' Hs' Hwf Hwf' Hnd Hp.
  unfold well_formed in Hwf, Hwf'. rewrite Hc, Hs in Hwf. rewrite Hc', Hs' in Hwf'.
  destruct Hwf as [H1 H2], Hwf' as [H1' H2'].
  assert (Hlen : List.length (df_index df) = List.length (df_index df')).
  { apply Permutation_length in Hp. now rewrite !zip3_length in Hp. }
  unfold backtest_signals.
  rewrite (df_empty_with_close _ _ Hc), (df_empty_with_close _ _ Hc'), Hlen.
  rewrite Hc, Hs, Hc', Hs'. unfold bars_of.
  rewrite (sort_index_canonical _ _ Hp); [reflexivity|].
  now rewrite zip3_times.
Qed.

Lemma row_order_is_irrelevant_witness :
  backtest_signals Fixtures.scenario_A (default_config 1000)
  = backtest_signals Samples.shuffled_A (default_config 1000).
Proof.
  apply (row_order_is_irrelevant Fixtures.scenario_A Samples.shuffled_A
           (default_config 1000)
           [100; 110; 115; 90; 88] [110; 100; 115; 90; 88]
           ["HOLD"; "BUY"; "SELL"; "BUY"; "SELL"]
           ["BUY"; "HOLD"; "SELL"; "BUY"; "SELL"]); try reflexivity.
  - split; reflexivity.
  - split; reflexivity.
  - repeat constructor; cbv; intuition discriminate.
  - apply perm_swap.
Defined.

Lemma insert_row_map (g : Bar -> Bar) (r : Bar) (l : list Bar) :
  (forall x, bar_time (g x) = bar_time x) ->
  map g (insert_row r l) = insert_row (g r) (map g l).
Proof.
  intros Hg. induction l as [|r' l IH]; simpl; [reflexivity|].
  rewrite !Hg. destruct (bar_time r <=? bar_time r')%Z; simpl; [reflexivity|].
  now rewrite IH.
Qed.

Lemma sort_index_map (g : Bar -> Bar) (rows : list Bar) :
  (forall x, bar_time (g x) = bar_time x) ->
  map g (sort_index rows) = sort_index (map g rows).
Proof.
  intros Hg. unfold sort_index. induction rows as [|r rows IH]; simpl; [reflexivity|].
  now rewrite insert_row_map, IH.
Qed.

Lemma zip3_map_signal (f : string -> string) (index : list Timestamp)
    (closes : list Q) (signals : list string) :
  map (fun r => (bar_time r, bar_close r, f (bar_signal r)))
      (zip3 index closes signals)
  = zip3 index closes (map f signals).
Proof.
  revert closes signals.
  induction index as [|t ts IH]; intros [|c cs] [|s ss]; simpl; try reflexivity.
  now rewrite IH.
Qed.

Lemma bars_of_upper (index : list Timestamp) (closes : list Q)
    (signals : list string) :
  bars_of index closes signals = sort_index (zip3 index closes (map upper signals)).
Proof.
  unfold bars_of. rewrite sort_index_map by reflexivity.
  now rewrite zip3_map_signal.
Qed.

Lemma replay_same_sets (cfg cfg' : Config) (bars : list Bar) :
  initial_balance cfg = initial_balance cfg' ->
  slippage cfg = slippage cfg' -> commission cfg = commission cfg' ->
  buy_set cfg = buy_set cfg' -> sell_set cfg = sell_set cfg' ->
  forall st, replay cfg st bars = replay cfg' st bars.
Proof.
  intros Hb Hs Hc Hbuy Hsell. induction bars as [|b bars IH]; intros st; simpl;
    [reflexivity|].
  assert (Hstep : bar_step cfg st b = bar_step cfg' st b).
  { unfold bar_step, transition, open_long, close_long.
    now rewrite Hs, Hc, Hbuy, Hsell. }
  rewrite Hstep. destruct (bar_step cfg' st b); simpl; [apply IH|reflexivity].
Qed.

Lemma forced_exit_same_rates (cfg cfg' : Config) (st : LoopState) (bars : list Bar) :
  slippage cfg = slippage cfg' -> commission cfg = commission cfg' ->
  forced_exit cfg st bars = forced_exit cfg' st bars.
Proof.
  intros Hs Hc. unfold forced_exit. now rewrite Hs, Hc.
Qed.

Lemma summarise_same_balance (cfg cfg' : Config) (st : LoopState) :
  initial_balance cfg = initial_balance cfg' ->
  summarise cfg st = summarise cfg' st.
Proof.
  intros Hb. unfold summarise. now rewrite Hb.
Qed.

(** X5.  The result depends on the signals of the table and on the
    configured buy and sell signals only up to the case of their letters:
    two calls that differ in nothing else return the same result (or raise
    the same exception). *)
Theorem signals_are_matched_ignoring_case (df df' : DataFrame)
    (cfg cfg' : Config) (signals signals' : list string) :
  df_index df = df_index df' -> df_close df = df_close df' ->
  df_others df = df_others df' ->
  df_signal df = Some signals -> df_signal df' = Some signals' ->
  map upper signals = map upper signals' ->
  initial_balance cfg = initial_balance cfg' ->
  slippage cfg = slippage cfg' -> commission cfg = commission cfg' ->
  map upper (buy_signals cfg) = map upper (buy_signals cfg') ->
  map upper (sell_signals cfg) = map upper (sell_signals cfg') ->
  backtest_signals df cfg = backtest_signals df' cfg'.
Proof.
  intros Hi Hc Ho Hs Hs' Hup Hb Hsl Hco Hbuy Hsell.
  assert (He : df_empty df = df_empty df').
  { unfold df_empty, df_columns. now rewrite Hi, Hc, Ho, Hs, Hs'. }
  assert (Hinit : initial_state cfg = initial_state cfg').
  { unfold initial_state. now rewrite Hb. }
  unfold backtest_signals. rewrite He, Hb, Hc, Hs, Hs', Hi.
  destruct (Qle_bool (initial_balance cfg') 0); [reflexivity|].
  destruct (df_empty df'); [unfold empty_metrics; now rewrite Hb|].
  destruct (df_close df') as [closes|]; [|reflexivity].
  rewrite !bars_of_upper, Hup, Hinit.
  rewrite (replay_same_sets cfg cfg' _ Hb Hsl Hco Hbuy Hsell).
  destruct (replay cfg' (initial_state cfg') _) as [st|e]; [|reflexivity].
  cbn [bind]. rewrite (forced_exit_same_rates cfg cfg' _ _ Hsl Hco).
  destruct (forced_exit cfg' st _) as [st'|e]; [|reflexivity].
  cbn [bind]. apply summarise_same_balance, Hb.
Qed.

Lemma signals_are_matched_ignoring_case_witness :
  backtest_signals Fixtures.scenario_A (default_config 1000)
  = backtest_signals Samples.lower_case_A (default_config 1000).
Proof.
  apply (signals_are_matched_ignoring_case Fixtures.scenario_A Samples.lower_case_A
           (default_config 1000) (default_config 1000)
           ["HOLD"; "BUY"; "SELL"; "BUY"; "SELL"]
           ["hold"; "Buy"; "sell"; "buy"; "Sell"]); reflexivity.
Defined.

(** ** A series without entry *)

Lemma bar_step_never_entered (cfg : Config) (st : LoopState) (b : Bar) :
  0 < initial_balance cfg -> 0 < bar_close b ->
  mem (bar_signal b) (buy_set cfg) = false ->
  never_entered cfg st ->
  exists st', bar_step cfg st b = Ok st' /\ never_entered cfg st'.
Proof.
  intros Hb Hp Hbuy (Hcash & Hpos & Hlog & Hpnl & Hpeak & Hdd & Hcurve).
  unfold bar_step. apply Qle_bool_false in Hp. rewrite Hp.
  unfold transition. rewrite Hpos, Hbuy.
  change (Qeq_bool 0 0) with true. change (Qlt_bool 0 0) with false.
  cbn [andb bind ret]. unfold mark_to_market. rewrite Hcash, Hpos, Hpeak, Hdd.
  set (equity := initial_balance cfg + 0 * bar_close b).
  assert (Heq : equity == initial_balance cfg) by (unfold equity; ring).
  assert (Hmax : py_max (initial_balance cfg) equity = initial_balance cfg).
  { unfold py_max.
    assert (E : Qlt_bool (initial_balance cfg) equity = false)
      by (apply Qlt_bool_false; rewrite Heq; lra).
    now rewrite E. }
  rewrite Hmax.
  assert (E0 : Qeq_bool (initial_balance cfg) 0 = false)
    by (apply Qeq_bool_false; lra).
  rewrite E0, py_div_ok by lra. cbn [bind ret].
  eexists. split; [reflexivity|].
  unfold never_entered. cbn. repeat split; try assumption.
  - unfold py_min.
    assert (E : Qlt_bool ((equity - initial_balance cfg) / initial_balance cfg) 0
                = false).
    { apply Qlt_bool_false. rewrite Heq.
      setoid_replace (initial_balance cfg - initial_balance cfg) with 0 by ring.
      unfold Qdiv. rewrite Qmult_0_l. lra. }
    now rewrite E.
  - apply Forall_app. split; [exact Hcurve|]. now constructor.
Qed.

Lemma replay_never_entered (cfg : Config) (bars : list Bar) :
  0 < initial_balance cfg -> positive_closes bars ->
  Forall (fun b => mem (bar_signal b) (buy_set cfg) = false) bars ->
  forall st, never_entered cfg st ->
  exists st', replay cfg st bars = Ok st' /\ never_entered cfg st'.
Proof.
  intros Hb Hpos. induction Hpos as [|b bars Hp _ IH]; intros Hbuy st Hinv.
  - exists st. split; [reflexivity|exact Hinv].
  - inversion Hbuy as [|? ? Hb1 Hb2]; subst.
    destruct (bar_step_never_entered cfg st b Hb Hp Hb1 Hinv) as (st1 & Hs & Hinv1).
    destruct (IH Hb2 st1 Hinv1) as (st' & Hr & Hinv').
    exists st'. split; [simpl; rewrite Hs; exact Hr|exact Hinv'].
Qed.

Lemma Forall_combine_snd {A} (P : Q -> Prop) (l : list A) (l' : list Q) :
  Forall P l' -> Forall (fun p => P (snd p)) (combine l l').
Proof.
  intros H. revert l. induction H as [|v l' Hv _ IH]; intros [|a l]; simpl;
    constructor; auto.
Qed.

(** X6.  On a table with positive closes in which no row carries a buy
    signal, the engine returns no trade: the trade table is empty, the final
    balance is the initial balance, the net return and the maximum drawdown
    are 0, and the equity series stays at the initial balance on every row.
    *)
Theorem no_buy_signal_no_trade (df : DataFrame) (cfg : Config)
    (closes : list Q) (signals : list string) :
  0 < initial_balance cfg -> df_empty df = false ->
  df_close df = Some closes -> df_signal df = Some signals ->
  positive_closes (bars_of (df_index df) closes signals) ->
  Forall (fun b => mem (bar_signal b) (buy_set cfg) = false)
         (bars_of (df_index df) closes signals) ->
  exists m equity,
    backtest_signals df cfg = Ok (m, [], equity) /\
    total_trades m = 0%nat /\
    final_balance m = initial_balance cfg /\
    net_return m == 0 /\ m_max_drawdown m == 0 /\
    map fst equity = map bar_time (bars_of (df_index df) closes signals) /\
    Forall (fun p => snd p == initial_balance cfg) equity.
Proof.
  intros Hb He Hc Hsig Hpos Hbuy.
  assert (Hstart : never_entered cfg (initial_state cfg)).
  { unfold never_entered. cbn. repeat split. constructor. }
  destruct (replay_never_entered cfg _ Hb Hpos Hbuy _ Hstart)
    as (st & Hr & (Hcash & Hp & Hlog & Hpnl & _ & Hdd & Hcurve)).
  destruct (replay_curve _ _ _ _ Hr) as [Hts Hlen]. simpl in Hts, Hlen.
  destruct (summarise_ok cfg st Hb)
    as (o & Ho & Htr & Heq & Htot & Hfin & _ & _ & Hnet & Hmd).
  destruct o as [[m trades] equity].
  unfold out_trades, out_equity, out_metrics in *. cbn [fst snd] in *.
  exists m, equity. split.
  { rewrite (backtest_signals_unfold _ _ _ _ Hb He Hc Hsig), Hr. cbn [bind].
    assert (Hidle : position st <= 0) by (rewrite Hp; lra).
    rewrite (forced_exit_idle cfg st _ Hidle). cbn [bind].
    rewrite Ho. subst trades. now rewrite Hlog. }
  split; [now rewrite Htot, Hpnl|]. split; [now rewrite Hfin|].
  split; [rewrite Hnet, Hcash; field; lra|].
  split; [rewrite Hmd, Hdd; ring|].
  rewrite Heq. split.
  - rewrite <- Hts. apply map_fst_combine. rewrite Hts, Hlen.
    now rewrite length_map.
  - now apply (Forall_combine_snd (fun v => v == initial_balance cfg)).
Qed.

Lemma no_buy_signal_no_trade_witness :
  exists m equity,
    backtest_signals Samples.no_entries (default_config 1000) = Ok (m, [], equity) /\
    final_balance m = 1000.
Proof.
  destruct (no_buy_signal_no_trade Samples.no_entries (default_config 1000)
              [100; 110; 120] ["HOLD"; "SELL"; "HOLD"])
    as (m & equity & Hrun & _ & Hb & _).
  - reflexivity.
  - reflexivity.
  - reflexivity.
  - reflexivity.
  - repeat constructor.
  - repeat constructor.
  - exists m, equity. split; [exact Hrun|exact Hb].
Defined.

(** ** The chronology of the trades *)

Lemma last_exit_snoc (prev : Timestamp) (l : list Trade) (t : Trade) :
  last_exit prev (l ++ [t]) = exit_time t.
Proof.
  unfold last_exit. rewrite map_app. simpl. apply last_last.
Qed.

Lemma last_cons_default {A} (a d : A) (l : list A) :
  List.last (a :: l) d = List.last l a.
Proof.
  revert a d. induction l as [|b l IH]; intros a d; [reflexivity|].
  change (List.last (a :: b :: l) d) with (List.last (b :: l) d).
  rewrite IH. symmetry. apply IH.
Qed.

Lemma last_exit_cons (prev : Timestamp) (t : Trade) (l : list Trade) :
  last_exit prev (t :: l) = last_exit (exit_time t) l.
Proof.
  unfold last_exit. simpl map. apply last_cons_default.
Qed.

Lemma chronological_snoc (prev : Timestamp) (l : list Trade) (t : Trade) :
  chronological prev (l ++ [t]) <->
  chronological prev l /\
  exists e, entry_time t = Some e /\ (last_exit prev l <= e)%Z /\
            (e <= exit_time t)%Z /\
            duration_hrs t = hours_since (Some e) (exit_time t).
Proof.
  revert prev. induction l as [|x l IH]; intros prev.
  - simpl. unfold last_exit. simpl. tauto.
  - cbn [app chronological]. rewrite IH, last_exit_cons. tauto.
Qed.

Lemma on_schedule_later (lo now later : Timestamp) (st : LoopState) :
  (now <= later)%Z -> on_schedule lo now st -> on_schedule lo later st.
Proof.
  intros Hle (Hc & Hl & He). split; [exact Hc|]. split; [lia|].
  intros Hp. destruct (He Hp) as (e & H1 & H2 & H3). exists e.
  repeat split; [exact H1|exact H2|lia].
Qed.

Lemma transition_on_schedule (cfg : Config) (lo now : Timestamp)
    (st st1 : LoopState) (b : Bar) :
  on_schedule lo now st -> (now <= bar_time b)%Z ->
  transition cfg st b = Ok st1 -> on_schedule lo (bar_time b) st1.
Proof.
  intros Hinv Hle. pose proof Hinv as (Hc & Hl & He). unfold transition.
  destruct (Qeq_bool (position st) 0 && mem (bar_signal b) (buy_set cfg)).
  - intros H. apply open_long_inv in H as [_ ->].
    unfold on_schedule. cbn [trade_log st_entry_time position].
    split; [exact Hc|]. split; [lia|]. intros _.
    exists (bar_time b). repeat split; lia.
  - destruct (Qlt_bool 0 (position st) && mem (bar_signal b) (sell_set cfg)) eqn:E.
    + apply andb_prop in E as [E _]. apply Qlt_bool_iff in E.
      destruct (He E) as (e & Het & He1 & He2).
      intros H. apply close_long_inv in H as (entry & _ & _ & ->).
      unfold on_schedule. cbn [trade_log st_entry_time position].
      rewrite last_exit_snoc. cbn [exit_time].
      split; [|split; [lia|intros Hp; lra]].
      apply chronological_snoc. split; [exact Hc|].
      exists e. cbn [entry_time exit_time duration_hrs].
      rewrite Het. repeat split; lia.
    + intros [= <-]. now apply (on_schedule_later lo now).
Qed.

Lemma bar_step_on_schedule (cfg : Config) (lo now : Timestamp)
    (st st' : LoopState) (b : Bar) :
  on_schedule lo now st -> (now <= bar_time b)%Z ->
  bar_step cfg st b = Ok st' -> on_schedule lo (bar_time b) st'.
Proof.
  intros Hinv Hle H.
  apply bar_step_curve in H as (st1 & Ht & _ & Hp & _ & Het & Hl & _).
  pose proof (transition_on_schedule _ _ _ _ _ _ Hinv Hle Ht) as H1.
  unfold on_schedule. rewrite Hp, Het, Hl. exact H1.
Qed.

Lemma replay_on_schedule (cfg : Config) (lo : Timestamp) (bars : list Bar) :
  chronological_bars bars ->
  forall now st st',
    on_schedule lo now st ->
    Forall (fun b => (now <= bar_time b)%Z) bars ->
    replay cfg st bars = Ok st' ->
    on_schedule lo (List.last (map bar_time bars) now) st'.
Proof.
  intros Hs. induction Hs as [|b bars Hs IH Hall]; intros now st st' Hinv Hnow H.
  - simpl in H |- *. now injection H as <-.
  - simpl in H. apply bind_ok in H as (st1 & Hb & H).
    inversion Hnow as [|? ? Hle _]; subst.
    simpl map. rewrite last_cons_default.
    eapply IH; [|exact Hall|exact H].
    eapply bar_step_on_schedule; eassumption.
Qed.

Lemma last_item_last (bars : list Bar) (b : Bar) (d : Timestamp) :
  last_item bars = Ok b -> List.last (map bar_time bars) d = bar_time b.
Proof.
  intros H. destruct (list_eq_dec_nil bars) as [->|Hne]; [discriminate|].
  destruct (last_item_ok bars Hne) as (pre & x & -> & Hl).
  rewrite H in Hl. injection Hl as ->.
  rewrite map_app. simpl. apply last_last.
Qed.

Lemma forced_exit_on_schedule (cfg : Config) (lo : Timestamp)
    (st st' : LoopState) (bars : list Bar) (d : Timestamp) :
  on_schedule lo (List.last (map bar_time bars) d) st ->
  forced_exit cfg st bars = Ok st' ->
  on_schedule lo (List.last (map bar_time bars) d) st'.
Proof.
  intros (Hc & Hl & He). unfold forced_exit.
  destruct (Qlt_bool 0 (position st)) eqn:E; [|now intros [= <-]].
  destruct (st_entry_price st) as [entry|]; [|now intros [= <-]].
  apply Qlt_bool_iff in E. destruct (He E) as (e & Het & He1 & He2).
  intros H. apply bind_ok in H as (final_bar & Hfb & H).
  apply bind_ok in H as (q & _ & H). injection H as <-.
  rewrite (last_item_last _ _ d Hfb) in *.
  unfold on_schedule. cbn [trade_log st_entry_time position].
  rewrite last_exit_snoc. cbn [exit_time].
  split; [|split; [lia|intros Hp; lra]].
  apply chronological_snoc. split; [exact Hc|].
  exists e. cbn [entry_time exit_time duration_hrs].
  rewrite Het. repeat split; lia.
Qed.

Lemma first_time_le (bars : list Bar) :
  chronological_bars bars ->
  Forall (fun b => (first_time bars <= bar_time b)%Z) bars.
Proof.
  intros H. inversion H as [|b l Hs Hall]; subst; [constructor|].
  simpl. constructor; [lia|exact Hall].
Qed.

Lemma run_on_schedule (cfg : Config) (bars : list Bar) (st st' : LoopState) :
  chronological_bars bars ->
  replay cfg (initial_state cfg) bars = Ok st ->
  forced_exit cfg st bars = Ok st' ->
  on_schedule (first_time bars)
    (List.last (map bar_time bars) (first_time bars)) st'.
Proof.
  intros Hs Hr Hf. eapply forced_exit_on_schedule; [|exact Hf].
  eapply replay_on_schedule; [exact Hs| |apply first_time_le, Hs|exact Hr].
  unfold on_schedule. cbn. split; [exact I|]. split; [lia|]. intros H. lra.
Qed.

Lemma total_seconds_scale (d : Z) : total_seconds d == inject_Z d * (1 # 1000000000).
Proof.
  unfold total_seconds, Qeq, Qmult, inject_Z. simpl. lia.
Qed.

Lemma total_seconds_le (a b : Z) : (a <= b)%Z -> total_seconds a <= total_seconds b.
Proof.
  intros H. rewrite !total_seconds_scale. rewrite Zle_Qle in H.
  apply Qmult_le_compat_r; [exact H|]. discriminate.
Qed.

Lemma total_seconds_plus (a b : Z) :
  total_seconds (a + b) == total_seconds a + total_seconds b.
Proof.
  rewrite !total_seconds_scale, inject_Z_plus. ring.
Qed.

Lemma total_seconds_nonneg (d : Z) : (0 <= d)%Z -> 0 <= total_seconds d.
Proof.
  intros H. apply total_seconds_le in H.
  assert (E : total_seconds 0 == 0) by reflexivity.
  now rewrite E in H.
Qed.

Lemma chronological_exits (prev : Timestamp) (l : list Trade) :
  chronological prev l -> Forall (fun t => (prev <= exit_time t)%Z) l.
Proof.
  revert prev. induction l as [|t l IH]; intros prev H; [constructor|].
  destruct H as [(e & _ & H1 & H2 & _) H]. constructor; [lia|].
  eapply Forall_impl; [|apply IH, H]. intros t' Ht'. simpl in Ht'. lia.
Qed.

Lemma chronological_each (prev : Timestamp) (l : list Trade) :
  chronological prev l ->
  Forall (fun t => exists e, entry_time t = Some e /\ (e <= exit_time t)%Z /\
                             0 <= duration_hrs t) l.
Proof.
  revert prev. induction l as [|t l IH]; intros prev H; [constructor|].
  destruct H as [(e & H0 & H1 & H2 & H3) H]. constructor; [|eapply IH, H].
  exists e. repeat split; try assumption. rewrite H3. simpl.
  apply Qle_shift_div_l; [reflexivity|]. rewrite Qmult_0_l.
  apply total_seconds_nonneg. lia.
Qed.

Lemma chronological_sorted (prev : Timestamp) (l : list Trade) :
  chronological prev l -> StronglySorted Z.le (map exit_time l).
Proof.
  revert prev. induction l as [|t l IH]; intros prev H; [constructor|].
  destruct H as [_ H]. simpl. constructor; [eapply IH, H|].
  rewrite Forall_map. apply chronological_exits, H.
Qed.

Lemma chronological_no_overlap (prev : Timestamp) (l1 l2 : list Trade)
    (t1 t2 : Trade) :
  chronological prev (l1 ++ t1 :: t2 :: l2) ->
  exists e2, entry_time t2 = Some e2 /\ (exit_time t1 <= e2)%Z.
Proof.
  revert prev. induction l1 as [|x l1 IH]; intros prev H.
  - destruct H as [_ [(e2 & H0 & H1 & _) _]]. eauto.
  - destruct H as [_ H]. eapply IH, H.
Qed.

(** X7.  Whenever the engine returns, every trade of the trade table has an
    entry time that is not after its exit time and a duration that is not
    negative; the exit times are in increasing order; and a trade is entered
    no earlier than the trade before it was left, so that trades never
    overlap. *)
Theorem trades_are_chronological (df : DataFrame) (cfg : Config) (o : Outcome) :
  backtest_signals df cfg = Ok o ->
  Forall (fun t => exists e, entry_time t = Some e /\ (e <= exit_time t)%Z /\
                             0 <= duration_hrs t) (out_trades o) /\
  StronglySorted Z.le (map exit_time (out_trades o)) /\
  (forall l1 t1 t2 l2,
     out_trades o = l1 ++ t1 :: t2 :: l2 ->
     exists e2, entry_time t2 = Some e2 /\ (exit_time t1 <= e2)%Z).
Proof.
  intros H. apply backtest_signals_inv in H as (Hb & [(_ & ->)|(_ & H)]).
  - cbn. split; [constructor|]. split; [constructor|].
    intros [|? ?] ? ? ? E; discriminate E.
  - destruct H as (closes & signals & st & st' & _ & _ & Hr & Hf & Hs).
    apply summarise_fields in Hs as (_ & _ & _ & _ & _ & -> & _).
    destruct (run_on_schedule cfg _ st st' (bars_of_sorted _ _ _) Hr Hf)
      as (Hc & _).
    split; [eapply chronological_each, Hc|].
    split; [eapply chronological_sorted, Hc|].
    intros l1 t1 t2 l2 E. rewrite E in Hc.
    eapply chronological_no_overlap, Hc.
Qed.

Lemma trades_are_chronological_witness :
  StronglySorted Z.le (map exit_time (out_trades Samples.scenario_A_outcome)).
Proof.
  apply (trades_are_chronological Fixtures.scenario_A (default_config 1000)).
  vm_compute. reflexivity.
Defined.

Lemma chronological_total (prev : Timestamp) (l : list Trade) :
  chronological prev l ->
  0 <= np_sum (map duration_hrs l) /\
  np_sum (map duration_hrs l) <= total_seconds (last_exit prev l - prev) / 3600.
Proof.
  revert prev. induction l as [|t l IH]; intros prev H.
  - unfold last_exit. simpl. rewrite Z.sub_diag. split; [lra|].
    unfold total_seconds, Qdiv. simpl. lra.
  - destruct H as [(e & H0 & H1 & H2 & H3) H].
    destruct (IH _ H) as [IH1 IH2]. rewrite last_exit_cons.
    cbn [map]. unfold np_sum in *. cbn [fold_right]. rewrite H3. simpl hours_since.
    assert (Hd : 0 <= total_seconds (exit_time t - e) / 3600).
    { apply Qle_shift_div_l; [reflexivity|]. rewrite Qmult_0_l.
      apply total_seconds_nonneg. lia. }
    split; [lra|].
    assert (Hsplit : (last_exit (exit_time t) l - prev
                      = (e - prev) + ((exit_time t - e)
                        + (last_exit (exit_time t) l - exit_time t)))%Z) by lia.
    rewrite Hsplit, !total_seconds_plus.
    pose proof (total_seconds_nonneg (e - prev) ltac:(lia)) as Hgap.
    set (a := total_seconds (e - prev)) in *.
    set (d := total_seconds (exit_time t - e)) in *.
    set (r := total_seconds (last_exit (exit_time t) l - exit_time t)) in *.
    setoid_replace ((a + (d + r)) / 3600) with (a / 3600 + d / 3600 + r / 3600)
      by field.
    assert (0 <= a / 3600)
      by (apply Qle_shift_div_l; [reflexivity|]; now rewrite Qmult_0_l).
    lra.
Qed.

Lemma total_hours_of_times (bars : list Bar) :
  0 < total_hours_of (map bar_time bars) ->
  total_hours_of (map bar_time bars)
  = total_seconds (List.last (map bar_time bars) (first_time bars)
                   - first_time bars) / 3600.
Proof.
  destruct bars as [|b bars]; [simpl; intros H; lra|].
  cbn [map first_time]. unfold total_hours_of.
  destruct (Qlt_bool 0 _); [reflexivity|intros H; lra].
Qed.

(** X8.  Whenever the engine returns, the exposure it reports (the share of
    the covered time during which a position was held) lies between 0 and
    100. *)
Theorem exposure_is_a_percentage (df : DataFrame) (cfg : Config) (o : Outcome) :
  backtest_signals df cfg = Ok o ->
  0 <= exposure_pct (out_metrics o) /\ exposure_pct (out_metrics o) <= 100.
Proof.
  intros H. apply backtest_signals_inv in H as (Hb & [(_ & ->)|(_ & H)]).
  - cbn. lra.
  - destruct H as (closes & signals & st & st' & _ & _ & Hr & Hf & Hs).
    apply summarise_fields in Hs as (_ & _ & _ & _ & _ & _ & _ & ->).
    destruct (nonempty (trade_log st')
              && Qlt_bool 0 (total_hours_of (equity_timestamps st'))) eqn:E;
      [|lra].
    apply andb_prop in E as [_ E]. apply Qlt_bool_iff in E.
    destruct (replay_curve _ _ _ _ Hr) as [Hts _]. simpl in Hts.
    destruct (forced_exit_curve _ _ _ _ Hf) as [Hts' _].
    rewrite Hts', Hts in E |- *.
    set (bars := bars_of (df_index df) closes signals) in *.
    destruct (run_on_schedule cfg bars st st' (bars_of_sorted _ _ _) Hr Hf)
      as (Hc & Hlast & _).
    destruct (chronological_total _ _ Hc) as [Hsum0 Hsum].
    pose proof (total_hours_of_times bars E) as Htotal.
    assert (Hle : np_sum (map duration_hrs (trade_log st'))
                  <= total_hours_of (map bar_time bars)).
    { rewrite Htotal. eapply Qle_trans; [exact Hsum|].
      apply Qmult_le_compat_r; [|discriminate].
      apply total_seconds_le. lia. }
    set (total := total_hours_of (map bar_time bars)) in *.
    set (sum := np_sum (map duration_hrs (trade_log st'))) in *.
    assert (0 <= sum / total) by (apply Qle_shift_div_l; [exact E|lra]).
    assert (sum / total <= 1) by (apply Qle_shift_div_r; [exact E|lra]).
    lra.
Qed.

Lemma exposure_is_a_percentage_witness :
  0 <= exposure_pct (out_metrics Samples.scenario_A_outcome) /\
  exposure_pct (out_metrics Samples.scenario_A_outcome) <= 100.
Proof.
  apply (exposure_is_a_percentage Fixtures.scenario_A (default_config 1000)).
  vm_compute. reflexivity.
Defined.

(** ** Compounding *)

Lemma compounded_snoc (cfg : Config) (l : list Trade) (t : Trade) :
  compounded cfg (l ++ [t]) = compounded cfg l * trade_factor cfg t.
Proof.
  unfold compounded. now rewrite fold_left_app.
Qed.

Lemma step_fully_invested (cfg : Config) (a : Machine.Account) (b : Bar) :
  valid_rates cfg -> 0 < bar_close b ->
  fully_invested cfg a -> fully_invested cfg (Machine.step cfg a b).
Proof.
  intros [[Hs0 Hs1] [Hc0 Hc1]] Hp Hinv.
  unfold fully_invested, Machine.step in *.
  destruct (Machine.acct_position a) as [|q fill since] eqn:Ha.
  - destruct (mem (bar_signal b) (buy_set cfg));
      cbn [Machine.acct_cash Machine.acct_position Machine.ledger];
      [|now rewrite Ha].
    assert (Hfill : ~ bar_close b * (1 + slippage cfg) == 0).
    { intros E. apply Qmult_integral in E as [E|E]; lra. }
    split; [now apply remainder_zero|]. split; [exact Hfill|].
    rewrite Hinv. field. split; lra.
  - destruct Hinv as (Hcash & Hfill & Hq).
    destruct (mem (bar_signal b) (sell_set cfg));
      cbn [Machine.acct_cash Machine.acct_position Machine.ledger];
      [|rewrite Ha; auto].
    rewrite compounded_snoc, Hcash. unfold trade_factor.
    cbn [exit_price entry_price].
    assert (Hq' : q == initial_balance cfg * compounded cfg (Machine.ledger a)
                       * (1 - commission cfg) / fill).
    { rewrite <- Hq. field. exact Hfill. }
    rewrite Hq'. field. exact Hfill.
Qed.

Lemma run_fully_invested (cfg : Config) (bars : list Bar) :
  valid_rates cfg -> positive_closes bars ->
  forall a, fully_invested cfg a -> fully_invested cfg (Machine.run cfg a bars).
Proof.
  intros Hr Hpos. induction Hpos as [|b bars Hb _ IH]; intros a Hinv.
  - exact Hinv.
  - simpl. apply IH. now apply step_fully_invested.
Qed.

(** X9.  With commission and slippage rates in [0, 1), a positive initial
    balance and positive closes, the engine returns, and the final balance
    is the initial balance multiplied, for every trade of the trade table,
    by (1 - commission)^2 * exit price / entry price; the net return is that
    product minus 1, as a percentage. *)
Theorem final_balance_compounds_the_trades (df : DataFrame) (cfg : Config)
    (closes : list Q) (signals : list string) :
  valid_rates cfg -> 0 < initial_balance cfg -> df_empty df = false ->
  df_close df = Some closes -> df_signal df = Some signals ->
  positive_closes (bars_of (df_index df) closes signals) ->
  exists o,
    backtest_signals df cfg = Ok o /\
    final_balance (out_metrics o)
    == initial_balance cfg * compounded cfg (out_trades o) /\
    net_return (out_metrics o) == (compounded cfg (out_trades o) - 1) * 100.
Proof.
  intros Hrates Hb He Hc Hsig Hpos.
  set (bars := bars_of (df_index df) closes signals) in *.
  destruct (replay_tracks cfg Hrates bars Hpos _ _ (tracks_start cfg Hb))
    as (st & Hr & [(Hcash & Hlog & Hrep) _] & _).
  assert (Hinv : fully_invested cfg (Machine.run cfg (Machine.start cfg) bars)).
  { apply run_fully_invested; try assumption.
    unfold fully_invested, compounded. cbn. ring. }
  destruct (forced_exit_ok cfg bars st Hr) as (st' & Hf).
  destruct (summarise_ok cfg st' Hb) as (o & Ho & Htr & _ & _ & Hfin & _ & _ & Hnet & _).
  assert (Hfinal : cash st' == initial_balance cfg * compounded cfg (trade_log st')).
  { unfold fully_invested in Hinv.
    destruct (Machine.acct_position (Machine.run cfg (Machine.start cfg) bars))
      as [|q fill since].
    - destruct Hrep as (Hq & _).
      rewrite forced_exit_idle in Hf by (rewrite Hq; lra).
      injection Hf as <-. now rewrite Hcash, Hlog.
    - destruct Hrep as (Hq & Hq0 & Hentry & _).
      destruct Hinv as (Hzero & Hfill & Hqf).
      unfold forced_exit in Hf.
      assert (E : Qlt_bool 0 (position st) = true)
        by (apply Qlt_bool_iff; now rewrite Hq).
      rewrite E, Hentry in Hf.
      apply bind_ok in Hf as (final_bar & _ & Hf).
      apply bind_ok in Hf as (pnl & _ & Hf). injection Hf as <-.
      cbn [cash trade_log]. rewrite compounded_snoc, Hcash, Hlog, Hq, Hzero.
      unfold trade_factor. cbn [exit_price entry_price].
      assert (Hq' : q == initial_balance cfg
                         * compounded cfg
                             (Machine.ledger (Machine.run cfg (Machine.start cfg) bars))
                         * (1 - commission cfg) / fill).
      { rewrite <- Hqf. field. exact Hfill. }
      rewrite Hq'. field. exact Hfill. }
  exists o. split.
  { rewrite (backtest_signals_unfold _ _ _ _ Hb He Hc Hsig). fold bars.
    rewrite Hr. cbn [bind]. rewrite Hf. exact Ho. }
  rewrite Htr, Hfin, Hnet. split; [exact Hfinal|].
  rewrite Hfinal. field. lra.
Qed.

Lemma final_balance_compounds_the_trades_witness :
  exists o,
    backtest_signals Fixtures.scenario_A (default_config 1000) = Ok o /\
    final_balance (out_metrics o) == 1000 * compounded (default_config 1000) (out_trades o).
Proof.
  destruct (final_balance_compounds_the_trades Fixtures.scenario_A
              (default_config 1000) [100; 110; 115; 90; 88]
              ["HOLD"; "BUY"; "SELL"; "BUY"; "SELL"])
    as (o & Hrun & Hb & _).
  - repeat split; vm_compute; congruence.
  - reflexivity.
  - reflexivity.
  - reflexivity.
  - reflexivity.
  - repeat constructor.
  - exists o. split; [exact Hrun|exact Hb].
Defined.

(** ** Solvency *)






Section Solvency.

Variable cfg : Config.
Hypothesis rates : valid_rates cfg.



End Solvency.




Import Strategy Rows Table.

(** * Further properties of the signal deriver *)

(** ** The rows of the output *)

Lemma insert_pos_perm (r : Timestamp * nat) (l : list (Timestamp * nat)) :
  Permutation (insert_pos r l) (r :: l).
Proof.
  induction l as [|r' l IH]; simpl; [reflexivity|].
  destruct (_ <=? _)%Z; [reflexivity|].
  rewrite IH. apply perm_swap.
Qed.

Lemma positions_of_perm (idx : list Timestamp) :
  Permutation (positions_of idx) (combine idx (seq 0 (List.length idx))).
Proof.
  unfold positions_of. induction (combine idx (seq 0 (List.length idx)))
    as [|r l IH]; simpl; [reflexivity|].
  rewrite insert_pos_perm. now constructor.
Qed.

Lemma insert_pos_sorted (r : Timestamp * nat) (l : list (Timestamp * nat)) :
  StronglySorted (fun a b => (fst a <= fst b)%Z) l ->
  StronglySorted (fun a b => (fst a <= fst b)%Z) (insert_pos r l).
Proof.
  intros H. induction H as [|r' l Hs IH Hall]; simpl.
  - repeat constructor.
  - destruct (_ <=? _)%Z eqn:E.
    + apply Z.leb_le in E. constructor; [now constructor|].
      constructor; [exact E|]. eapply Forall_impl; [|exact Hall].
      intros a Ha. simpl in Ha. exact (Z.le_trans _ _ _ E Ha).
    + apply Z.leb_gt in E. constructor; [exact IH|].
      eapply Permutation_Forall; [symmetry; apply insert_pos_perm|].
      constructor; [apply Z.lt_le_incl, E|exact Hall].
Qed.

Lemma positions_of_sorted (idx : list Timestamp) :
  StronglySorted (fun a b => (fst a <= fst b)%Z) (positions_of idx).
Proof.
  unfold positions_of. induction (combine idx (seq 0 (List.length idx)))
    as [|r l IH]; simpl; [constructor|]. now apply insert_pos_sorted.
Qed.

Lemma combine_seq_nth (idx : list Timestamp) (k : nat) (p : Timestamp * nat) :
  In p (combine idx (seq k (List.length idx))) ->
  (k <= snd p < k + List.length idx)%nat /\ nth (snd p - k) idx 0%Z = fst p.
Proof.
  revert k. induction idx as [|t idx IH]; intros k Hin; simpl in Hin; [tauto|].
  destruct Hin as [<-|Hin].
  - simpl. rewrite Nat.sub_diag. split; [lia|reflexivity].
  - apply IH in Hin as [H1 H2]. simpl List.length. split; [lia|].
    replace (snd p - k)%nat with (S (snd p - S k)) by lia. exact H2.
Qed.

Lemma sorted_positions_index (idx : list Timestamp) :
  take 0%Z (sorted_positions idx) idx = map fst (positions_of idx).
Proof.
  unfold take, sorted_positions. fold (positions_of idx). rewrite map_map.
  apply map_ext_in. intros p Hin.
  apply (Permutation_in _ (positions_of_perm idx)) in Hin.
  apply combine_seq_nth in Hin as [_ H]. now rewrite Nat.sub_0_r in H.
Qed.

Lemma map_fst_combine_seq (idx : list Timestamp) (k : nat) :
  map fst (combine idx (seq k (List.length idx))) = idx.
Proof.
  apply map_fst_combine. now rewrite length_seq.
Qed.

Lemma sort_index_sorts (df : Frame) :
  StronglySorted Z.le (index (Strategy.sort_index df)) /\
  Permutation (index (Strategy.sort_index df)) (index df).
Proof.
  unfold Strategy.sort_index. cbn [index]. rewrite sorted_positions_index. split.
  - pose proof (positions_of_sorted (index df)) as H.
    induction H as [|p l Hs IH Hall]; simpl; constructor; [exact IH|].
    now rewrite Forall_map.
  - rewrite (Permutation_map fst (positions_of_perm (index df))).
    now rewrite map_fst_combine_seq.
Qed.

(** Steps through the calls a returned run of the deriver made. *)
Ltac deriver_calls H :=
  apply bind_ok in H; destruct H as (?close & _ & H);
  apply bind_ok in H; destruct H as (?rsi_series & _ & H);
  apply bind_ok in H; destruct H as (?fast_series & _ & H);
  apply bind_ok in H; destruct H as (?slow_series & _ & H);
  apply bind_ok in H; destruct H as (?macd_df & _ & H).

Lemma rsi_signal_close {lib : Indicators} (df out : Frame) (period : Z)
    (oversold overbought : Q) (fast_period slow_period : Z) :
  frame_empty df = false ->
  rsi_signal df period oversold overbought fast_period slow_period = Ok out ->
  exists close, get_float "close" (Strategy.sort_index df) = Ok close.
Proof.
  intros He H. unfold rsi_signal in H. rewrite He in H.
  apply bind_ok in H as (close & Hc & _). eauto.
Qed.

(** X11.  On a table that is not empty, the index of the table the deriver
    returns is the index of the input in increasing order: same timestamps,
    same number of rows. *)
Theorem deriver_sorts_the_rows {lib : Indicators} (df out : Frame) (period : Z)
    (oversold overbought : Q) (fast_period slow_period : Z) :
  frame_empty df = false ->
  rsi_signal df period oversold overbought fast_period slow_period = Ok out ->
  StronglySorted Z.le (index out) /\
  Permutation (index out) (index df) /\
  List.length (index out) = List.length (index df).
Proof.
  intros He H.
  assert (Hidx : index out = index (Strategy.sort_index df)).
  { unfold rsi_signal in H. rewrite He in H.
    deriver_calls H. cbv zeta in H.
    injection H as <-. reflexivity. }
  rewrite Hidx. destruct (sort_index_sorts df) as [Hs Hp].
  split; [exact Hs|]. split; [exact Hp|]. now apply Permutation_length.
Qed.

Lemma deriver_sorts_the_rows_witness :
  exists out,
    rsi_signal (lib := Fixtures.fake_indicators) Samples.unsorted_df 14 30 70 12 26
    = Ok out /\
    StronglySorted Z.le (index out).
Proof.
  eexists. split; [reflexivity|].
  apply (deriver_sorts_the_rows (lib := Fixtures.fake_indicators)
           Samples.unsorted_df _ 14 30 70 12 26); reflexivity.
Defined.

Lemma rsi_signal_other_columns {lib : Indicators} (df out : Frame)
    (period : Z) (oversold overbought : Q) (fast_period slow_period : Z) :
  frame_empty df = false ->
  rsi_signal df period oversold overbought fast_period slow_period = Ok out ->
  (forall name, In name added_columns -> has_col name out = true) /\
  (forall name, ~ In name added_columns ->
     lookup name (columns out)
     = lookup name (columns (Strategy.sort_index df))).
Proof.
  intros He H. unfold rsi_signal in H. rewrite He in H.
  deriver_calls H. cbv zeta in H. injection H as <-.
  unfold has_col, set_col. cbn [columns]. split.
  - intros name Hin. unfold added_columns in Hin. simpl in Hin.
    repeat (destruct Hin as [<-|Hin];
            [repeat (rewrite lookup_assign_other by discriminate);
             now rewrite lookup_assign_same|]).
    contradiction.
  - intros name Hnot.
    repeat (rewrite lookup_assign_other
              by (intros ->; apply Hnot; unfold added_columns; simpl; tauto)).
    reflexivity.
Qed.

(** X12.  On a table that is not empty, the table the deriver returns has
    the nine columns rsi, ema_fast, ema_slow, macd, macd_signal,
    macd_histogram, signal, signal_strength and divergence, and every column
    of another name is the input column on the sorted rows (absent if the
    input has none of that name). *)
Theorem deriver_passes_columns_through {lib : Indicators} (df out : Frame)
    (period : Z) (oversold overbought : Q) (fast_period slow_period : Z) :
  frame_empty df = false ->
  rsi_signal df period oversold overbought fast_period slow_period = Ok out ->
  (forall name, In name added_columns -> has_col name out = true) /\
  (forall name, ~ In name added_columns ->
     lookup name (columns out)
     = lookup name (columns (Strategy.sort_index df))).
Proof.
  apply rsi_signal_other_columns.
Qed.

Lemma deriver_passes_columns_through_witness :
  exists out,
    rsi_signal (lib := Fixtures.fake_indicators) Samples.unsorted_df 14 30 70 12 26
    = Ok out /\
    lookup "volume" (columns out)
    = lookup "volume" (columns (Strategy.sort_index Samples.unsorted_df)).
Proof.
  eexists. split; [reflexivity|].
  apply (deriver_passes_columns_through (lib := Fixtures.fake_indicators)
           Samples.unsorted_df _ 14 30 70 12 26); try reflexivity.
  cbv. intuition discriminate.
Defined.

(** X13.  On a table that is not empty and has no close column, the deriver
    raises a [KeyError] for [close]. *)
Theorem deriver_needs_a_close_column {lib : Indicators} (df : Frame)
    (period : Z) (oversold overbought : Q) (fast_period slow_period : Z) :
  frame_empty df = false -> has_col "close" df = false ->
  rsi_signal df period oversold overbought fast_period slow_period
  = Raise (KeyError "close").
Proof.
  intros He Hc. unfold rsi_signal. rewrite He.
  unfold get_float, Strategy.sort_index. cbn [columns].
  rewrite lookup_sort_index. unfold has_col in Hc.
  destruct (lookup "close" (columns df)); [discriminate|reflexivity].
Qed.

Lemma deriver_needs_a_close_column_witness :
  rsi_signal (lib := Fixtures.fake_indicators) Samples.no_close 14 30 70 12 26
  = Raise (KeyError "close").
Proof.
  apply (deriver_needs_a_close_column (lib := Fixtures.fake_indicators));
    reflexivity.
Defined.

(** ** A table that is already sorted *)

Lemma insert_pos_head (r : Timestamp * nat) (l : list (Timestamp * nat)) :
  Forall (fun p => (fst r <= fst p)%Z) l -> insert_pos r l = r :: l.
Proof.
  intros H. destruct H as [|r' l Hr _]; simpl; [reflexivity|].
  destruct (_ <=? _)%Z eqn:E; [reflexivity|].
  apply Z.leb_gt in E. exfalso.
  exact (Z.lt_irrefl _ (Z.lt_le_trans _ _ _ E Hr)).
Qed.

Lemma sorted_pairs_fixed (l : list (Timestamp * nat)) :
  StronglySorted (fun a b => (fst a <= fst b)%Z) l ->
  fold_right insert_pos [] l = l.
Proof.
  intros H. induction H as [|r l Hs IH Hall]; simpl; [reflexivity|].
  rewrite IH. now apply insert_pos_head.
Qed.

Lemma combine_sorted (idx : list Timestamp) (k : nat) :
  StronglySorted Z.le idx ->
  StronglySorted (fun a b : Timestamp * nat => (fst a <= fst b)%Z)
    (combine idx (seq k (List.length idx))).
Proof.
  intros H. revert k. induction H as [|t idx Hs IH Hall]; intros k; simpl;
    constructor; [apply IH|].
  rewrite Forall_forall in *. intros [t' i] Hin. simpl.
  apply Hall. now apply in_combine_l in Hin.
Qed.

Lemma map_snd_combine_eq {A B} (l : list A) (l' : list B) :
  List.length l = List.length l' -> map snd (combine l l') = l'.
Proof.
  revert l'. induction l as [|a l IH]; intros [|b l'] H; simpl in *;
    try discriminate; [reflexivity|].
  f_equal. apply IH. lia.
Qed.

Lemma sorted_positions_sorted (idx : list Timestamp) :
  StronglySorted Z.le idx -> sorted_positions idx = seq 0 (List.length idx).
Proof.
  intros H. unfold sorted_positions.
  rewrite sorted_pairs_fixed by now apply combine_sorted.
  apply map_snd_combine_eq. now rewrite length_seq.
Qed.

Lemma take_seq {A} (d : A) (l : list A) :
  take d (seq 0 (List.length l)) l = l.
Proof.
  unfold take. apply (nth_ext _ _ d d).
  - now rewrite length_map, length_seq.
  - intros n Hn. rewrite length_map, length_seq in Hn.
    rewrite (nth_indep _ d (nth 0 l d)) by (now rewrite length_map, length_seq).
    rewrite (map_nth (fun i => nth i l d)), seq_nth by exact Hn. reflexivity.
Qed.

(** X14.  Sorting leaves a table as it is when its timestamps are already in
    increasing order (equal timestamps included) and every column has one
    value per row. *)
Theorem sorted_table_stays_in_place (df : Frame) :
  StronglySorted Z.le (index df) -> rectangular df ->
  Strategy.sort_index df = df.
Proof.
  intros Hs Hrect. unfold Strategy.sort_index.
  rewrite (sorted_positions_sorted _ Hs), take_seq.
  destruct df as [idx cols]. cbn [index columns] in *. f_equal.
  unfold rectangular in Hrect. cbn [index columns] in Hrect.
  induction Hrect as [|[n c] cols Hc _ IH]; simpl; [reflexivity|].
  f_equal; [|exact IH]. f_equal. simpl in Hc.
  destruct c as [v|v]; simpl in Hc |- *; rewrite <- Hc; now rewrite take_seq.
Qed.

Lemma sorted_table_stays_in_place_witness :
  Strategy.sort_index Fixtures.base_df = Fixtures.base_df.
Proof.
  apply sorted_table_stays_in_place.
  - repeat constructor; cbv; discriminate.
  - repeat constructor.
Defined.

(** ** The strength and the divergence annotations *)

Lemma shift_shift_nth (s : list (option Q)) (t : nat) :
  (t < List.length s)%nat -> nth t (shift (shift s)) None = two_before s t.
Proof.
  intros Ht. rewrite shift_nth by now rewrite shift_length.
  destruct t as [|k]; [reflexivity|]. simpl. apply shift_nth. lia.
Qed.

Lemma take_length {A} (d : A) (order : list nat) (l : list A) :
  List.length (take d order l) = List.length order.
Proof.
  unfold take. apply length_map.
Qed.

Section Annotations.

Context {lib : Indicators}.
Variables (period : Z) (oversold overbought : Q) (fast_period slow_period : Z).

Lemma rsi_signal_annotations (df : Frame) (close rsi_series fast_series
    slow_series : list (option Q)) (macd_df : MacdFrame) :
  frame_empty df = false ->
  get_float "close" (Strategy.sort_index df) = Ok close ->
  rsi close period = Ok rsi_series ->
  ema close fast_period = Ok fast_series ->
  ema close slow_period = Ok slow_series ->
  macd close fast_period slow_period 9 = Ok macd_df ->
  List.length close = List.length (index (Strategy.sort_index df)) ->
  let n := List.length (index (Strategy.sort_index df)) in
  let osc := reindex n rsi_series in
  let fast := reindex n fast_series in
  let slow := reindex n slow_series in
  let m := aligned_macd n macd_df in
  exists out strength divergence,
    rsi_signal df period oversold overbought fast_period slow_period = Ok out /\
    get_text "signal_strength" out = Some strength /\
    get_text "divergence" out = Some divergence /\
    List.length strength = n /\ List.length divergence = n /\
    forall t, (t < n)%nat ->
      nth t strength None =
        strength_at osc fast slow (macd_line m) (signal_line m)
          oversold overbought t /\
      nth t divergence None = divergence_at close osc t.
Proof.
  intros He Hc Hr Hf Hs Hm Lclose n osc fast slow m.
  unfold rsi_signal. rewrite He, Hc. cbn [bind].
  rewrite Hr. cbn [bind]. rewrite Hf. cbn [bind]. rewrite Hs. cbn [bind].
  rewrite Hm. cbn [bind].
  fold n. fold osc. fold fast. fold slow.
  change (if (List.length (macd_line macd_df) =? 0)%nat then _ else _) with m.
  cbv zeta.
  pose proof (reindex_length n rsi_series) as Losc.
  pose proof (reindex_length n fast_series) as Lfast.
  pose proof (reindex_length n slow_series) as Lslow.
  destruct (aligned_macd_lengths n macd_df) as [Lline Lsig].
  fold osc in Losc. fold fast in Lfast. fold slow in Lslow. fold m in Lline, Lsig.
  fold n in Lclose.
  do 3 eexists. split; [reflexivity|].
  unfold get_text, set_col. cbn [columns].
  repeat match goal with |- _ /\ _ => split end;
    try (repeat (rewrite lookup_assign_other by discriminate);
         rewrite lookup_assign_same; reflexivity).
  - unfold loc_set, mask_and. column_length.
  - unfold loc_set, mask_and. column_length.
  - intros t Ht. unfold loc_set, mask_and. split.
    + repeat (rewrite (map2_nth _ _ _ t false None) by in_range n Ht).
      repeat (rewrite (map2_nth _ _ _ t false false) by in_range n Ht).
      repeat (rewrite (map2_nth _ _ _ t None None) by in_range n Ht).
      repeat (rewrite (map_nth_in _ _ t None) by in_range n Ht).
      repeat (rewrite shift_nth by in_range n Ht).
      rewrite nth_repeat_lt by lia.
      reflexivity.
    + repeat (rewrite (map2_nth _ _ _ t false None) by in_range n Ht).
      repeat (rewrite (map2_nth _ _ _ t false false) by in_range n Ht).
      repeat (rewrite (map2_nth _ _ _ t None None) by in_range n Ht).
      repeat (rewrite shift_shift_nth by in_range n Ht).
      repeat (rewrite shift_nth by in_range n Ht).
      rewrite nth_repeat_lt by lia.
      reflexivity.
Qed.

End Annotations.

Lemma rising_at_rising (col : list (option Q)) (t : nat) :
  rising_at col t = true <-> rising col t.
Proof.
  unfold rising_at, rising. now rewrite andb_true_iff, !flt_below.
Qed.

Lemma falling_at_falling (col : list (option Q)) (t : nat) :
  falling_at col t = true <-> falling col t.
Proof.
  unfold falling_at, falling. now rewrite andb_true_iff, !flt_below.
Qed.

Lemma rising_not_falling (col : list (option Q)) (t : nat) :
  rising col t -> falling col t -> False.
Proof.
  intros [H _] [H' _]. exact (below_asym _ _ H H').
Qed.

Lemma select_divergence (pr pf xr xf : bool) (Pr Pf Xr Xf : Prop) :
  (pr = true <-> Pr) -> (pf = true <-> Pf) ->
  (xr = true <-> Xr) -> (xf = true <-> Xf) ->
  (Pr -> Pf -> False) ->
  let d := if pf && xr then Some "BULLISH"
           else if pr && xf then Some "BEARISH"
           else @None string in
  (d = Some "BEARISH" <-> Pr /\ Xf) /\
  (d = Some "BULLISH" <-> Pf /\ Xr) /\
  (d = None <-> ~ (Pr /\ Xf) /\ ~ (Pf /\ Xr)).
Proof.
  intros H1 H2 H3 H4 Hex.
  destruct pr, pf, xr, xf; cbn [andb]; intuition congruence.
Qed.

Lemma select_strength (bm sm um dm : bool) :
  let s := if sm && dm then Some "STRONG SELL"
           else if bm && um then Some "STRONG BUY"
           else if sm then Some "SELL"
           else if bm then Some "BUY"
           else Some "HOLD" in
  let g := if sm && dm then Some "BEARISH"
           else if bm && um then Some "BULLISH"
           else if sm then Some "SELL"
           else if bm then Some "BUY"
           else Some "NEUTRAL" in
  (s = Some "HOLD" /\ g = Some "NEUTRAL") \/
  (s = Some "BUY" /\ g = Some "BUY") \/
  (s = Some "SELL" /\ g = Some "SELL") \/
  (s = Some "STRONG BUY" /\ g = Some "BULLISH") \/
  (s = Some "STRONG SELL" /\ g = Some "BEARISH").
Proof.
  destruct bm, sm, um, dm; cbn [andb]; tauto.
Qed.

Lemma sorted_close_length (df : Frame) (close : list (option Q)) :
  get_float "close" (Strategy.sort_index df) = Ok close ->
  List.length close = List.length (index (Strategy.sort_index df)).
Proof.
  unfold get_float, Strategy.sort_index. cbn [columns index].
  rewrite lookup_sort_index.
  destruct (lookup "close" (columns df)) as [[v|v]|]; simpl; try discriminate.
  intros [= <-]. now rewrite !take_length.
Qed.

(** X15.  On a table that is not empty, whenever the deriver returns, the
    table it returns has a [signal] and a [signal_strength] column, and at
    every row the strength goes with the signal: NEUTRAL with HOLD, BUY with
    BUY, SELL with SELL, BULLISH with STRONG BUY and BEARISH with STRONG
    SELL. *)
Theorem strength_goes_with_signal {lib : Indicators} (df out : Frame)
    (period : Z) (oversold overbought : Q) (fast_period slow_period : Z) :
  frame_empty df = false ->
  rsi_signal df period oversold overbought fast_period slow_period = Ok out ->
  exists signal strength,
    get_text "signal" out = Some signal /\
    get_text "signal_strength" out = Some strength /\
    forall t, (t < List.length (index df))%nat ->
      (nth t signal None = Some "HOLD" /\ nth t strength None = Some "NEUTRAL") \/
      (nth t signal None = Some "BUY" /\ nth t strength None = Some "BUY") \/
      (nth t signal None = Some "SELL" /\ nth t strength None = Some "SELL") \/
      (nth t signal None = Some "STRONG BUY"
       /\ nth t strength None = Some "BULLISH") \/
      (nth t signal None = Some "STRONG SELL"
       /\ nth t strength None = Some "BEARISH").
Proof.
  intros He Hrun.
  destruct (rsi_signal_inv period oversold overbought fast_period slow_period
              df out Hrun) as [[He' _]|[_ Hcalls]]; [congruence|].
  destruct Hcalls as (close & rsi_series & fast_series & slow_series & macd_df
                      & Hc & Hr & Hf & Hs & Hm).
  pose proof (sorted_close_length _ _ Hc) as Hlen.
  destruct (rsi_signal_columns period oversold overbought fast_period slow_period
              df _ _ _ _ _ He Hc Hr Hf Hs Hm)
    as (out1 & signal & Hout & _ & _ & _ & _ & _ & _ & Hsignal & _ & Hrows).
  destruct (rsi_signal_annotations period oversold overbought fast_period
              slow_period df _ _ _ _ _ He Hc Hr Hf Hs Hm Hlen)
    as (out2 & strength & divergence & Hout' & Hstrength & _ & _ & _ & Hrows').
  rewrite Hrun in Hout, Hout'. injection Hout as <-. injection Hout' as <-.
  exists signal, strength. split; [exact Hsignal|]. split; [exact Hstrength|].
  intros t Ht. rewrite <- sort_index_rows in Ht.
  rewrite (Hrows t Ht). destruct (Hrows' t Ht) as [-> _].
  apply select_strength.
Qed.

Lemma strength_goes_with_signal_witness :
  exists signal strength,
    get_text "signal" Samples.base_out = Some signal /\
    get_text "signal_strength" Samples.base_out = Some strength /\
    (nth 1 signal None = Some "STRONG BUY" -> nth 1 strength None = Some "BULLISH").
Proof.
  destruct (strength_goes_with_signal (lib := Fixtures.fake_indicators)
              Fixtures.base_df Samples.base_out 14 30 70 12 26)
    as (signal & strength & Hs & Hst & Hrows).
  - reflexivity.
  - vm_compute. reflexivity.
  - exists signal, strength. split; [exact Hs|]. split; [exact Hst|].
    intros Hstrong.
    destruct (Hrows 1%nat) as [[H _]|[[H _]|[[H _]|[[_ H]|[H _]]]]];
      [cbv; lia|congruence..|exact H|congruence].
Defined.

(** X16.  On a table that is not empty, whenever the deriver returns, the
    oscillator call on the sorted [close] column returned, the [close] and
    [rsi] columns of the table it returns are that sorted column and that
    oscillator on the rows of the table, and at every row the [divergence]
    column is BEARISH exactly when the close rose twice in a row while the
    oscillator fell twice in a row, BULLISH exactly when the close fell
    twice while the oscillator rose twice, and missing otherwise; it is
    missing on the first two rows. *)
Theorem divergence_of_every_bar {lib : Indicators} (df out : Frame)
    (period : Z) (oversold overbought : Q) (fast_period slow_period : Z) :
  frame_empty df = false ->
  rsi_signal df period oversold overbought fast_period slow_period = Ok out ->
  exists price rsi_series divergence,
    get_float "close" (Strategy.sort_index df) = Ok price /\
    rsi price period = Ok rsi_series /\
    let osc := reindex (List.length (index df)) rsi_series in
    get_float "close" out = Ok price /\
    get_float "rsi" out = Ok osc /\
    get_text "divergence" out = Some divergence /\
    forall t, (t < List.length (index df))%nat ->
      (nth t divergence None = Some "BEARISH" <-> rising price t /\ falling osc t) /\
      (nth t divergence None = Some "BULLISH" <-> falling price t /\ rising osc t) /\
      (nth t divergence None = None <->
       ~ (rising price t /\ falling osc t) /\ ~ (falling price t /\ rising osc t)) /\
      ((t < 2)%nat -> nth t divergence None = None).
Proof.
  intros He Hrun.
  destruct (rsi_signal_inv period oversold overbought fast_period slow_period
              df out Hrun) as [[He' _]|[_ Hcalls]]; [congruence|].
  destruct Hcalls as (close & rsi_series & fast_series & slow_series & macd_df
                      & Hc & Hr & Hf & Hs & Hm).
  pose proof (sorted_close_length _ _ Hc) as Hlen.
  destruct (rsi_signal_columns period oversold overbought fast_period slow_period
              df _ _ _ _ _ He Hc Hr Hf Hs Hm)
    as (out1 & signal & Hout & _ & Hosc & _).
  destruct (rsi_signal_annotations period oversold overbought fast_period
              slow_period df _ _ _ _ _ He Hc Hr Hf Hs Hm Hlen)
    as (out2 & strength & divergence & Hout' & _ & Hdiv & _ & _ & Hrows).
  rewrite Hrun in Hout, Hout'. injection Hout as <-. injection Hout' as <-.
  destruct (rsi_signal_other_columns _ _ _ _ _ _ _ He Hrun) as [_ Hother].
  rewrite sort_index_rows in Hosc, Hrows.
  exists close, rsi_series, divergence.
  split; [exact Hc|]. split; [exact Hr|]. cbv zeta. split.
  { unfold get_float in Hc |- *. rewrite Hother; [exact Hc|].
    unfold added_columns. simpl. intuition discriminate. }
  split; [exact Hosc|]. split; [exact Hdiv|].
  intros t Ht.
  destruct (Hrows t Ht) as [_ ->]. unfold divergence_at.
  match goal with
  | |- context [rising_at ?p t && falling_at ?o t] =>
      destruct (select_divergence (rising_at p t) (falling_at p t)
                  (rising_at o t) (falling_at o t)
                  (rising p t) (falling p t) (rising o t) (falling o t)
                  (rising_at_rising p t) (falling_at_falling p t)
                  (rising_at_rising o t) (falling_at_falling o t)
                  (rising_not_falling p t)) as (H1 & H2 & H3)
  end.
  split; [exact H1|]. split; [exact H2|]. split; [exact H3|].
  intros Hsmall. apply H3.
  assert (Htwo : forall col, two_before col t = None).
  { intros col. destruct t as [|[|t]]; [reflexivity|reflexivity|lia]. }
  split.
  - intros [[_ (a & b & Ha & _)] _]. rewrite Htwo in Ha. discriminate Ha.
  - intros [[_ (a & b & _ & Hb & _)] _]. rewrite Htwo in Hb. discriminate Hb.
Qed.

Lemma divergence_of_every_bar_witness :
  exists divergence,
    get_float "rsi" Samples.base_out = Ok (Fixtures.floats [25; 80; 65; 60]) /\
    get_text "divergence" Samples.base_out = Some divergence /\
    nth 0 divergence None = None.
Proof.
  destruct (divergence_of_every_bar (lib := Fixtures.fake_indicators)
              Fixtures.base_df Samples.base_out 14 30 70 12 26)
    as (price & rsi_series & divergence & _ & Hr & _ & Hosc & Hd & Hrows).
  - reflexivity.
  - vm_compute. reflexivity.
  - exists divergence. split; [|split; [exact Hd|]].
    + injection Hr as <-. exact Hosc.
    + apply (Hrows 0%nat); cbv; lia.
Defined.

Import Indicator Library.

(** * Properties of the indicator library *)

Lemma ewm_from_length (alpha : Q) (minp : nat) (vals : list (option Q)) :
  forall w old_wt nobs,
    List.length (ewm_from alpha minp w old_wt nobs vals) = List.length vals.
Proof.
  induction vals as [|cur rest IH]; intros w old_wt nobs; simpl; [reflexivity|].
  now rewrite IH.
Qed.

Lemma ewm_from_run (alpha : Q) (minp : nat) (xs : list Q) :
  forall w nobs,
    ewm_from alpha minp (Some w) 1 nobs (map Some xs)
    = gate minp nobs (ewm_run alpha w xs).
Proof.
  induction xs as [|x xs IH]; intros w nobs; [reflexivity|].
  cbn [map ewm_from ewm_run gate]. now rewrite IH.
Qed.

Lemma ewm_run_length (alpha : Q) (xs : list Q) :
  forall w, List.length (ewm_run alpha w xs) = List.length xs.
Proof.
  induction xs as [|x xs IH]; intros w; simpl; [reflexivity|]. now rewrite IH.
Qed.

Lemma ewm_run_step (alpha : Q) (xs : list Q) :
  forall w t, (t < List.length xs)%nat ->
    nth t (ewm_run alpha w xs) 0
    == nth t (w :: ewm_run alpha w xs) 0
       + alpha * (nth t xs 0 - nth t (w :: ewm_run alpha w xs) 0).
Proof.
  induction xs as [|x xs IH]; intros w t Ht; simpl in Ht; [lia|].
  destruct t as [|t].
  - cbn [ewm_run nth]. field. lra.
  - cbn [ewm_run]. cbn [nth]. 
    apply (IH _ t). lia.
Qed.

Lemma ewm_run_lower (alpha lo : Q) (xs : list Q) :
  0 <= alpha -> alpha <= 1 ->
  forall w, lo <= w -> Forall (fun x => lo <= x) xs ->
    Forall (fun y => lo <= y) (ewm_run alpha w xs).
Proof.
  intros H0 H1. induction xs as [|x xs IH]; intros w Hw Hxs; [constructor|].
  inversion Hxs as [|? ? Hx Hxs']; subst.
  assert (Hstep : lo <= (1 * (1 - alpha) * w + alpha * x) / (1 * (1 - alpha) + alpha)).
  { setoid_replace ((1 * (1 - alpha) * w + alpha * x) / (1 * (1 - alpha) + alpha))
      with ((1 - alpha) * w + alpha * x) by (field; lra).
    nra. }
  cbn [ewm_run]. constructor; [exact Hstep|]. apply IH; assumption.
Qed.

Lemma ewm_run_upper (alpha hi : Q) (xs : list Q) :
  0 <= alpha -> alpha <= 1 ->
  forall w, w <= hi -> Forall (fun x => x <= hi) xs ->
    Forall (fun y => y <= hi) (ewm_run alpha w xs).
Proof.
  intros H0 H1. induction xs as [|x xs IH]; intros w Hw Hxs; [constructor|].
  inversion Hxs as [|? ? Hx Hxs']; subst.
  assert (Hstep : (1 * (1 - alpha) * w + alpha * x) / (1 * (1 - alpha) + alpha) <= hi).
  { setoid_replace ((1 * (1 - alpha) * w + alpha * x) / (1 * (1 - alpha) + alpha))
      with ((1 - alpha) * w + alpha * x) by (field; lra).
    nra. }
  cbn [ewm_run]. constructor; [exact Hstep|]. apply IH; assumption.
Qed.

Lemma gate_open (minp nobs : nat) (ys : list Q) :
  (minp <= S nobs)%nat -> gate minp nobs ys = map Some ys.
Proof.
  revert nobs. induction ys as [|y ys IH]; intros nobs H; [reflexivity|].
  cbn [gate map]. destruct (Nat.leb_spec minp (S nobs)); [|lia].
  f_equal. apply IH. lia.
Qed.

Lemma gate_length (minp nobs : nat) (ys : list Q) :
  List.length (gate minp nobs ys) = List.length ys.
Proof.
  revert nobs. induction ys as [|y ys IH]; intros nobs; simpl; [reflexivity|].
  now rewrite IH.
Qed.

Lemma gate_nth (minp : nat) (ys : list Q) :
  forall nobs t, (t < List.length ys)%nat ->
    nth t (gate minp nobs ys) None
    = if (minp <=? nobs + S t)%nat then Some (nth t ys 0) else None.
Proof.
  induction ys as [|y ys IH]; intros nobs t Ht; simpl in Ht; [lia|].
  destruct t as [|t]; cbn [gate nth].
  - now replace (nobs + 1)%nat with (S nobs) by lia.
  - rewrite IH by lia. now replace (S nobs + S t)%nat with (nobs + S (S t))%nat by lia.
Qed.

Lemma span_alpha (length : Z) :
  (1 <= length)%Z ->
  0 < 2 / (inject_Z length + 1) /\ 2 / (inject_Z length + 1) <= 1.
Proof.
  intros H.
  assert (Hl : 1 <= inject_Z length).
  { change 1 with (inject_Z 1). rewrite <- Zle_Qle. exact H. }
  split.
  - apply Qlt_shift_div_l; lra.
  - apply Qle_shift_div_r; lra.
Qed.

Lemma ema_run (x : Q) (xs : list Q) (length : Z) :
  (1 <= length)%Z ->
  ema (map Some (x :: xs)) length
  = Ok (map Some (x :: ewm_run (2 / (inject_Z length + 1)) x xs)).
Proof.
  intros H. unfold ema. destruct (Z.ltb_spec length 1); [lia|].
  unfold ewm_mean. cbn [map ewm_from Nat.max Nat.leb].
  rewrite ewm_from_run, gate_open by lia. reflexivity.
Qed.

(** ** The moving average *)

Lemma ema_empty (length : Z) : (1 <= length)%Z -> ema [] length = Ok [].
Proof.
  intros H. unfold ema. destruct (Z.ltb_spec length 1); [lia|reflexivity].
Qed.

(** X17.  For a span of at least 1 and a series without a NaN, the moving
    average has one value per row, starts at the first value of the series,
    and moves at every row by the fraction alpha = 2 / (span + 1) of the
    distance to the new value: y(t+1) = y(t) + alpha * (x(t+1) - y(t)). *)
Theorem ema_follows_the_recurrence (x : Q) (xs : list Q) (length : Z) :
  (1 <= length)%Z ->
  let alpha := 2 / (inject_Z length + 1) in
  exists ys,
    ema (map Some (x :: xs)) length = Ok (map Some ys) /\
    List.length ys = S (List.length xs) /\
    nth 0 ys 0 = x /\
    forall t, (t < List.length xs)%nat ->
      nth (S t) ys 0 == nth t ys 0 + alpha * (nth t xs 0 - nth t ys 0).
Proof.
  intros H alpha. exists (x :: ewm_run alpha x xs).
  split; [apply ema_run; exact H|].
  split; [cbn [List.length]; now rewrite ewm_run_length|].
  split; [reflexivity|].
  intros t Ht. cbn [nth]. now apply ewm_run_step.
Qed.

Lemma ema_follows_the_recurrence_witness :
  exists ys,
    ema (map Some [1; 2; 3]) 3 = Ok (map Some ys) /\ nth 0 ys 0 = 1.
Proof.
  destruct (ema_follows_the_recurrence 1 [2; 3] 3) as (ys & H & _ & H0 & _).
  - lia.
  - exists ys. split; assumption.
Defined.

Lemma Forall_and {A} (P R : A -> Prop) (l : list A) :
  Forall P l -> Forall R l -> Forall (fun a => P a /\ R a) l.
Proof.
  intros HP HR. induction HP; inversion HR; subst; constructor; auto.
Qed.



(** ** The oscillator *)

Lemma diff_tail (xs : list Q) :
  forall x,
    map2 fsub (map Some xs) (removelast (Some x :: map Some xs))
    = map Some (deltas x xs).
Proof.
  induction xs as [|y xs IH]; intros x; [reflexivity|].
  change (map Some (y :: xs)) with (Some y :: map Some xs).
  change (removelast (Some x :: Some y :: map Some xs))
    with (Some x :: removelast (Some y :: map Some xs)).
  cbn [map2 deltas map]. now rewrite IH.
Qed.

Lemma diff_some (x : Q) (xs : list Q) :
  diff (map Some (x :: xs)) = None :: map Some (deltas x xs).
Proof.
  unfold diff, shift. cbn [map map2]. now rewrite diff_tail.
Qed.

Lemma deltas_length (xs : list Q) :
  forall x, List.length (deltas x xs) = List.length xs.
Proof.
  induction xs as [|y xs IH]; intros x; simpl; [reflexivity|]. now rewrite IH.
Qed.

Lemma gate_map (f : Q -> Q) (f' : option Q -> option Q) (minp : nat) (ys : list Q) :
  (forall a, f' (Some a) = Some (f a)) -> f' None = None ->
  forall nobs, map f' (gate minp nobs ys) = gate minp nobs (map f ys).
Proof.
  intros Hs Hn. induction ys as [|y ys IH]; intros nobs; [reflexivity|].
  cbn [gate map]. rewrite IH. now destruct (minp <=? S nobs)%nat; rewrite ?Hs, ?Hn.
Qed.

Lemma gate_map2 (f : Q -> Q -> Q) (minp : nat) (a : list Q) :
  forall b nobs,
    map2 (lift2 f) (gate minp nobs a) (gate minp nobs b)
    = gate minp nobs (map2 f a b).
Proof.
  induction a as [|x a IH]; intros [|y b] nobs; try reflexivity.
  cbn [gate map2]. rewrite IH. now destruct (minp <=? S nobs)%nat.
Qed.

Lemma ewm_start_length (alpha : Q) (xs : list Q) :
  List.length (ewm_start alpha xs) = List.length xs.
Proof.
  destruct xs as [|x xs]; [reflexivity|]. simpl. now rewrite ewm_run_length.
Qed.

Lemma ewm_start_lower (alpha lo : Q) (xs : list Q) :
  0 <= alpha -> alpha <= 1 ->
  Forall (fun x => lo <= x) xs -> Forall (fun y => lo <= y) (ewm_start alpha xs).
Proof.
  intros H0 H1 Hxs. destruct xs as [|x xs]; [constructor|].
  inversion Hxs; subst. cbn [ewm_start]. constructor; [assumption|].
  now apply ewm_run_lower.
Qed.

Lemma ewm_start_upper (alpha hi : Q) (xs : list Q) :
  0 <= alpha -> alpha <= 1 ->
  Forall (fun x => x <= hi) xs -> Forall (fun y => y <= hi) (ewm_start alpha xs).
Proof.
  intros H0 H1 Hxs. destruct xs as [|x xs]; [constructor|].
  inversion Hxs; subst. cbn [ewm_start]. constructor; [assumption|].
  now apply ewm_run_upper.
Qed.

Lemma ewm_mean_leading_nan (alpha : Q) (p : nat) (gs : list Q) :
  (1 <= p)%nat ->
  ewm_mean alpha p (None :: map Some gs) = None :: gate p 0 (ewm_start alpha gs).
Proof.
  intros Hp. unfold ewm_mean. replace (Nat.max p 1) with p by lia.
  cbn [ewm_from]. destruct (p <=? 0)%nat; f_equal.
  all: destruct gs as [|g gs]; [reflexivity|];
    cbn [map ewm_from ewm_start gate]; now rewrite ewm_from_run.
Qed.

Lemma period_alpha (period : Z) :
  (1 <= period)%Z ->
  ~ inject_Z period == 0 /\ 0 < 1 / inject_Z period /\ 1 / inject_Z period <= 1.
Proof.
  intros H.
  assert (Hl : 1 <= inject_Z period).
  { change 1 with (inject_Z 1). rewrite <- Zle_Qle. exact H. }
  split; [lra|]. split.
  - apply Qlt_shift_div_l; lra.
  - apply Qle_shift_div_r; lra.
Qed.

Lemma rsi_run (x : Q) (xs : list Q) (period : Z) :
  (1 <= period)%Z ->
  let alpha := 1 / inject_Z period in
  let ds := deltas x xs in
  let avg_gain := ewm_start alpha (map (clip_lower 0) ds) in
  let avg_loss := ewm_start alpha (map (fun d => - clip_upper 0 d) ds) in
  rsi (map Some (x :: xs)) period
  = Ok (None :: gate (Z.to_nat period) 0
          (map (fun r => 100 - 100 / (1 + r))
             (map2 Qdiv avg_gain (map (replace 0 (1 # 10000000000)) avg_loss)))).
Proof.
  intros H alpha ds avg_gain avg_loss.
  destruct (period_alpha period H) as (Hz & Ha0 & Ha1).
  unfold rsi. rewrite diff_some. fold ds.
  rewrite (py_div_ok 1 (inject_Z period) Hz). cbn [bind]. fold alpha.
  assert (E1 : Qle_bool alpha 0 = false) by now apply Qle_bool_false.
  assert (E2 : Qlt_bool 1 alpha = false) by now apply Qlt_bool_false.
  rewrite E1, E2. cbn [orb]. unfold ret. f_equal.
  cbn [map option_map]. rewrite !map_map.
  change (map (fun d => option_map (clip_lower 0) (Some d)) ds)
    with (map (fun d => Some (clip_lower 0 d)) ds).
  change (map (fun d => option_map (fun d0 => - clip_upper 0 d0) (Some d)) ds)
    with (map (fun d => Some (- clip_upper 0 d)) ds).
  rewrite <- (map_map (clip_lower 0) Some), <- (map_map (fun d => - clip_upper 0 d) Some).
  rewrite !ewm_mean_leading_nan by lia.
  fold avg_gain. fold avg_loss.
  cbn [map option_map map2 fdiv lift2 fsub fadd]. f_equal.
  rewrite (gate_map (replace 0 (1 # 10000000000))) by reflexivity.
  unfold fdiv. rewrite gate_map2.
  now rewrite (gate_map (fun r => 100 - 100 / (1 + r))) by reflexivity.
Qed.

Lemma clip_lower_nonneg (d : Q) : 0 <= clip_lower 0 d.
Proof.
  unfold clip_lower. destruct (Qlt_bool d 0) eqn:E; [lra|].
  now apply Qlt_bool_false in E.
Qed.

Lemma clip_upper_nonneg (d : Q) : 0 <= - clip_upper 0 d.
Proof.
  unfold clip_upper. destruct (Qlt_bool 0 d) eqn:E; [lra|].
  apply Qlt_bool_false in E. lra.
Qed.

Lemma replace_zero_pos (l : Q) : 0 <= l -> 0 < replace 0 (1 # 10000000000) l.
Proof.
  intros H. unfold replace. destruct (Qeq_bool l 0) eqn:E; [reflexivity|].
  apply Qeq_bool_false in E. destruct (Qlt_le_dec 0 l) as [Hl|Hl]; [exact Hl|].
  exfalso. apply E. lra.
Qed.

Lemma index_range (g l : Q) :
  0 <= g -> 0 <= l ->
  0 <= 100 - 100 / (1 + g / replace 0 (1 # 10000000000) l) /\
  100 - 100 / (1 + g / replace 0 (1 # 10000000000) l) < 100.
Proof.
  intros Hg Hl. pose proof (replace_zero_pos l Hl) as Hr.
  set (r := replace 0 (1 # 10000000000) l) in *.
  assert (Hq : 0 <= g / r) by (apply Qle_shift_div_l; lra).
  set (q := g / r) in *.
  assert (H1 : 0 < 100 / (1 + q)) by (apply Qlt_shift_div_l; lra).
  assert (H2 : 100 / (1 + q) <= 100) by (apply Qle_shift_div_r; nra).
  lra.
Qed.

Lemma index_zero (g l : Q) :
  g == 0 -> 0 <= l -> 100 - 100 / (1 + g / replace 0 (1 # 10000000000) l) == 0.
Proof.
  intros Hg Hl. pose proof (replace_zero_pos l Hl) as Hr.
  rewrite Hg. field. lra.
Qed.

Lemma Forall_map_all {A B} (P : B -> Prop) (f : A -> B) (l : list A) :
  (forall a, P (f a)) -> Forall P (map f l).
Proof.
  intros H. induction l; simpl; constructor; auto.
Qed.

Lemma rsi_empty (period : Z) : (1 <= period)%Z -> rsi [] period = Ok [].
Proof.
  intros H. destruct (period_alpha period H) as (Hz & Ha0 & Ha1).
  unfold rsi. rewrite (py_div_ok 1 (inject_Z period) Hz). cbn [bind].
  assert (E1 : Qle_bool (1 / inject_Z period) 0 = false) by now apply Qle_bool_false.
  assert (E2 : Qlt_bool 1 (1 / inject_Z period) = false) by now apply Qlt_bool_false.
  rewrite E1, E2. reflexivity.
Qed.

Lemma rsi_rows (x : Q) (xs : list Q) (period : Z) :
  (1 <= period)%Z ->
  let alpha := 1 / inject_Z period in
  let avg_gain := ewm_start alpha (map (clip_lower 0) (deltas x xs)) in
  let avg_loss := ewm_start alpha (map (fun d => - clip_upper 0 d) (deltas x xs)) in
  exists out,
    rsi (map Some (x :: xs)) period = Ok out /\
    List.length out = S (List.length xs) /\
    nth 0 out None = None /\
    Forall (fun g => 0 <= g) avg_gain /\
    Forall (fun l => 0 <= l) avg_loss /\
    List.length avg_gain = List.length xs /\
    List.length avg_loss = List.length xs /\
    forall t, (t < List.length xs)%nat ->
      nth (S t) out None =
      if (Z.to_nat period <=? S t)%nat then
        Some (100 - 100 / (1 + nth t avg_gain 0
                               / replace 0 (1 # 10000000000) (nth t avg_loss 0)))
      else None.
Proof.
  intros H alpha avg_gain avg_loss.
  destruct (period_alpha period H) as (Hz & Ha0 & Ha1). fold alpha in Ha0, Ha1.
  assert (Lg : List.length avg_gain = List.length xs).
  { unfold avg_gain. now rewrite ewm_start_length, length_map, deltas_length. }
  assert (Ll : List.length avg_loss = List.length xs).
  { unfold avg_loss. now rewrite ewm_start_length, length_map, deltas_length. }
  eexists. split; [apply rsi_run; exact H|].
  fold alpha. fold avg_gain. fold avg_loss.
  assert (Lr : List.length (map2 Qdiv avg_gain
                 (map (replace 0 (1 # 10000000000)) avg_loss)) = List.length xs).
  { apply map2_length; [exact Lg|now rewrite length_map]. }
  split; [cbn [List.length]; now rewrite gate_length, length_map, Lr|].
  split; [reflexivity|].
  split; [apply ewm_start_lower; try lra; apply Forall_map_all, clip_lower_nonneg|].
  split; [apply ewm_start_lower; try lra;
          apply (Forall_map_all (fun l => 0 <= l)), clip_upper_nonneg|].
  split; [exact Lg|]. split; [exact Ll|].
  intros t Ht. cbn [nth]. rewrite gate_nth by (rewrite length_map, Lr; exact Ht).
  cbn [Nat.add]. destruct (Z.to_nat period <=? S t)%nat; [|reflexivity].
  f_equal.
  rewrite (map_nth_in (fun r => 100 - 100 / (1 + r)) _ t 0 0) by (rewrite Lr; exact Ht).
  rewrite (map2_nth Qdiv _ _ t 0 0 0) by (rewrite ?length_map; lia).
  now rewrite (map_nth_in (replace 0 (1 # 10000000000)) _ t 0 0) by lia.
Qed.

(** X19.  For a period of at least 1 and a series without a NaN, the
    oscillator is returned with one value per row; it has no value on the
    rows before row number period, and a value that is at least 0 and at
    most 100 on every row from there on. *)
Theorem rsi_range_and_warm_up (prices : list Q) (period : Z) :
  (1 <= period)%Z ->
  exists out,
    rsi (map Some prices) period = Ok out /\
    List.length out = List.length prices /\
    forall t, (t < List.length prices)%nat ->
      ((t < Z.to_nat period)%nat -> nth t out None = None) /\
      ((Z.to_nat period <= t)%nat ->
       exists v, nth t out None = Some v /\ 0 <= v /\ v <= 100).
Proof.
  intros H. destruct prices as [|x xs].
  - exists []. split; [now apply rsi_empty|]. split; [reflexivity|].
    simpl. intros t Ht. lia.
  - destruct (rsi_rows x xs period H)
      as (out & Hr & Hlen & H0 & Hg & Hl & Lg & Ll & Hrow).
    exists out. split; [exact Hr|]. split; [exact Hlen|].
    intros [|t] Ht; (split; [intros Hw|intros Hp]).
    + exact H0.
    + lia.
    + rewrite Hrow by (simpl in Ht; lia).
      destruct (Nat.leb_spec (Z.to_nat period) (S t)); [lia|reflexivity].
    + rewrite Hrow by (simpl in Ht; lia).
      destruct (Nat.leb_spec (Z.to_nat period) (S t)); [|lia].
      eexists. split; [reflexivity|]. simpl in Ht.
      match goal with
      | |- 0 <= 100 - 100 / (1 + ?g / replace _ _ ?l) /\ _ =>
          destruct (index_range g l) as [R1 R2]
      end.
      * apply (proj1 (Forall_nth _ _) Hg). lia.
      * apply (proj1 (Forall_nth _ _) Hl). lia.
      * split; [exact R1|apply Qlt_le_weak; exact R2].
Qed.

Lemma rsi_range_and_warm_up_witness :
  exists out,
    rsi (map Some [44; 45; 43; 46; 47]) 3 = Ok out /\ List.length out = 5%nat.
Proof.
  destruct (rsi_range_and_warm_up [44; 45; 43; 46; 47] 3) as (out & H & Hl & _).
  - lia.
  - exists out. split; assumption.
Defined.

Lemma rsi_below_one (series : list (option Q)) (period : Z) :
  (period < 1)%Z ->
  rsi series period
  = Raise (if (period =? 0)%Z then ZeroDivisionError
           else ValueError "alpha must satisfy: 0 < alpha <= 1").
Proof.
  intros H. unfold rsi. destruct (Z.eqb_spec period 0) as [->|Hne].
  - reflexivity.
  - assert (Hn : inject_Z period <= -1).
    { change (-1) with (inject_Z (-1)). rewrite <- Zle_Qle. lia. }
    rewrite py_div_ok by lra. cbn [bind].
    assert (E : Qle_bool (1 / inject_Z period) 0 = true).
    { apply Qle_bool_iff.
      assert (0 < 1 / - inject_Z period) by (apply Qlt_shift_div_l; lra).
      setoid_replace (1 / inject_Z period) with (- (1 / - inject_Z period))
        by (field; lra).
      lra. }
    now rewrite E.
Qed.

(** X20.  With a period below 1 the oscillator raises, whatever the series:
    ZeroDivisionError for the period 0 (from 1 / period), ValueError for a
    negative period (the smoothing factor is out of range). *)
Theorem rsi_rejects_periods_below_one (series : list (option Q)) (period : Z) :
  (period < 1)%Z ->
  rsi series period
  = Raise (if (period =? 0)%Z then ZeroDivisionError
           else ValueError "alpha must satisfy: 0 < alpha <= 1").
Proof.
  apply rsi_below_one.
Qed.

Lemma rsi_rejects_periods_below_one_witness :
  rsi (map Some [44; 45; 43]) 0 = Raise ZeroDivisionError.
Proof.
  apply (rsi_rejects_periods_below_one (map Some [44; 45; 43]) 0). lia.
Defined.

Lemma deltas_flat (c : Q) (k : nat) :
  Forall (fun d => d == 0) (deltas c (repeat c k)).
Proof.
  induction k as [|k IH]; simpl; constructor; [ring|exact IH].
Qed.

Lemma flat_gain (c : Q) (k : nat) (alpha : Q) :
  0 <= alpha -> alpha <= 1 ->
  Forall (fun g => g <= 0)
    (ewm_start alpha (map (clip_lower 0) (deltas c (repeat c k)))).
Proof.
  intros H0 H1. apply ewm_start_upper; try assumption.
  apply Forall_forall. intros g Hin. apply in_map_iff in Hin.
  destruct Hin as [d [<- Hd]].
  pose proof (proj1 (Forall_forall _ _) (deltas_flat c k) d Hd) as Hd0.
  cbv beta in Hd0. unfold clip_lower. destruct (Qlt_bool d 0); lra.
Qed.

(** The oscillator of the library on a column without a NaN, row by row:
    no value before row [period], and a value from an average gain and an
    average loss from then on. *)
Lemma library_rsi_rows (prices : list Q) (period : Z)
    (series : list (option Q)) (t : nat) (v : Q) :
  (1 <= period)%Z ->
  rsi (map Some prices) period = Ok series ->
  nth t series None = Some v ->
  (Z.to_nat period <= t)%nat /\
  exists x xs k, prices = x :: xs /\ t = S k /\ (k < List.length xs)%nat /\
    let alpha := 1 / inject_Z period in
    let avg_gain := ewm_start alpha (map (clip_lower 0) (deltas x xs)) in
    let avg_loss := ewm_start alpha (map (fun d => - clip_upper 0 d) (deltas x xs)) in
    0 <= nth k avg_gain 0 /\ 0 <= nth k avg_loss 0 /\
    v = 100 - 100 / (1 + nth k avg_gain 0
                         / replace 0 (1 # 10000000000) (nth k avg_loss 0)).
Proof.
  intros H Hs Hv. destruct prices as [|x xs].
  - rewrite rsi_empty in Hs by exact H. injection Hs as <-. now destruct t.
  - destruct (rsi_rows x xs period H)
      as (out & Hr & Hlen & H0 & Hg & Hl & Lg & Ll & Hrow).
    rewrite Hr in Hs. injection Hs as <-.
    destruct t as [|k]; [congruence|].
    destruct (Nat.lt_ge_cases k (List.length xs)) as [Hk|Hk].
    + rewrite Hrow in Hv by exact Hk.
      destruct (Nat.leb_spec (Z.to_nat period) (S k)); [|discriminate].
      split; [assumption|]. exists x, xs, k. repeat split; try assumption.
      * apply (proj1 (Forall_nth _ _) Hg). lia.
      * apply (proj1 (Forall_nth _ _) Hl). lia.
      * congruence.
    + rewrite nth_overflow in Hv by lia. discriminate.
Qed.

(** X21.  On a series that stays at one price, with a period of at least 1,
    the oscillator is 0 on every row from row number period on (the average
    loss 0 is replaced by 1e-10 and the average gain is 0). *)
Theorem rsi_of_flat_prices_is_zero (c : Q) (n : nat) (period : Z) :
  (1 <= period)%Z ->
  exists out,
    rsi (repeat (Some c) n) period = Ok out /\
    List.length out = n /\
    forall t, (Z.to_nat period <= t)%nat -> (t < n)%nat ->
      exists v, nth t out None = Some v /\ v == 0.
Proof.
  intros H. rewrite <- map_repeat. destruct n as [|k].
  - exists []. split; [now apply rsi_empty|]. split; [reflexivity|]. intros; lia.
  - cbn [repeat].
    destruct (rsi_rows c (repeat c k) period H)
      as (out & Hr & Hlen & H0 & Hg & Hl & Lg & Ll & Hrow).
    destruct (period_alpha period H) as (Hz & Ha0 & Ha1).
    rewrite repeat_length in *.
    exists out. split; [exact Hr|]. split; [exact Hlen|].
    intros [|t] Hp Ht; [lia|].
    rewrite Hrow by lia.
    destruct (Nat.leb_spec (Z.to_nat period) (S t)); [|lia].
    eexists. split; [reflexivity|].
    apply index_zero.
    + pose proof (flat_gain c k (1 / inject_Z period) ltac:(lra) Ha1) as Hup.
      pose proof (proj1 (Forall_nth _ _) Hg t 0) as G1.
      pose proof (proj1 (Forall_nth _ _) Hup t 0) as G2.
      cbv beta in G1, G2. specialize (G1 ltac:(lia)). specialize (G2 ltac:(lia)). lra.
    + apply (proj1 (Forall_nth _ _) Hl). lia.
Qed.

Lemma rsi_of_flat_prices_is_zero_witness :
  exists out, rsi (repeat (Some 100) 5) 2 = Ok out /\ List.length out = 5%nat.
Proof.
  destruct (rsi_of_flat_prices_is_zero 100 5 2) as (out & H & Hl & _).
  - lia.
  - exists out. split; assumption.
Defined.

(** ** The convergence/divergence table *)

Lemma map2_some (f : Q -> Q -> Q) (a : list Q) :
  forall b, map2 (lift2 f) (map Some a) (map Some b) = map Some (map2 f a b).
Proof.
  induction a as [|x a IH]; intros [|y b]; try reflexivity.
  cbn [map map2 lift2]. now rewrite IH.
Qed.

Lemma ema_start (xs : list Q) (length : Z) :
  (1 <= length)%Z ->
  ema (map Some xs) length
  = Ok (map Some (ewm_start (2 / (inject_Z length + 1)) xs)).
Proof.
  intros H. destruct xs as [|x xs]; [now apply ema_empty|now apply ema_run].
Qed.

Lemma macd_run (xs : list Q) (fast slow signal : Z) :
  (1 <= fast)%Z -> (1 <= slow)%Z -> (1 <= signal)%Z ->
  let line := map2 Qminus (ewm_start (2 / (inject_Z fast + 1)) xs)
                          (ewm_start (2 / (inject_Z slow + 1)) xs) in
  let sig := ewm_start (2 / (inject_Z signal + 1)) line in
  Indicator.macd (map Some xs) fast slow signal
  = Ok {| macd_line := map Some line;
          signal_line := map Some sig;
          histogram := map Some (map2 Qminus line sig) |}.
Proof.
  intros H1 H2 H3 line sig. unfold Indicator.macd.
  rewrite !ema_start by assumption. cbn [bind].
  unfold fsub. rewrite map2_some. fold line.
  rewrite ema_start by assumption. cbn [bind]. fold sig.
  now rewrite map2_some.
Qed.

Lemma ewm_start_flat (alpha c : Q) (xs : list Q) :
  0 <= alpha -> alpha <= 1 ->
  Forall (fun x => x == c) xs -> Forall (fun y => y == c) (ewm_start alpha xs).
Proof.
  intros H0 H1 Hxs.
  assert (Hlo : Forall (fun y => c <= y) (ewm_start alpha xs)).
  { apply ewm_start_lower; try assumption.
    eapply Forall_impl; [|exact Hxs]. cbv beta. intros; lra. }
  assert (Hhi : Forall (fun y => y <= c) (ewm_start alpha xs)).
  { apply ewm_start_upper; try assumption.
    eapply Forall_impl; [|exact Hxs]. cbv beta. intros; lra. }
  eapply Forall_impl; [|exact (Forall_and _ _ _ Hlo Hhi)].
  cbv beta. intros; lra.
Qed.

Lemma map2_minus_flat (a b : list Q) (c : Q) :
  Forall (fun x => x == c) a -> Forall (fun x => x == c) b ->
  Forall (fun d => d == 0) (map2 Qminus a b).
Proof.
  intros Ha. revert b. induction Ha as [|x a Hx Ha IH]; intros b Hb; [constructor|].
  destruct Hb as [|y b Hy Hb]; [constructor|].
  cbn [map2]. constructor; [lra|]. now apply IH.
Qed.

(** X23.  On a series that stays at one price, with spans of at least 1, the
    three columns of the convergence/divergence table (line, signal line,
    histogram) are defined and 0 on every row. *)
Theorem macd_of_flat_prices_is_zero (c : Q) (n : nat) (fast slow signal : Z) :
  (1 <= fast)%Z -> (1 <= slow)%Z -> (1 <= signal)%Z ->
  exists m,
    Indicator.macd (repeat (Some c) n) fast slow signal = Ok m /\
    forall t, (t < n)%nat ->
      exists a b h,
        nth t (macd_line m) None = Some a /\ a == 0 /\
        nth t (signal_line m) None = Some b /\ b == 0 /\
        nth t (histogram m) None = Some h /\ h == 0.
Proof.
  intros H1 H2 H3. rewrite <- map_repeat.
  eexists. split; [apply macd_run; assumption|].
  destruct (span_alpha fast H1) as [Hf0 Hf1].
  destruct (span_alpha slow H2) as [Hs0 Hs1].
  destruct (span_alpha signal H3) as [Hg0 Hg1].
  assert (Hc : Forall (fun x => x == c) (repeat c n)).
  { apply Forall_forall. intros x Hx. apply repeat_spec in Hx. now subst. }
  set (line := map2 Qminus (ewm_start (2 / (inject_Z fast + 1)) (repeat c n))
                           (ewm_start (2 / (inject_Z slow + 1)) (repeat c n))).
  set (sig := ewm_start (2 / (inject_Z signal + 1)) line).
  assert (Hline : Forall (fun d => d == 0) line).
  { apply (map2_minus_flat _ _ c); apply ewm_start_flat; try lra; exact Hc. }
  assert (Hsig : Forall (fun d => d == 0) sig).
  { apply ewm_start_flat; try lra. exact Hline. }
  assert (Hhist : Forall (fun d => d == 0) (map2 Qminus line sig)).
  { apply (map2_minus_flat _ _ 0); assumption. }
  assert (Lline : List.length line = n).
  { apply map2_length; now rewrite ewm_start_length, repeat_length. }
  assert (Lsig : List.length sig = n) by (unfold sig; now rewrite ewm_start_length).
  assert (Lhist : List.length (map2 Qminus line sig) = n) by now apply map2_length.
  intros t Ht. cbn [macd_line signal_line histogram].
  exists (nth t line 0), (nth t sig 0), (nth t (map2 Qminus line sig) 0).
  split; [apply map_nth_in; lia|].
  split; [apply (proj1 (Forall_nth _ _) Hline); lia|].
  split; [apply map_nth_in; lia|].
  split; [apply (proj1 (Forall_nth _ _) Hsig); lia|].
  split; [apply map_nth_in; lia|].
  apply (proj1 (Forall_nth _ _) Hhist); lia.
Qed.

Lemma macd_of_flat_prices_is_zero_witness :
  exists m, Indicator.macd (repeat (Some 5) 3) 12 26 9 = Ok m.
Proof.
  destruct (macd_of_flat_prices_is_zero 5 3 12 26 9) as (m & Hm & _); try lia.
  exists m. exact Hm.
Defined.

(** ** The deriver on the library's indicators *)

Lemma reindex_nth (n : nat) (s : list (option Q)) (t : nat) :
  (t < n)%nat -> nth t (reindex n s) None = nth t s None.
Proof.
  intros H. unfold reindex.
  rewrite (map_nth_in (fun i => nth i s None) _ t 0%nat None)
    by (now rewrite length_seq).
  now rewrite seq_nth.
Qed.

Lemma at_row_reindex (n : nat) (s : list (option Q)) (t : nat) (v : Q) :
  at_row (reindex n s) t = Some v -> nth t s None = Some v.
Proof.
  unfold at_row. intros H. destruct (Nat.lt_ge_cases t n) as [Ht|Ht].
  - now rewrite reindex_nth in H.
  - rewrite nth_overflow in H by (now rewrite reindex_length). discriminate.
Qed.

Lemma before_row_reindex (n : nat) (s : list (option Q)) (t : nat) (v : Q) :
  before_row (reindex n s) t = Some v ->
  exists k, t = S k /\ nth k s None = Some v.
Proof.
  destruct t as [|k]; [discriminate|]. cbn [before_row]. intros H.
  exists k. split; [reflexivity|]. now apply (at_row_reindex n).
Qed.

Lemma library_rsi_flat (c : Q) (m : nat) (period : Z)
    (series : list (option Q)) (t : nat) (v : Q) :
  (1 <= period)%Z ->
  Indicator.rsi (repeat (Some c) m) period = Ok series ->
  nth t series None = Some v ->
  v == 0.
Proof.
  intros H Hs Hv. rewrite <- map_repeat in Hs.
  destruct (library_rsi_rows _ _ _ _ _ H Hs Hv)
    as (_ & x & xs & k & Hp & -> & Hk & Hg & Hl & ->).
  destruct (period_alpha period H) as (Hz & Ha0 & Ha1).
  destruct m as [|m]; [discriminate|]. cbn [repeat] in Hp.
  injection Hp as <- <-. rewrite repeat_length in Hk.
  apply index_zero; [|exact Hl].
  pose proof (flat_gain c m (1 / inject_Z period) ltac:(lra) Ha1) as Hup.
  pose proof (proj1 (Forall_nth _ _) Hup k 0) as G2. cbv beta in G2.
  rewrite ewm_start_length, length_map, deltas_length, repeat_length in G2.
  specialize (G2 Hk). lra.
Qed.

(** With periods of at least 1, the three indicators of the library return
    on a column without a NaN. *)
Lemma library_returns (prices : list Q) (period fast_period slow_period : Z) :
  (1 <= period)%Z -> (1 <= fast_period)%Z -> (1 <= slow_period)%Z ->
  exists rsi_series fast_series slow_series macd_df,
    Indicator.rsi (map Some prices) period = Ok rsi_series /\
    Indicator.ema (map Some prices) fast_period = Ok fast_series /\
    Indicator.ema (map Some prices) slow_period = Ok slow_series /\
    Indicator.macd (map Some prices) fast_period slow_period 9 = Ok macd_df.
Proof.
  intros Hp Hf Hs.
  assert (Hr : exists series, Indicator.rsi (map Some prices) period = Ok series).
  { destruct prices as [|x xs].
    - exists []. now apply rsi_empty.
    - destruct (rsi_rows x xs period Hp) as (out & Hr & _). eauto. }
  destruct Hr as (series & Hr).
  do 4 eexists. split; [exact Hr|].
  split; [now apply ema_start|]. split; [now apply ema_start|].
  apply macd_run; [assumption|assumption|lia].
Qed.

Section LibraryDeriver.

Variables (df : Frame) (prices : list Q) (period : Z) (oversold overbought : Q)
  (fast_period slow_period : Z).

Hypothesis not_empty : frame_empty df = false.
Hypothesis close_column : get_float "close" (sort_index df) = Ok (map Some prices).
Hypothesis valid_period : (1 <= period)%Z.
Hypothesis valid_fast : (1 <= fast_period)%Z.
Hypothesis valid_slow : (1 <= slow_period)%Z.

Lemma library_signal_at :
  let n := List.length (index (sort_index df)) in
  exists out signal rsi_series fast slow line sig,
    rsi_signal (lib := library) df period oversold overbought
      fast_period slow_period = Ok out /\
    Indicator.rsi (map Some prices) period = Ok rsi_series /\
    index out = index (sort_index df) /\
    get_text "signal" out = Some signal /\
    List.length signal = n /\
    forall t, (t < n)%nat ->
      nth t signal None
      = signal_at (reindex n rsi_series) fast slow line sig oversold overbought t.
Proof.
  intros n.
  destruct (library_returns prices period fast_period slow_period
              valid_period valid_fast valid_slow)
    as (rsi_series & fast_series & slow_series & macd_df & Hr & Hf & Hs & Hm).
  destruct (rsi_signal_columns (lib := library) period oversold overbought
              fast_period slow_period df _ _ _ _ _ not_empty close_column
              Hr Hf Hs Hm)
    as (out & signal & Hrun & Hidx & _ & _ & _ & _ & _ & Hsig & Hlen & Hrows).
  exists out, signal, rsi_series. do 4 eexists.
  split; [exact Hrun|]. split; [exact Hr|]. split; [exact Hidx|].
  split; [exact Hsig|]. split; [exact Hlen|]. exact Hrows.
Qed.

End LibraryDeriver.

(** X24.  With the indicators of the library, periods of at least 1 and a
    close column without a NaN, the deriver returns and gives HOLD on every
    row up to and including row number period: before that the oscillator
    has no value on the row or on the row before it. *)
Theorem warm_up_rows_hold (df : Frame) (prices : list Q) (period : Z)
    (oversold overbought : Q) (fast_period slow_period : Z) :
  frame_empty df = false ->
  get_float "close" (sort_index df) = Ok (map Some prices) ->
  (1 <= period)%Z -> (1 <= fast_period)%Z -> (1 <= slow_period)%Z ->
  exists out signal,
    rsi_signal (lib := library) df period oversold overbought
      fast_period slow_period = Ok out /\
    get_text "signal" out = Some signal /\
    List.length signal = List.length (index out) /\
    forall t, (t < List.length signal)%nat -> (t <= Z.to_nat period)%nat ->
      nth t signal None = Some "HOLD".
Proof.
  intros He Hc Hp Hf Hs.
  destruct (library_signal_at df prices period oversold overbought fast_period
              slow_period He Hc Hp Hf Hs)
    as (out & signal & series & fast & slow & line & sig & Hrun & Hr & Hidx
        & Hsig & Hlen & Hrows).
  exists out, signal. split; [exact Hrun|]. split; [exact Hsig|].
  split; [now rewrite Hidx|].
  intros t Ht Hw. rewrite Hrows by lia.
  apply (signal_at_cases oversold overbought). split.
  - intros [(p & c & Hprev & Hcur & _) _].
    apply at_row_reindex in Hcur. apply before_row_reindex in Hprev.
    destruct Hprev as (k & -> & Hprev).
    apply (library_rsi_rows prices period series) in Hprev; [|exact Hp|exact Hr].
    lia.
  - intros [(p & c & Hprev & Hcur & _) _].
    apply at_row_reindex in Hcur. apply before_row_reindex in Hprev.
    destruct Hprev as (k & -> & Hprev).
    apply (library_rsi_rows prices period series) in Hprev; [|exact Hp|exact Hr].
    lia.
Qed.

Lemma warm_up_rows_hold_witness :
  exists out signal,
    rsi_signal (lib := library) Fixtures.base_df 2 30 70 12 26 = Ok out /\
    get_text "signal" out = Some signal /\
    List.length signal = List.length (index out).
Proof.
  destruct (warm_up_rows_hold Fixtures.base_df [100; 101; 102; 103] 2 30 70 12 26)
    as (out & signal & Hout & Hs & Hl & _); try reflexivity; try lia.
  exists out, signal. auto.
Defined.

(** X26.  With the indicators of the library, periods of at least 1 and a
    close column that stays at one price, the deriver returns and gives
    HOLD on every row, whatever the thresholds. *)
Theorem flat_prices_give_no_signal (df : Frame) (c : Q) (m : nat) (period : Z)
    (oversold overbought : Q) (fast_period slow_period : Z) :
  frame_empty df = false ->
  get_float "close" (sort_index df) = Ok (repeat (Some c) m) ->
  (1 <= period)%Z -> (1 <= fast_period)%Z -> (1 <= slow_period)%Z ->
  exists out signal,
    rsi_signal (lib := library) df period oversold overbought
      fast_period slow_period = Ok out /\
    get_text "signal" out = Some signal /\
    List.length signal = List.length (index out) /\
    forall t, (t < List.length signal)%nat -> nth t signal None = Some "HOLD".
Proof.
  intros He Hc Hp Hf Hs. rewrite <- map_repeat in Hc.
  destruct (library_signal_at df (repeat c m) period oversold overbought
              fast_period slow_period He Hc Hp Hf Hs)
    as (out & signal & series & fast & slow & line & sig & Hrun & Hr & Hidx
        & Hsig & Hlen & Hrows).
  rewrite map_repeat in Hr.
  exists out, signal. split; [exact Hrun|]. split; [exact Hsig|].
  split; [now rewrite Hidx|].
  intros t Ht. rewrite Hrows by lia.
  apply (signal_at_cases oversold overbought). split.
  - intros [(p & v & Hprev & Hcur & H1 & H2) _].
    apply at_row_reindex in Hcur. apply before_row_reindex in Hprev.
    destruct Hprev as (k & -> & Hprev).
    apply (library_rsi_flat c m period series) in Hprev; [|exact Hp|exact Hr].
    apply (library_rsi_flat c m period series) in Hcur; [|exact Hp|exact Hr].
    lra.
  - intros [(p & v & Hprev & Hcur & H1 & H2) _].
    apply at_row_reindex in Hcur. apply before_row_reindex in Hprev.
    destruct Hprev as (k & -> & Hprev).
    apply (library_rsi_flat c m period series) in Hprev; [|exact Hp|exact Hr].
    apply (library_rsi_flat c m period series) in Hcur; [|exact Hp|exact Hr].
    lra.
Qed.

Lemma flat_prices_give_no_signal_witness :
  exists out signal,
    rsi_signal (lib := library) Samples.flat_df 2 30 70 12 26 = Ok out /\
    get_text "signal" out = Some signal /\
    List.length signal = List.length (index out).
Proof.
  destruct (flat_prices_give_no_signal Samples.flat_df 100 4 2 30 70 12 26)
    as (out & signal & Hout & Hs & Hl & _); try reflexivity; try lia.
  exists out, signal. auto.
Defined.

(** X31.  With the indicators of the library and a period below 1, the
    deriver raises on every table that is not empty and has a [close] column
    of floats: ZeroDivisionError for the period 0, ValueError for a negative
    period, the exception of the oscillator call. *)
Theorem deriver_raises_on_a_rejected_period (df : Frame)
    (close : list (option Q)) (period : Z) (oversold overbought : Q)
    (fast_period slow_period : Z) :
  frame_empty df = false ->
  get_float "close" (sort_index df) = Ok close ->
  (period < 1)%Z ->
  rsi_signal (lib := library) df period oversold overbought
    fast_period slow_period
  = Raise (if (period =? 0)%Z then ZeroDivisionError
           else ValueError "alpha must satisfy: 0 < alpha <= 1").
Proof.
  intros He Hc Hp.
  apply (rsi_signal_raises (lib := library) period oversold overbought
           fast_period slow_period df close _ He Hc).
  exact (rsi_below_one close period Hp).
Qed.

Lemma deriver_raises_on_a_rejected_period_witness :
  rsi_signal (lib := library) Fixtures.base_df 0 30 70 12 26
  = Raise ZeroDivisionError.
Proof.
  apply (deriver_raises_on_a_rejected_period Fixtures.base_df
           (Fixtures.floats [100; 101; 102; 103]) 0 30 70 12 26).
  - reflexivity.
  - reflexivity.
  - lia.
Defined.

Import Candlestick Main.

(** * Properties of the candlestick patterns and of the trend check *)

(** ** Reading a column row by row *)

Lemma nth_error_map2 {A B C} (f : A -> B -> C) (l : list A) :
  forall (l' : list B) (t : nat),
    nth_error (map2 f l l') t =
    match nth_error l t, nth_error l' t with
    | Some a, Some b => Some (f a b)
    | _, _ => None
    end.
Proof.
  induction l as [|x l IH]; intros [|y l'] [|t]; cbn [map2 nth_error];
    try reflexivity.
  - now destruct (nth_error l t).
  - apply IH.
Qed.

Lemma nth_nth_error {A} (l : list A) (t : nat) (d : A) :
  nth t l d = match nth_error l t with Some x => x | None => d end.
Proof.
  revert t. induction l as [|x l IH]; intros [|t]; cbn [nth nth_error];
    try reflexivity. apply IH.
Qed.

Lemma nth_error_removelast {A} (l : list A) :
  forall t v, nth_error (removelast l) t = Some v -> nth_error l t = Some v.
Proof.
  induction l as [|x l IH]; intros t v H; [now destruct t|].
  destruct l as [|y l]; [now destruct t|].
  change (removelast (x :: y :: l)) with (x :: removelast (y :: l)) in H.
  destruct t as [|t]; [exact H|]. cbn [nth_error] in *. now apply IH.
Qed.

Lemma nth_error_shift {A} (s : list (option A)) (t : nat) (v : A) :
  nth_error (shift s) t = Some (Some v) ->
  exists k, t = S k /\ nth_error s k = Some (Some v).
Proof.
  unfold shift. destruct s as [|x s]; [now destruct t|].
  destruct t as [|k]; [discriminate|]. cbn [nth_error]. intros H.
  exists k. split; [reflexivity|]. now apply nth_error_removelast.
Qed.

Lemma flt_lt (x y : option Q) :
  flt x y = true -> exists a b, x = Some a /\ y = Some b /\ a < b.
Proof.
  destruct x as [a|], y as [b|]; try discriminate. cbn [flt]. intros H.
  apply Qlt_bool_iff in H. eauto.
Qed.

Lemma fle_le (x y : option Q) :
  fle x y = true -> exists a b, x = Some a /\ y = Some b /\ a <= b.
Proof.
  destruct x as [a|], y as [b|]; try discriminate. cbn [fle]. intros H.
  apply Qle_bool_iff in H. eauto.
Qed.

Lemma get_float_ok (name : string) (df : Frame) (A : Type)
    (k : list (option Q) -> result A) (a : A) :
  (v <- get_float name df ;; k v) = Ok a ->
  exists v, get_float name df = Ok v /\ k v = Ok a.
Proof.
  apply bind_ok.
Qed.

(** ** The candlestick patterns *)

(** X27.  Every mark of the engulfing detector is 1, -1 or 0. A mark 1 is on
    a rising candle that follows a falling one and whose body covers it
    (open <= previous close < previous open <= close); a mark -1 is on a
    falling candle that follows a rising one and whose body covers it; so
    the first row is never marked. *)
Theorem engulfing_marks_a_covering_candle (df : Frame) (out : list Z)
    (open close : list (option Q)) (t : nat) :
  detect_engulfing df = Ok out ->
  get_float "open" df = Ok open ->
  get_float "close" df = Ok close ->
  (nth t out 0%Z = 1%Z \/ nth t out 0%Z = (-1)%Z \/ nth t out 0%Z = 0%Z) /\
  (nth t out 0%Z = 1%Z ->
   exists k po pc o c,
     t = S k /\ nth_error open k = Some (Some po) /\
     nth_error close k = Some (Some pc) /\
     nth_error open t = Some (Some o) /\ nth_error close t = Some (Some c) /\
     o <= pc /\ pc < po /\ po <= c) /\
  (nth t out 0%Z = (-1)%Z ->
   exists k po pc o c,
     t = S k /\ nth_error open k = Some (Some po) /\
     nth_error close k = Some (Some pc) /\
     nth_error open t = Some (Some o) /\ nth_error close t = Some (Some c) /\
     c <= po /\ po < pc /\ pc <= o).
Proof.
  intros Hrun Ho Hc. unfold detect_engulfing in Hrun.
  rewrite Ho, Hc in Hrun. cbn [bind] in Hrun. injection Hrun as <-.
  rewrite nth_nth_error. unfold loc_set, mask_and.
  rewrite !nth_error_map2.
  destruct (nth_error open t) as [o|] eqn:Eo;
    destruct (nth_error close t) as [c|] eqn:Ec;
    destruct (nth_error (shift close) t) as [pc|] eqn:Epc;
    destruct (nth_error (shift open) t) as [po|] eqn:Epo;
    destruct (nth_error (repeat 0%Z (List.length (index df))) t) as [z|] eqn:Ez;
    cbv iota beta;
    try (split; [auto|split; discriminate]).
  apply nth_error_In, repeat_spec in Ez. subst z.
  destruct (flt c o && flt po pc && fle pc o && fle c po) eqn:Bear;
    [|destruct (flt o c && flt pc po && fle po c && fle o pc) eqn:Bull].
  - split; [auto|]. split; [discriminate|]. intros _.
    apply andb_true_iff in Bear. destruct Bear as [Bear B4].
    apply andb_true_iff in Bear. destruct Bear as [Bear B3].
    apply andb_true_iff in Bear. destruct Bear as [B1 B2].
    apply flt_lt in B1, B2. apply fle_le in B3, B4.
    destruct B1 as (c' & o' & -> & -> & H1).
    destruct B2 as (po' & pc' & -> & -> & H2).
    destruct B3 as (? & ? & [= <-] & [= <-] & H3).
    destruct B4 as (? & ? & [= <-] & [= <-] & H4).
    apply nth_error_shift in Epc, Epo.
    destruct Epc as (k & -> & Epc). destruct Epo as (k' & [= <-] & Epo).
    exists k, po', pc', o', c'. repeat split; try assumption; lra.
  - split; [auto|]. split; [|discriminate]. intros _.
    apply andb_true_iff in Bull. destruct Bull as [Bull B4].
    apply andb_true_iff in Bull. destruct Bull as [Bull B3].
    apply andb_true_iff in Bull. destruct Bull as [B1 B2].
    apply flt_lt in B1, B2. apply fle_le in B3, B4.
    destruct B1 as (o' & c' & -> & -> & H1).
    destruct B2 as (pc' & po' & -> & -> & H2).
    destruct B3 as (? & ? & [= <-] & [= <-] & H3).
    destruct B4 as (? & ? & [= <-] & [= <-] & H4).
    apply nth_error_shift in Epc, Epo.
    destruct Epc as (k & -> & Epc). destruct Epo as (k' & [= <-] & Epo).
    exists k, po', pc', o', c'. repeat split; try assumption; lra.
  - split; [auto|]. split; discriminate.
Qed.

Lemma engulfing_marks_a_covering_candle_witness :
  detect_engulfing Samples.candles = Ok [0; 1; 0]%Z /\
  exists k po pc o c,
    1%nat = S k /\
    nth_error (Fixtures.floats [105; 99; 100]) k = Some (Some po) /\
    nth_error (Fixtures.floats [100; 106; 101]) k = Some (Some pc) /\
    nth_error (Fixtures.floats [105; 99; 100]) 1 = Some (Some o) /\
    nth_error (Fixtures.floats [100; 106; 101]) 1 = Some (Some c) /\
    o <= pc /\ pc < po /\ po <= c.
Proof.
  split; [reflexivity|].
  apply (engulfing_marks_a_covering_candle Samples.candles [0; 1; 0]%Z
           (Fixtures.floats [105; 99; 100]) (Fixtures.floats [100; 106; 101]) 1);
    reflexivity.
Defined.

Lemma as_int_one (b : bool) : as_int b = 1%Z -> b = true.
Proof.
  now destruct b.
Qed.

(** The masks of the hammer and of the shooting star on one candle. *)
Lemma hammer_row (high low open close : list (option Q)) (r : Q) (t : nat) :
  let body := map fabs (map2 fsub close open) in
  let candle_range := map zero_to_nan (map2 fsub high low) in
  let upper_shadow := map2 fsub high (map2 row_max open close) in
  let lower_shadow := map2 fsub (map2 row_min open close) low in
  nth t (map as_int
           (mask_and (mask_and (mask_and
              (map2 fle (map (option_map (fun v => r * v)) body) lower_shadow)
              (map2 fle upper_shadow body))
              (map2 fle body (map (option_map (fun v => v * (3 # 10))) candle_range)))
              (map notna candle_range))) 0%Z = 1%Z ->
  exists h l o c,
    nth_error high t = Some (Some h) /\ nth_error low t = Some (Some l) /\
    nth_error open t = Some (Some o) /\ nth_error close t = Some (Some c) /\
    ~ h - l == 0 /\
    r * Qabs (c - o) <= (if Qle_bool o c then o else c) - l /\
    h - (if Qle_bool o c then c else o) <= Qabs (c - o) /\
    Qabs (c - o) <= (h - l) * (3 # 10).
Proof.
  intros body candle_range upper_shadow lower_shadow.
  subst body candle_range upper_shadow lower_shadow.
  rewrite nth_nth_error. unfold mask_and.
  rewrite nth_error_map, !nth_error_map2, !nth_error_map, !nth_error_map2.
  destruct (nth_error high t) as [[h|]|]; destruct (nth_error low t) as [[l|]|];
    destruct (nth_error open t) as [[o|]|]; destruct (nth_error close t) as [[c|]|];
    cbn [option_map fsub lift2 fabs zero_to_nan row_max row_min];
    try discriminate;
    try destruct (Qeq_bool (h - l) 0) eqn:E;
    cbn [option_map fle notna];
    repeat (rewrite ?andb_false_r; cbn [andb as_int]);
    try discriminate.
  intros H. apply as_int_one in H.
  rewrite !andb_true_iff in H. destruct H as [[[H1 H2] H3] _].
  apply Qle_bool_iff in H1, H2, H3. apply Qeq_bool_false in E.
  exists h, l, o, c. repeat split; assumption.
Qed.

Lemma shooting_star_row (high low open close : list (option Q)) (r : Q) (t : nat) :
  let body := map fabs (map2 fsub close open) in
  let candle_range := map zero_to_nan (map2 fsub high low) in
  let upper_shadow := map2 fsub high (map2 row_max open close) in
  let lower_shadow := map2 fsub (map2 row_min open close) low in
  nth t (map as_int
           (mask_and (mask_and (mask_and
              (map2 fle (map (option_map (fun v => r * v)) body) upper_shadow)
              (map2 fle lower_shadow body))
              (map2 fle body (map (option_map (fun v => v * (3 # 10))) candle_range)))
              (map notna candle_range))) 0%Z = 1%Z ->
  exists h l o c,
    nth_error high t = Some (Some h) /\ nth_error low t = Some (Some l) /\
    nth_error open t = Some (Some o) /\ nth_error close t = Some (Some c) /\
    ~ h - l == 0 /\
    r * Qabs (c - o) <= h - (if Qle_bool o c then c else o) /\
    (if Qle_bool o c then o else c) - l <= Qabs (c - o) /\
    Qabs (c - o) <= (h - l) * (3 # 10).
Proof.
  intros body candle_range upper_shadow lower_shadow.
  subst body candle_range upper_shadow lower_shadow.
  rewrite nth_nth_error. unfold mask_and.
  rewrite nth_error_map, !nth_error_map2, !nth_error_map, !nth_error_map2.
  destruct (nth_error high t) as [[h|]|]; destruct (nth_error low t) as [[l|]|];
    destruct (nth_error open t) as [[o|]|]; destruct (nth_error close t) as [[c|]|];
    cbn [option_map fsub lift2 fabs zero_to_nan row_max row_min];
    try discriminate;
    try destruct (Qeq_bool (h - l) 0) eqn:E;
    cbn [option_map fle notna];
    repeat (rewrite ?andb_false_r; cbn [andb as_int]);
    try discriminate.
  intros H. apply as_int_one in H.
  rewrite !andb_true_iff in H. destruct H as [[[H1 H2] H3] _].
  apply Qle_bool_iff in H1, H2, H3. apply Qeq_bool_false in E.
  exists h, l, o, c. repeat split; assumption.
Qed.

Lemma pattern_columns (df : Frame) (A : Type)
    (k : list (option Q) -> list (option Q) -> list (option Q) ->
         list (option Q) -> result A) (a : A) :
  (high <- get_float "high" df ;; low <- get_float "low" df ;;
   open <- get_float "open" df ;; close <- get_float "close" df ;;
   k high low open close) = Ok a ->
  exists high low open close,
    get_float "high" df = Ok high /\ get_float "low" df = Ok low /\
    get_float "open" df = Ok open /\ get_float "close" df = Ok close /\
    k high low open close = Ok a.
Proof.
  intros H.
  apply bind_ok in H. destruct H as (high & Hh & H).
  apply bind_ok in H. destruct H as (low & Hl & H).
  apply bind_ok in H. destruct H as (open & Ho & H).
  apply bind_ok in H. destruct H as (close & Hc & H).
  exists high, low, open, close. auto.
Qed.

Lemma as_int_nth (l : list bool) (t : nat) :
  nth t (map as_int l) 0%Z = 0%Z \/ nth t (map as_int l) 0%Z = 1%Z.
Proof.
  rewrite nth_nth_error, nth_error_map.
  destruct (nth_error l t) as [[|]|]; cbn; auto.
Qed.

(** X28.  With a shadow ratio above 1 for the hammer, a candle marked as a
    hammer is not marked as a shooting star (whatever the shadow ratio of
    the shooting star). *)
Theorem hammer_and_shooting_star_exclude_each_other (df : Frame)
    (hammer_ratio star_ratio : Q) (hammer star : list Z) (t : nat) :
  1 < hammer_ratio ->
  detect_hammer df hammer_ratio = Ok hammer ->
  detect_shooting_star df star_ratio = Ok star ->
  nth t hammer 0%Z = 1%Z -> nth t star 0%Z = 0%Z.
Proof.
  intros Hr Hh Hs H1.
  apply pattern_columns in Hh.
  destruct Hh as (high & low & open & close & Gh & Gl & Go & Gc & Hh).
  unfold detect_shooting_star in Hs. rewrite Gh, Gl, Go, Gc in Hs. cbn [bind] in Hs.
  injection Hh as <-. injection Hs as <-.
  match goal with |- nth t (map as_int ?m) _ = _ =>
    destruct (as_int_nth m t) as [H0|H2]; [exact H0|exfalso] end.
  apply hammer_row in H1. apply shooting_star_row in H2.
  destruct H1 as (h & l & o & c & Eh & El & Eo & Ec & Hn & A1 & A2 & A3).
  destruct H2 as (h' & l' & o' & c' & Eh' & El' & Eo' & Ec' & _ & B1 & B2 & B3).
  rewrite Eh in Eh'. rewrite El in El'. rewrite Eo in Eo'. rewrite Ec in Ec'.
  injection Eh' as <-. injection El' as <-. injection Eo' as <-. injection Ec' as <-.
  pose proof (Qabs_nonneg (c - o)) as Hb.
  assert (Hbody : Qabs (c - o) == 0).
  { destruct (Qlt_le_dec 0 (Qabs (c - o))) as [Hpos|Hle]; [|lra].
    assert (0 < (hammer_ratio - 1) * Qabs (c - o))
      by (apply Qmult_lt_0_compat; lra).
    lra. }
  destruct (Qle_bool o c) eqn:E.
  - apply Qle_bool_iff in E. rewrite Qabs_pos in * by lra. apply Hn. lra.
  - apply Qle_bool_false in E. rewrite Qabs_neg in * by lra. apply Hn. lra.
Qed.

Lemma hammer_and_shooting_star_exclude_each_other_witness :
  detect_hammer Samples.candles 2 = Ok [0; 0; 1]%Z /\
  detect_shooting_star Samples.candles 2 = Ok [0; 0; 0]%Z /\
  nth 2 [0; 0; 0]%Z 0%Z = 0%Z.
Proof.
  split; [reflexivity|]. split; [reflexivity|].
  apply (hammer_and_shooting_star_exclude_each_other Samples.candles 2 2
           [0; 0; 1]%Z [0; 0; 0]%Z 2); reflexivity.
Defined.

(** ** The trend check *)

Lemma nth_error_in_range {A} (l : list A) (t n : nat) :
  List.length l = n -> (t < n)%nat -> exists a, nth_error l t = Some a.
Proof.
  intros Hl Ht. destruct (nth_error l t) as [a|] eqn:E; [eauto|].
  apply nth_error_None in E. lia.
Qed.

Lemma buy_not_sell (s : option string) :
  isin ["BUY"; "STRONG BUY"] s = true -> isin ["SELL"; "STRONG SELL"] s = true -> False.
Proof.
  destruct s as [s|]; [|discriminate]. cbn [isin mem existsb]. rewrite !orb_false_r.
  intros H1 H2. apply orb_true_iff in H1, H2.
  destruct H1 as [H1|H1], H2 as [H2|H2];
    apply String.eqb_eq in H1, H2; congruence.
Qed.

Lemma text_is_true (value : string) (v : option string) :
  text_is value v = true -> v = Some value.
Proof.
  destruct v as [s|]; [|discriminate]. cbn [text_is]. intros H.
  apply String.eqb_eq in H. now subst.
Qed.

Lemma text_is_false (value : string) (v : option string) :
  text_is value v = false -> v <> Some value.
Proof.
  intros H ->. cbn [text_is] in H. now rewrite String.eqb_refl in H.
Qed.

Lemma flt_asym (x y : option Q) : flt x y = true -> flt y x = true -> False.
Proof.
  intros H1 H2. apply flt_below in H1, H2. exact (below_asym _ _ H1 H2).
Qed.

(** X29.  The trend check of the run only demotes: at every row the signal
    is the signal it was given, or HOLD with the strength EMA MISMATCH.
    After it a BUY or STRONG BUY row has its fast average strictly above the
    slow one, a SELL or STRONG SELL row has it strictly below, and a HOLD
    row of strength NEUTRAL has no trend (the averages are equal or one is
    missing). *)
Theorem trend_check_only_demotes (signal : list (option string))
    (signal_strength : option (list (option string)))
    (ema_fast ema_slow : list (option Q))
    (signal' strength' : list (option string)) (n t : nat) :
  enforce_ema_logic signal signal_strength ema_fast ema_slow = (signal', strength') ->
  List.length signal = n -> List.length ema_fast = n -> List.length ema_slow = n ->
  match signal_strength with Some s => List.length s = n | None => True end ->
  (t < n)%nat ->
  let s := nth t signal None in
  let s' := nth t signal' None in
  let st' := nth t strength' None in
  (isin ["BUY"; "STRONG BUY"] s' = true ->
   below (at_row ema_slow t) (at_row ema_fast t)) /\
  (isin ["SELL"; "STRONG SELL"] s' = true ->
   below (at_row ema_fast t) (at_row ema_slow t)) /\
  (s' = s \/ s' = Some "HOLD" /\ st' = Some "EMA MISMATCH") /\
  (s' = Some "HOLD" -> st' = Some "NEUTRAL" ->
   ~ below (at_row ema_slow t) (at_row ema_fast t) /\
   ~ below (at_row ema_fast t) (at_row ema_slow t)).
Proof.
  intros Hrun Ls Lf Lsl Lst Ht.
  set (strength := match signal_strength with
                   | Some s => s
                   | None => repeat (Some "NEUTRAL") (List.length signal)
                   end).
  assert (Lstr : List.length strength = n).
  { subst strength. destruct signal_strength; [exact Lst|now rewrite repeat_length]. }
  unfold enforce_ema_logic in Hrun. fold strength in Hrun.
  injection Hrun as <- <-.
  destruct (nth_error_in_range signal t n Ls Ht) as [s Es].
  destruct (nth_error_in_range strength t n Lstr Ht) as [st Est].
  destruct (nth_error_in_range ema_fast t n Lf Ht) as [f Ef].
  destruct (nth_error_in_range ema_slow t n Lsl Ht) as [sl Esl].
  unfold at_row. rewrite !nth_nth_error. unfold loc_set, mask_and.
  repeat (rewrite ?nth_error_map2, ?nth_error_map, ?Es, ?Est, ?Ef, ?Esl;
          cbn [option_map]).
  rewrite <- !flt_below.
  pose proof (buy_not_sell s) as Hbs.
  pose proof (flt_asym sl f) as Hud.
  destruct (isin ["BUY"; "STRONG BUY"] s) eqn:B1;
    destruct (isin ["SELL"; "STRONG SELL"] s) eqn:B2;
    try (exfalso; now apply Hbs);
    destruct (flt sl f) eqn:U; destruct (flt f sl) eqn:D;
    try (exfalso; now apply Hud);
    cbn [negb andb];
    change (text_is "HOLD" (Some "HOLD")) with true;
    change (text_is "NEUTRAL" (Some "EMA MISMATCH")) with false;
    change (isin ["BUY"; "STRONG BUY"] (Some "HOLD")) with false;
    change (isin ["SELL"; "STRONG SELL"] (Some "HOLD")) with false;
    cbn [negb andb]; rewrite ?B1, ?B2;
    destruct (text_is "HOLD" s) eqn:T1; destruct (text_is "NEUTRAL" st) eqn:T2;
    cbn [negb andb]; rewrite ?T1, ?T2; cbn [negb andb];
    change (text_is "NEUTRAL" (Some "BULLISH")) with false;
    cbn [negb andb]; rewrite ?T1, ?T2;
    try apply text_is_false in T1; try apply text_is_false in T2;
    repeat split; intros; try discriminate; try congruence; auto.
Qed.

Lemma trend_check_only_demotes_witness :
  enforce_ema_logic [Some "BUY"; Some "SELL"; Some "HOLD"] None
    (Fixtures.floats [1; 1; 2]) (Fixtures.floats [2; 2; 1])
  = ([Some "HOLD"; Some "SELL"; Some "HOLD"],
     [Some "EMA MISMATCH"; Some "NEUTRAL"; Some "BULLISH"]) /\
  (isin ["SELL"; "STRONG SELL"] (Some "SELL") = true ->
   below (at_row (Fixtures.floats [1; 1; 2]) 1) (at_row (Fixtures.floats [2; 2; 1]) 1)).
Proof.
  split; [reflexivity|].
  apply (trend_check_only_demotes [Some "BUY"; Some "SELL"; Some "HOLD"] None
           (Fixtures.floats [1; 1; 2]) (Fixtures.floats [2; 2; 1])
           [Some "HOLD"; Some "SELL"; Some "HOLD"]
           [Some "EMA MISMATCH"; Some "NEUTRAL"; Some "BULLISH"] 3 1);
    try reflexivity; try exact I; lia.
Defined.

(** ** A candle without a range *)

Lemma doji_row (high low open close : list (option Q)) (r : Q) (t : nat) :
  let body := map fabs (map2 fsub close open) in
  let candle_range := map zero_to_nan (map2 fsub high low) in
  nth t (map as_int
           (mask_and (map notna candle_range)
              (map2 fle body (map (option_map (fun v => v * r)) candle_range))))
      0%Z = 1%Z ->
  exists h l,
    nth_error high t = Some (Some h) /\ nth_error low t = Some (Some l) /\
    ~ h - l == 0.
Proof.
  intros body candle_range. subst body candle_range.
  rewrite nth_nth_error. unfold mask_and.
  rewrite nth_error_map, !nth_error_map2, !nth_error_map, !nth_error_map2.
  destruct (nth_error high t) as [[h|]|]; destruct (nth_error low t) as [[l|]|];
    cbn [option_map fsub lift2 zero_to_nan notna];
    try destruct (Qeq_bool (h - l) 0) eqn:E;
    cbn [option_map notna];
    try (destruct (nth_error close t) as [c|]; [destruct (nth_error open t)|];
         cbn [option_map andb as_int]; discriminate).
  intros _. apply Qeq_bool_false in E. exists h, l. auto.
Qed.

(** X30.  A candle whose high equals its low is marked neither as a doji,
    nor as a hammer, nor as a shooting star, whatever the ratios. *)
Theorem patterns_need_a_range (df : Frame) (high low : list (option Q))
    (h l : Q) (t : nat) :
  get_float "high" df = Ok high -> get_float "low" df = Ok low ->
  nth_error high t = Some (Some h) -> nth_error low t = Some (Some l) ->
  h == l ->
  (forall ratio out, detect_doji df ratio = Ok out -> nth t out 0%Z = 0%Z) /\
  (forall ratio out, detect_hammer df ratio = Ok out -> nth t out 0%Z = 0%Z) /\
  (forall ratio out, detect_shooting_star df ratio = Ok out -> nth t out 0%Z = 0%Z).
Proof.
  intros Gh Gl Eh El Hflat. repeat split; intros ratio out Hrun.
  - unfold detect_doji in Hrun.
    apply bind_ok in Hrun. destruct Hrun as (close & _ & Hrun).
    apply bind_ok in Hrun. destruct Hrun as (open & _ & Hrun).
    rewrite Gh, Gl in Hrun. cbn [bind] in Hrun. injection Hrun as <-.
    match goal with |- nth t (map as_int ?m) _ = _ =>
      destruct (as_int_nth m t) as [H0|H1]; [exact H0|exfalso] end.
    apply doji_row in H1. destruct H1 as (h' & l' & Eh' & El' & Hn).
    rewrite Eh in Eh'. rewrite El in El'.
    injection Eh' as <-. injection El' as <-. apply Hn. lra.
  - apply pattern_columns in Hrun.
    destruct Hrun as (high' & low' & open & close & Gh' & Gl' & _ & _ & Hrun).
    rewrite Gh in Gh'. rewrite Gl in Gl'. injection Gh' as <-. injection Gl' as <-.
    injection Hrun as <-.
    match goal with |- nth t (map as_int ?m) _ = _ =>
      destruct (as_int_nth m t) as [H0|H1]; [exact H0|exfalso] end.
    apply hammer_row in H1.
    destruct H1 as (h' & l' & o & c & Eh' & El' & _ & _ & Hn & _).
    rewrite Eh in Eh'. rewrite El in El'.
    injection Eh' as <-. injection El' as <-. apply Hn. lra.
  - apply pattern_columns in Hrun.
    destruct Hrun as (high' & low' & open & close & Gh' & Gl' & _ & _ & Hrun).
    rewrite Gh in Gh'. rewrite Gl in Gl'. injection Gh' as <-. injection Gl' as <-.
    injection Hrun as <-.
    match goal with |- nth t (map as_int ?m) _ = _ =>
      destruct (as_int_nth m t) as [H0|H1]; [exact H0|exfalso] end.
    apply shooting_star_row in H1.
    destruct H1 as (h' & l' & o & c & Eh' & El' & _ & _ & Hn & _).
    rewrite Eh in Eh'. rewrite El in El'.
    injection Eh' as <-. injection El' as <-. apply Hn. lra.
Qed.

Lemma patterns_need_a_range_witness :
  detect_doji Samples.flat_candle (1 # 10) = Ok [0%Z] /\
  nth 0 [0%Z] 0%Z = 0%Z.
Proof.
  split; [reflexivity|].
  destruct (patterns_need_a_range Samples.flat_candle
              (Fixtures.floats [100]) (Fixtures.floats [100]) 100 100 0)
    as (Hdoji & _);
    [reflexivity|reflexivity|reflexivity|reflexivity|reflexivity|].
  apply (Hdoji (1 # 10)). reflexivity.
Defined.
